(** * The template-driven lexer of [lexer.py]

  A shallow embedding of [Token], [TokenTemplate], [ProgramCounter],
  [UnknownSymbolError] and [Lexer], followed by the properties of
  [Lexer.tokenize].

  Python integers are [Z], Python [str] is [string] (one [ascii] per
  character), [Optional] is [option].  A call that may raise returns a
  [result]; the [while] loop of [tokenize], which need not terminate, is
  driven by a fuel counter that bounds the number of evaluations of its
  condition.  The attributes the lexer keeps on [self] ([tokens] and
  [line_counter]) are threaded explicitly through the loop. *)

From Stdlib Require Import ZArith List String Ascii Bool Lia DecimalString.
Import ListNotations.
Local Open Scope Z_scope.

(** ** The fragment of the Python runtime the lexer relies on *)

Module Py.

(** Exceptions that can leave [tokenize]: its own [UnknownSymbolError],
    whose only payload is the message handed to [Exception.__init__]; the
    [TypeError] of [len] on an object without a length; the [IndexError] of
    an out-of-range subscript; and whatever a user callback raises
    ([ValueError] for [int], anything else under [Other]). *)
Inductive exn : Type :=
| UnknownSymbolError (errmsg : string)
| TypeError
| IndexError
| ValueError
| Other (what : string).

Inductive result (A : Type) : Type :=
| Ok (a : A)
| Raise (e : exn).
Arguments Ok {A} a.
Arguments Raise {A} e.

Definition bind {A B : Type} (r : result A) (k : A -> result B) : result B :=
  match r with
  | Ok a => k a
  | Raise e => Raise e
  end.

(** What a token's [lexeme] can hold: the matched text, or what a callback
    made of it.  [VInt] stands for the values without [__len__] that have a
    non-empty [str]; [VNone] is Python's [None]. *)
Inductive value : Type :=
| VStr (s : string)
| VInt (n : Z)
| VNone.

(** [len(s)] on a [str]. *)
Definition len (s : string) : Z := Z.of_nat (String.length s).

(** [len(v)] on any object. *)
Definition len_value (v : value) : result Z :=
  match v with
  | VStr s => Ok (len s)
  | VInt _ => Raise TypeError
  | VNone => Raise TypeError
  end.

(** [str(v)]. *)
Definition str (v : value) : string :=
  match v with
  | VStr s => s
  | VInt n => NilZero.string_of_int (Z.to_int n)
  | VNone => "None"
  end.

(** [text[lo:hi]] for [0 <= lo]. *)
Definition slice (text : string) (lo hi : Z) : string :=
  substring (Z.to_nat lo) (Z.to_nat (hi - lo)) text.

(** [text.split(sep)] for a one-character separator. *)
Fixpoint split (sep : ascii) (text : string) : list string :=
  match text with
  | EmptyString => [EmptyString]
  | String c rest =>
      if Ascii.eqb c sep then EmptyString :: split sep rest
      else match split sep rest with
           | [] => [String c EmptyString]
           | piece :: pieces => String c piece :: pieces
           end
  end.

(** [l[i]]: negative indices count from the end, out of range raises. *)
Definition getitem {A : Type} (l : list A) (i : Z) : result A :=
  let n := Z.of_nat (List.length l) in
  let j := if i <? 0 then i + n else i in
  if (j <? 0) || (n <=? j) then Raise IndexError
  else match nth_error l (Z.to_nat j) with
       | Some a => Ok a
       | None => Raise IndexError
       end.

(** [s * n]: the empty string when [n <= 0]. *)
Definition repeat (s : string) (n : Z) : string :=
  Nat.iter (Z.to_nat n) (String.append s) EmptyString.

(** [x in l] for a sequence of strings. *)
Definition contains (l : list string) (x : string) : bool :=
  existsb (String.eqb x) l.

End Py.

Import Py.

Notation "x <- e ;; k" := (Py.bind e (fun x => k))
(at level 61, e at next level, right associativity).

Definition NEWLINE : ascii := "010"%char.
Definition LF : string := String NEWLINE EmptyString.
Definition TAB : string := String "009"%char EmptyString.

(** ** [class UnknownSymbolError] *)

Module UnknownSymbolError.

(** The f-string of [__init__]. *)
Definition errmsg (excerpt diagram : string) (line col : Z) : string :=
  ("Unable to parse symbol at position " ++ str (VInt col)
     ++ " on line " ++ str (VInt line) ++ "." ++ LF
     ++ TAB ++ "Near here:" ++ LF
     ++ TAB ++ TAB ++ excerpt ++ LF
     ++ TAB ++ TAB ++ diagram)%string.

(** [UnknownSymbolError(text, line, col)]: the subscript of the split text
    can itself raise. *)
Definition new (text : string) (line col : Z) : result exn :=
  excerpt <- getitem (split NEWLINE text) (line - 1) ;;
  let diagram := (Py.repeat "-" (col - 1) ++ "^")%string in
  Ok (UnknownSymbolError (errmsg excerpt diagram line col)).

End UnknownSymbolError.

(** ** [class Token] *)

Module Token.

Record t : Type := mk {
  token_type : string;
  lexeme : value;
  start : Z;
  end_ : Z;
  line : Z;
  column : Z
}.

(** [__repr__]. *)
Definition __repr__ (self : t) : string :=
  ("Token(" ++ token_type self ++ ", " ++ str (lexeme self) ++ ", "
     ++ str (VInt (line self)) ++ "[" ++ str (VInt (column self)) ++ "])")%string.

(** [__len__]: the length of the printed lexeme. *)
Definition __len__ (self : t) : Z := len (str (lexeme self)).

(** The truth value of a token: [Token] defines [__len__] and no
    [__bool__], so a token is true when its [__len__] is not zero. *)
Definition truth (self : t) : bool := negb (__len__ self =? 0).

End Token.

(** ** [class TokenTemplate] *)

Module TokenTemplate.

(** A match object, as far as [match] reads it: its span.  [group()] is
    the slice of the subject between the two. *)
Record Match : Type := mkMatch {
  m_start : Z;
  m_end : Z
}.

Definition group (text : string) (matched : Match) : string :=
  slice text (m_start matched) (m_end matched).

(** A compiled pattern, given by its method [match(text, pos)]. *)
Definition Pattern : Type := string -> Z -> option Match.

Record t : Type := mk {
  token_type : string;
  regular_expression : Pattern;
  callback : option (string -> result value)
}.

(** The loop [for char in value] of [match]. *)
Fixpoint for_char (value : string) (line column : Z) : Z * Z :=
  match value with
  | EmptyString => (line, column)
  | String char rest =>
      if Ascii.eqb char NEWLINE then for_char rest (line + 1) 1
      else for_char rest line column
  end.

Definition match_ (self : t) (text : string) (start line column : Z)
  : result (option Token.t) :=
  match regular_expression self text start with
  | None => Ok None
  | Some matched =>
      let end_ := m_end matched in
      let value := group text matched in
      let '(line, column) := for_char value line column in
      match callback self with
      | Some cb =>
          value <- cb value ;;
          Ok (Some (Token.mk (token_type self) value start end_ line column))
      | None =>
          Ok (Some (Token.mk (token_type self) (VStr value) start end_ line column))
      end
  end.

End TokenTemplate.

(** ** [class ProgramCounter] *)

Module ProgramCounter.

Record t : Type := mk {
  start : Z;
  line : Z;
  column : Z
}.

(** [__init__]. *)
Definition new : t := {| start := 0; line := 1; column := 1 |}.

(** [current], with the counter it leaves behind. *)
Definition current (self : t) : (Z * Z * Z) * t :=
  ((line self, start self, column self), self).

(** [accept]: the branch reads the old [line] before it is overwritten. *)
Definition accept (self : t) (token : Token.t) : t :=
  let column' :=
    if negb (Token.line token =? line self) then 1
    else column self + (Token.end_ token - Token.start token) in
  {| start := Token.end_ token;
     line := Token.line token;
     column := column' |}.

End ProgramCounter.

(** ** [class Lexer] *)

Module Lexer.

(** What a run of [tokenize] comes to: it returns, it raises, or the fuel
    given to its [while] loop is used up. *)
Inductive outcome (A : Type) : Type :=
| Return (a : A)
| Raised (e : exn)
| OutOfFuel.
Arguments Return {A} a.
Arguments Raised {A} e.
Arguments OutOfFuel {A}.

(** The three slots of a lexer.  [__init__] only sets [templates];
    [tokenize] assigns the other two before it reads them. *)
Record t : Type := mk {
  templates : list TokenTemplate.t;
  tokens : list Token.t;
  line_counter : ProgramCounter.t
}.

(** [__init__]: [templates or tuple()]. *)
Definition new (templates : list TokenTemplate.t) : t :=
  {| templates := match templates with [] => [] | _ :: _ => templates end;
     tokens := [];
     line_counter := ProgramCounter.new |}.

(** [__best]: the comparison is on [len] of the two lexemes, evaluated left
    to right. *)
Definition __best (best other : Token.t) : result Token.t :=
  n_best <- len_value (Token.lexeme best) ;;
  n_other <- len_value (Token.lexeme other) ;;
  Ok (if n_best >? n_other then best else other).

(** [__accept]. *)
Definition __accept (self : t) (token : Token.t) : t :=
  {| templates := templates self;
     tokens := tokens self ++ [token];
     line_counter := ProgramCounter.accept (line_counter self) token |}.

Definition __start (self : t) : Z := ProgramCounter.start (line_counter self).
Definition __line (self : t) : Z := ProgramCounter.line (line_counter self).
Definition __column (self : t) : Z := ProgramCounter.column (line_counter self).

(** [not x] for an [Optional[Token]]: [None] is false, a token has the truth
    value of its [__len__]. *)
Definition not_ (x : option Token.t) : bool :=
  match x with
  | None => true
  | Some token => negb (Token.truth token)
  end.

(** The loop [for template in self.templates] of [tokenize], from the
    templates still to visit and the current [best]. *)
Fixpoint tokenize_for (todo : list TokenTemplate.t) (self : t) (text : string)
  (best : option Token.t) : result (option Token.t) :=
  match todo with
  | [] => Ok best
  | template :: todo' =>
      token <- TokenTemplate.match_ template text
                 (__start self) (__line self) (__column self) ;;
      if not_ token then tokenize_for todo' self text best
      else if not_ best then tokenize_for todo' self text token
      else match best, token with
           | Some best, Some token =>
               best <- __best best token ;;
               tokenize_for todo' self text (Some best)
           | _, _ => tokenize_for todo' self text best
           end
  end.

(** The body of the [while] loop: one pass over the templates, then either
    the raise or the accept. *)
Definition tokenize_body (self : t) (text : string) : result t :=
  best <- tokenize_for (templates self) self text None ;;
  match best with
  | Some token =>
      if not_ best then
        e <- UnknownSymbolError.new text (__line self) (__column self) ;;
        Raise e
      else Ok (__accept self token)
  | None =>
      e <- UnknownSymbolError.new text (__line self) (__column self) ;;
      Raise e
  end.

(** The loop [while not self.__start == len(text)].  One unit of fuel pays
    for one evaluation of the condition. *)
Fixpoint tokenize_while (fuel : nat) (self : t) (text : string)
  : outcome unit * t :=
  match fuel with
  | O => (OutOfFuel, self)
  | S fuel' =>
      if negb (__start self =? len text) then
        match tokenize_body self text with
        | Ok self' => tokenize_while fuel' self' text
        | Raise e => (Raised e, self)
        end
      else (Return tt, self)
  end.

(** The first two assignments of [tokenize] on [self]. *)
Definition reset (self : t) : t :=
  {| templates := templates self;
     tokens := [];
     line_counter := ProgramCounter.new |}.

(** [filter_types or []]. *)
Definition or_empty (filter_types : option (list string)) : list string :=
  match filter_types with
  | None => []
  | Some [] => []
  | Some (x :: l) => x :: l
  end.

(** [tokenize]: the value returned or the exception raised, and the lexer
    as the call leaves it. *)
Definition tokenize (fuel : nat) (self : t) (text : string)
  (filter_types : option (list string)) : outcome (list Token.t) * t :=
  let filter_types := or_empty filter_types in
  let self := reset self in
  match tokenize_while fuel self text with
  | (Return _, self) =>
      (Return (filter (fun x => negb (contains filter_types (Token.token_type x)))
                 (tokens self)),
       self)
  | (Raised e, self) => (Raised e, self)
  | (OutOfFuel, self) => (OutOfFuel, self)
  end.

End Lexer.

(** ** Vocabulary of the properties *)

(** The number of newline characters of a string. *)
Fixpoint count_newlines (s : string) : Z :=
  match s with
  | EmptyString => 0
  | String c rest => (if Ascii.eqb c NEWLINE then 1 else 0) + count_newlines rest
  end.

(** What [re.Pattern.match(text, pos)] guarantees for a position inside the
    text: the match it returns begins at [pos] and ends inside the text. *)
Definition match_contract (p : TokenTemplate.Pattern) : Prop :=
  forall text pos matched,
    0 <= pos <= len text ->
    p text pos = Some matched ->
    TokenTemplate.m_start matched = pos /\
    pos <= TokenTemplate.m_end matched <= len text.

(** The spans of [toks], in order, lead from [lo] to [hi] without a gap or
    an overlap. *)
Fixpoint contiguous (lo : Z) (toks : list Token.t) (hi : Z) : Prop :=
  match toks with
  | [] => lo = hi
  | token :: rest => Token.start token = lo /\ contiguous (Token.end_ token) rest hi
  end.

(** [removes P raw out]: [out] is [raw] with exactly the elements that
    satisfy [P] taken out, the others kept in their order. *)
Inductive removes {A : Type} (P : A -> Prop) : list A -> list A -> Prop :=
| removes_nil : removes P [] []
| removes_drop x raw out : P x -> removes P raw out -> removes P (x :: raw) out
| removes_keep x raw out : ~ P x -> removes P raw out -> removes P (x :: raw) (x :: out).

(** [reaches text n self self']: [n] passes of the loop body of [tokenize]
    lead from [self] to [self'], the loop condition holding before each. *)
Inductive reaches (text : string) : nat -> Lexer.t -> Lexer.t -> Prop :=
| reaches_here self : reaches text O self self
| reaches_next n self mid self' :
    reaches text n self mid ->
    Lexer.__start mid <> len text ->
    Lexer.tokenize_body mid text = Ok self' ->
    reaches text (S n) self self'.

(** The call of [match] the pass makes for one template. *)
Definition attempt (self : Lexer.t) (text : string) (template : TokenTemplate.t)
  : result (option Token.t) :=
  TokenTemplate.match_ template text
    (Lexer.__start self) (Lexer.__line self) (Lexer.__column self).

(** The token the pass over the templates settles on at the position of
    [self], if any. *)
Definition winner (self : Lexer.t) (text : string) : result (option Token.t) :=
  Lexer.tokenize_for (Lexer.templates self) self text None.

(** No template of the lexer matches at the position of [self]. *)
Definition no_match (self : Lexer.t) (text : string) : Prop :=
  Forall (fun template =>
            TokenTemplate.regular_expression template text (Lexer.__start self) = None)
         (Lexer.templates self).

(** The length of the raw match behind a token. *)
Definition span (token : Token.t) : Z := Token.end_ token - Token.start token.

(** At the position of [self] the template raises nothing, and the value of
    the token it produces, if any, has the length of the raw match, as it
    does when there is no callback. *)
Definition value_length (self : Lexer.t) (text : string)
  (template : TokenTemplate.t) : Prop :=
  exists r,
    attempt self text template = Ok r /\
    forall token, r = Some token ->
      len_value (Token.lexeme token) = Ok (span token).

(** [best] is nothing, or a true token whose value has the length of its
    match, itself no longer than [bound]. *)
Definition at_most (bound : Z) (best : option Token.t) : Prop :=
  match best with
  | None => True
  | Some token =>
      Token.truth token = true /\
      len_value (Token.lexeme token) = Ok (span token) /\
      span token <= bound
  end.

(** The position of [self] lies inside [text], with the line one more than
    the number of newlines before the offset and a column of at least 1. *)
Definition well_placed (self : Lexer.t) (text : string) : Prop :=
  0 <= Lexer.__start self <= len text /\
  Lexer.__line self = 1 + count_newlines (slice text 0 (Lexer.__start self)) /\
  1 <= Lexer.__column self.

(** Every pattern of the lexer keeps the contract of [match]. *)
Definition contracts (self : Lexer.t) : Prop :=
  Forall (fun template => match_contract (TokenTemplate.regular_expression template))
         (Lexer.templates self).

(** ** Compiled patterns and callbacks for the examples *)

Module Re.

(** [pos] as the matcher takes it: brought back inside the text. *)
Definition clamp (text : string) (pos : Z) : Z := Z.max 0 (Z.min pos (len text)).

(** The text from [pos] on. *)
Definition rest (text : string) (pos : Z) : string :=
  substring (Z.to_nat pos) (String.length text - Z.to_nat pos) text.

(** The length of the longest run of characters of [cls] that [s] begins
    with. *)
Fixpoint run (cls : ascii -> bool) (s : string) : nat :=
  match s with
  | EmptyString => O
  | String c s' => if cls c then S (run cls s') else O
  end.

(** The pattern of a literal string without metacharacters. *)
Definition literal (lit : string) : TokenTemplate.Pattern :=
  fun text pos =>
    let pos := clamp text pos in
    if String.prefix lit (rest text pos)
    then Some (TokenTemplate.mkMatch pos (pos + len lit))
    else None.

(** The pattern [[cls]+]. *)
Definition plus (cls : ascii -> bool) : TokenTemplate.Pattern :=
  fun text pos =>
    let pos := clamp text pos in
    match run cls (rest text pos) with
    | O => None
    | S n => Some (TokenTemplate.mkMatch pos (pos + Z.of_nat (S n)))
    end.

(** The pattern [[cls]*]. *)
Definition star (cls : ascii -> bool) : TokenTemplate.Pattern :=
  fun text pos =>
    let pos := clamp text pos in
    Some (TokenTemplate.mkMatch pos (pos + Z.of_nat (run cls (rest text pos)))).

(** The pattern [[cls]]: one character. *)
Definition one (cls : ascii -> bool) : TokenTemplate.Pattern :=
  fun text pos =>
    let pos := clamp text pos in
    match rest text pos with
    | String c _ =>
        if cls c then Some (TokenTemplate.mkMatch pos (pos + 1)) else None
    | EmptyString => None
    end.

(** The pattern [[head][tail]*]. *)
Definition one_star (head tail : ascii -> bool) : TokenTemplate.Pattern :=
  fun text pos =>
    let pos := clamp text pos in
    match rest text pos with
    | String c s' =>
        if head c
        then Some (TokenTemplate.mkMatch pos (pos + 1 + Z.of_nat (run tail s')))
        else None
    | EmptyString => None
    end.

(** The greatest index from 1 to [k] at which [s] holds [q]. *)
Fixpoint last_at (q : ascii) (s : string) (k : nat) : option nat :=
  match k with
  | O => None
  | S k' =>
      match String.get k s with
      | Some c => if Ascii.eqb c q then Some k else last_at q s k'
      | None => last_at q s k'
      end
  end.

(** The pattern [q[cls]+q]: the run of [cls] is taken as long as it goes and
    given back character by character until [q] follows. *)
Definition quoted (q : ascii) (cls : ascii -> bool) : TokenTemplate.Pattern :=
  fun text pos =>
    let pos := clamp text pos in
    match rest text pos with
    | String c s' =>
        if Ascii.eqb c q then
          match last_at q s' (run cls s') with
          | Some k => Some (TokenTemplate.mkMatch pos (pos + 1 + Z.of_nat k + 1))
          | None => None
          end
        else None
    | EmptyString => None
    end.

(** The pattern [(?s).*?lit]: up to the first occurrence of [lit]. *)
Definition until (lit : string) : TokenTemplate.Pattern :=
  fun text pos =>
    let pos := clamp text pos in
    match String.index 0 lit (rest text pos) with
    | Some i => Some (TokenTemplate.mkMatch pos (pos + Z.of_nat i + len lit))
    | None => None
    end.

Definition code (c : ascii) : Z := Z.of_nat (nat_of_ascii c).

(** [[a-z]]. *)
Definition lower (c : ascii) : bool := (97 <=? code c) && (code c <=? 122).
(** [[a-zA-Z]]. *)
Definition alpha (c : ascii) : bool :=
  lower c || ((65 <=? code c) && (code c <=? 90)).
(** [[0-9]]. *)
Definition digit (c : ascii) : bool := (48 <=? code c) && (code c <=? 57).
(** [[a-z_]]. *)
Definition ident_head (c : ascii) : bool := lower c || (code c =? 95).
(** [[a-z0-9_]]. *)
Definition ident_tail (c : ascii) : bool := lower c || digit c || (code c =? 95).
(** [\n]. *)
Definition newline (c : ascii) : bool := Ascii.eqb c NEWLINE.
(** [[A-Z_]]. *)
Definition token_head (c : ascii) : bool :=
  ((65 <=? code c) && (code c <=? 90)) || (code c =? 95).
(** [[A-Z0-9_]]. *)
Definition token_tail (c : ascii) : bool := token_head c || digit c.
(** The class of the quoted literals: blank, letters, underscore, digits,
    full stop, comma, exclamation mark, both quotes and the dollar sign. *)
Definition literal_char (c : ascii) : bool :=
  (code c =? 32) || alpha c || (code c =? 95) || digit c || (code c =? 46)
  || (code c =? 44) || (code c =? 33) || (code c =? 34) || (code c =? 39)
  || (code c =? 36).
(** [\s] on the characters up to 255. *)
Definition space (c : ascii) : bool :=
  ((9 <=? code c) && (code c <=? 13)) || ((28 <=? code c) && (code c <=? 32))
  || (code c =? 133) || (code c =? 160).

(** [int] on a run of ASCII digits, the only strings the examples hand to
    it; any other string is answered with [ValueError]. *)
Fixpoint int_digits (s : string) (acc : Z) : result Z :=
  match s with
  | EmptyString => Ok acc
  | String c s' =>
      if digit c then int_digits s' (10 * acc + (code c - 48))
      else Raise ValueError
  end.

Definition int (s : string) : result value :=
  match s with
  | EmptyString => Raise ValueError
  | String _ _ => n <- int_digits s 0 ;; Ok (VInt n)
  end.

(** [lambda _: v]. *)
Definition const (v : string) : string -> result value := fun _ => Ok (VStr v).

End Re.

(** ** Lexers for the examples *)

Module Ex.

(** [KEYWORD=for] declared before [WORD=[a-zA-Z]+]. *)
Definition keyword_template : TokenTemplate.t :=
  TokenTemplate.mk "KEYWORD" (Re.literal "for") None.
Definition word_template : TokenTemplate.t :=
  TokenTemplate.mk "WORD" (Re.plus Re.alpha) None.
Definition keyword_word : Lexer.t := Lexer.new [keyword_template; word_template].

(** [IDENTIFIER=[a-z_][a-z0-9_]*], [OPERATOR=::=], [WHITESPACE=\s+]. *)
Definition ident_op_space : Lexer.t :=
  Lexer.new [TokenTemplate.mk "IDENTIFIER" (Re.one_star Re.ident_head Re.ident_tail) None;
             TokenTemplate.mk "OPERATOR" (Re.literal "::=") None;
             TokenTemplate.mk "WHITESPACE" (Re.plus Re.space) None].

(** [NUMBER=\d+] with [int], [WHITESPACE=\s+]. *)
Definition number_space : Lexer.t :=
  Lexer.new [TokenTemplate.mk "NUMBER" (Re.plus Re.digit) (Some Re.int);
             TokenTemplate.mk "WHITESPACE" (Re.plus Re.space) None].

(** [DIGIT=[0-9]] and nothing for blanks. *)
Definition digit_only : Lexer.t :=
  Lexer.new [TokenTemplate.mk "DIGIT" (Re.one Re.digit) None].

(** [BLOCK=(?s).*?END]. *)
Definition block : Lexer.t :=
  Lexer.new [TokenTemplate.mk "BLOCK" (Re.until "END") None].

(** [INITIAL=[a-z]+] with [lambda _: "x"] and [PAIR=ab], in both orders,
    and the tokens the two produce at the start of [abc]. *)
Definition initial_template : TokenTemplate.t :=
  TokenTemplate.mk "INITIAL" (Re.plus Re.lower) (Some (Re.const "x")).
Definition pair_template : TokenTemplate.t :=
  TokenTemplate.mk "PAIR" (Re.literal "ab") None.
Definition initial_pair : Lexer.t := Lexer.new [initial_template; pair_template].
Definition pair_initial : Lexer.t := Lexer.new [pair_template; initial_template].
Definition abc_text : string := "abc".
Definition initial_token : Token.t := Token.mk "INITIAL" (VStr "x") 0 3 1 1.
Definition pair_token : Token.t := Token.mk "PAIR" (VStr "ab") 0 2 1 1.
Definition initial_token' : Token.t := Token.mk "INITIAL" (VStr "x") 2 3 1 3.

(** [NUMBER=\d+] with [int], declared before [WORD=[a-z0-9_]+]. *)
Definition number_word : Lexer.t :=
  Lexer.new [TokenTemplate.mk "NUMBER" (Re.plus Re.digit) (Some Re.int);
             TokenTemplate.mk "WORD" (Re.plus Re.ident_tail) None].
Definition digits_text : string := "12".

(** [MARK=\d*] with [lambda _: "x"], declared before [WORD=[a-z]+]. *)
Definition mark_word : Lexer.t :=
  Lexer.new [TokenTemplate.mk "MARK" (Re.star Re.digit) (Some (Re.const "x"));
             TokenTemplate.mk "WORD" (Re.plus Re.lower) None].

(** The [BLOCK] template on a text of three lines. *)
Definition block_template : TokenTemplate.t :=
  TokenTemplate.mk "BLOCK" (Re.until "END") None.
Definition block_text : string := ("a" ++ LF ++ "b" ++ LF ++ "END")%string.
Definition block_token : Token.t :=
  Token.mk "BLOCK" (VStr block_text) 0 7 3 1.

(** The [NUMBER] template and the token of the second number of [12 345]. *)
Definition number_template : TokenTemplate.t :=
  TokenTemplate.mk "NUMBER" (Re.plus Re.digit) (Some Re.int).
Definition number_token : Token.t :=
  Token.mk "NUMBER" (VInt 345) 3 6 1 4.

(** A counter in the middle of a line, a token on that line and one on the
    next. *)
Definition counter_mid : ProgramCounter.t := ProgramCounter.mk 3 1 4.
Definition token_same_line : Token.t := Token.mk "WORD" (VStr "abc") 3 6 1 4.
Definition token_next_line : Token.t := Token.mk "NEWLINE" (VStr LF) 3 4 2 1.

(** The first scenario: an assignment, blanks filtered out. *)
Definition assign_text : string := "abc ::= def".
Definition assign_filter : option (list string) := Some ["WHITESPACE"%string].
Definition assign_run : Lexer.outcome (list Token.t) * Lexer.t :=
  Lexer.tokenize 6 ident_op_space assign_text assign_filter.
Definition assign_out : list Token.t :=
  [Token.mk "IDENTIFIER" (VStr "abc") 0 3 1 1;
   Token.mk "OPERATOR" (VStr "::=") 4 7 1 5;
   Token.mk "IDENTIFIER" (VStr "def") 8 11 1 9].

(** The fourth scenario: a blank the templates do not cover, and the lexer
    as it stands in front of it. *)
Definition gap_text : string := "1 2".
Definition gap_here : Lexer.t :=
  Lexer.__accept (Lexer.reset digit_only) (Token.mk "DIGIT" (VStr "1") 0 1 1 1).

(** A text on which [mark_word] accepts a word and then, in front of the
    [!], an empty match of [MARK] made true by its callback. *)
Definition stall_text : string := "ab!".
Definition stall_here : Lexer.t :=
  Lexer.__accept (Lexer.reset mark_word) (Token.mk "WORD" (VStr "ab") 0 2 1 1).
Definition stall_token : Token.t := Token.mk "MARK" (VStr "x") 2 2 1 3.

(** The third scenario: a keyword that is also a word. *)
Definition for_text : string := "for".
Definition keyword_token : Token.t := Token.mk "KEYWORD" (VStr "for") 0 3 1 1.
Definition word_token : Token.t := Token.mk "WORD" (VStr "for") 0 3 1 1.

(** The example of the docstring of the module: its templates, its text,
    its filter and the lines it prints. *)
Definition SQ : ascii := "039"%char.
Definition DQ : ascii := "034"%char.
Definition dq : string := String DQ EmptyString.

Definition docstring_lexer : Lexer.t :=
  Lexer.new
    [TokenTemplate.mk "IDENTIFIER" (Re.one_star Re.ident_head Re.ident_tail) None;
     TokenTemplate.mk "TOKEN" (Re.one_star Re.token_head Re.token_tail) None;
     TokenTemplate.mk "LITERAL" (Re.quoted SQ Re.literal_char) None;
     TokenTemplate.mk "LITERAL" (Re.quoted DQ Re.literal_char) None;
     TokenTemplate.mk "LITERAL" (Re.plus Re.digit) (Some Re.int);
     TokenTemplate.mk "OPERATOR" (Re.literal "::=") None;
     TokenTemplate.mk "OPERATOR" (Re.literal "*") None;
     TokenTemplate.mk "OPERATOR" (Re.literal "?") None;
     TokenTemplate.mk "OPERATOR" (Re.literal "+") None;
     TokenTemplate.mk "OPERATOR" (Re.literal "|") None;
     TokenTemplate.mk "DELIMITER" (Re.literal ")") None;
     TokenTemplate.mk "DELIMITER" (Re.literal "(") None;
     TokenTemplate.mk "WHITESPACE" (Re.literal " ") None;
     TokenTemplate.mk "NEWLINE" (Re.literal LF) (Some (Re.const LF));
     TokenTemplate.mk "FOR" (Re.literal "for") None].

Definition docstring_text : string :=
  (LF ++ "name ::= definition (" ++ dq ++ "," ++ dq ++ " definition)*" ++ LF
      ++ "definition ::= TOKEN" ++ LF
      ++ "TOKEN ::= " ++ dq ++ "literal" ++ dq ++ " | "
      ++ dq ++ "other 'nested' literal" ++ dq ++ LF
      ++ "forget ::= (for ::= forget for get)" ++ LF)%string.

Definition docstring_filter : option (list string) :=
  Some ["NEWLINE"%string; "WHITESPACE"%string].

Definition docstring_printed : list string :=
  ["Token(IDENTIFIER, name, 2[1])";
   "Token(OPERATOR, ::=, 2[6])";
   "Token(IDENTIFIER, definition, 2[10])";
   "Token(DELIMITER, (, 2[21])";
   "Token(LITERAL, " ++ dq ++ "," ++ dq ++ ", 2[22])";
   "Token(IDENTIFIER, definition, 2[26])";
   "Token(DELIMITER, ), 2[36])";
   "Token(OPERATOR, *, 2[37])";
   "Token(IDENTIFIER, definition, 3[1])";
   "Token(OPERATOR, ::=, 3[12])";
   "Token(TOKEN, TOKEN, 3[16])";
   "Token(TOKEN, TOKEN, 4[1])";
   "Token(OPERATOR, ::=, 4[7])";
   "Token(LITERAL, " ++ dq ++ "literal" ++ dq ++ ", 4[11])";
   "Token(OPERATOR, |, 4[21])";
   "Token(LITERAL, " ++ dq ++ "other 'nested' literal" ++ dq ++ ", 4[23])";
   "Token(IDENTIFIER, forget, 5[1])";
   "Token(OPERATOR, ::=, 5[8])";
   "Token(DELIMITER, (, 5[12])";
   "Token(FOR, for, 5[13])";
   "Token(OPERATOR, ::=, 5[17])";
   "Token(IDENTIFIER, forget, 5[21])";
   "Token(FOR, for, 5[28])";
   "Token(IDENTIFIER, get, 5[32])";
   "Token(DELIMITER, ), 5[35])"]%string.

(** What a run prints token by token, when it returns. *)
Definition printed (run : Lexer.outcome (list Token.t) * Lexer.t) : option (list string) :=
  match fst run with
  | Lexer.Return out => Some (map Token.__repr__ out)
  | _ => None
  end.

End Ex.

(** ** Vocabulary of the properties of whole runs *)

(** The column, counted on from [col], of the position just after [s]: a
    newline brings it back to 1, any other character moves it on by 1. *)
Fixpoint column_after (s : string) (col : Z) : Z :=
  match s with
  | EmptyString => col
  | String c rest =>
      if Ascii.eqb c NEWLINE then column_after rest 1
      else column_after rest (col + 1)
  end.

(** The 1-based column of the offset [pos] of [text]. *)
Definition true_column (text : string) (pos : Z) : Z :=
  column_after (slice text 0 pos) 1.

Fixpoint last_is_newline (s : string) : bool :=
  match s with
  | EmptyString => false
  | String c EmptyString => Ascii.eqb c NEWLINE
  | String _ rest => last_is_newline rest
  end.

(** [s] holds no newline, or ends with one. *)
Definition breaks_last (s : string) : bool :=
  (count_newlines s =? 0) || last_is_newline s.

(** The raw text behind a token. *)
Definition raw (text : string) (token : Token.t) : string :=
  slice text (Token.start token) (Token.end_ token).

(** [str] of the lexemes, joined without a separator. *)
Definition join_lexemes (toks : list Token.t) : string :=
  fold_right (fun token acc => (str (Token.lexeme token) ++ acc)%string)
             EmptyString toks.

(** No template of the lexer has a callback. *)
Definition plain (self : Lexer.t) : Prop :=
  Forall (fun template => TokenTemplate.callback template = None)
         (Lexer.templates self).

(** The number of lines [split] cuts a text into. *)
Definition line_count (text : string) : Z := 1 + count_newlines text.

Module Sample.

(** [WORD=[a-z]+], [BLANK= ] and [NEWLINE=\n], and a text of two lines. *)
Definition word_blank_newline : Lexer.t :=
  Lexer.new [TokenTemplate.mk "WORD" (Re.plus Re.lower) None;
             TokenTemplate.mk "BLANK" (Re.literal " ") None;
             TokenTemplate.mk "NEWLINE" (Re.literal LF) None].
Definition two_lines : string := ("ab cd" ++ LF ++ "ef")%string.
Definition two_lines_run : Lexer.outcome (list Token.t) * Lexer.t :=
  Lexer.tokenize 7 word_blank_newline two_lines None.

(** The same templates on a text with a character none of them covers. *)
Definition broken_line : string := ("ab" ++ LF ++ "c?d")%string.
Definition broken_line_run : Lexer.outcome (list Token.t) * Lexer.t :=
  Lexer.tokenize 9 word_blank_newline broken_line None.

End Sample.

(** * The Roman numerals of [numerus.py] *)

Module Numerus.

(** What a conversion comes to: a value, or the [ValueError] it raises with
    its message. *)
Inductive result (A : Type) : Type :=
| Ok (a : A)
| ValueError (msg : string).
Arguments Ok {A} a.
Arguments ValueError {A} msg.

(** [sub in s]. *)
Fixpoint contains (sub s : string) : bool :=
  if String.prefix sub s then true
  else match s with
       | EmptyString => false
       | String _ rest => contains sub rest
       end.

(** [s.replace(old, new)] for a non-empty [old]: the occurrences are taken
    from left to right without overlap; [skip] counts the characters of the
    occurrence just replaced that are still to be passed over. *)
Fixpoint replace_from (old new s : string) (skip : nat) : string :=
  match s with
  | EmptyString => EmptyString
  | String c rest =>
      match skip with
      | S skip' => replace_from old new rest skip'
      | O =>
          if String.prefix old s
          then (new ++ replace_from old new rest (String.length old - 1))%string
          else String c (replace_from old new rest O)
      end
  end.

Definition replace (old new s : string) : string := replace_from old new s O.

(** [s.count(sub)] for a non-empty [sub]: occurrences without overlap. *)
Fixpoint count_from (sub s : string) (skip : nat) : Z :=
  match s with
  | EmptyString => 0
  | String c rest =>
      match skip with
      | S skip' => count_from sub rest skip'
      | O =>
          if String.prefix sub s
          then 1 + count_from sub rest (String.length sub - 1)
          else count_from sub rest O
      end
  end.

Definition count (sub s : string) : Z := count_from sub s O.

(** [sum(values)]. *)
Definition sum (values : list Z) : Z := fold_left Z.add values 0.

Definition __numerals : list (string * Z) :=
  [("M", 1000); ("D", 500); ("C", 100); ("L", 50); ("X", 10); ("V", 5); ("I", 1)]%string.

(** The dictionary of [encode_roman_numeral], in the order of its items. *)
Definition corrections : list (string * string) :=
  [("IIII", "IV"); ("VIV", "IX"); ("XXXX", "XL"); ("LXL", "XC");
   ("CCCC", "CD"); ("DCD", "CM")]%string.

(** The dictionary of [decode_roman_numeral], in the order of its items. *)
Definition partials : list (string * Z) :=
  [("IV", 4); ("IX", 9); ("XL", 40); ("XC", 90); ("CD", 400); ("CM", 900)]%string.

(** The loop [while indian_numeral >= value].  As [value] is at least 1 the
    loop makes no more passes than [indian_numeral] counts, which is the
    fuel [encode_roman_numeral] gives it. *)
Fixpoint while_ge (fuel : nat) (numeral : string) (value : Z)
  (roman_numeral_ : string) (indian_numeral : Z) : string * Z :=
  match fuel with
  | O => (roman_numeral_, indian_numeral)
  | S fuel' =>
      if indian_numeral >=? value
      then while_ge fuel' numeral value
             (roman_numeral_ ++ numeral)%string (indian_numeral - value)
      else (roman_numeral_, indian_numeral)
  end.

(** The loop over the corrections. *)
Definition correct (roman_numeral_ : string) : string :=
  fold_left
    (fun roman_numeral_ '(error, correction) =>
       if contains error roman_numeral_
       then replace error correction roman_numeral_
       else roman_numeral_)
    corrections roman_numeral_.

Definition encode_roman_numeral (indian_numeral : Z) : result string :=
  if negb ((1 <=? indian_numeral) && (indian_numeral <? 4000)) then
    ValueError ("Can only convert numbers 1-399 (number="
                  ++ str (VInt indian_numeral) ++ ")")%string
  else
    Ok (fst
          (fold_left
             (fun '(roman_numeral_, indian_numeral) '(numeral, value) =>
                let '(roman_numeral_, indian_numeral) :=
                  while_ge (Z.to_nat indian_numeral) numeral value
                    roman_numeral_ indian_numeral in
                (correct roman_numeral_, indian_numeral))
             __numerals (EmptyString, indian_numeral))).

Definition decode_roman_numeral (symbol : string) : Z :=
  let '(values, symbol) :=
    fold_left
      (fun '(values, symbol) '(partial, value) =>
         if contains partial symbol
         then ((values ++ [value])%list, replace partial EmptyString symbol)
         else (values, symbol))
      partials ([], symbol) in
  let values :=
    fold_left
      (fun values '(numeral, value) =>
         if contains numeral symbol
         then (values ++ [value * count numeral symbol])%list
         else values)
      __numerals values in
  sum values.

(** The usual way to write a number from 1 to 3999 in Roman numerals: the
    greatest of the thirteen values that fits, again and again. *)
Definition standard_table : list (Z * string) :=
  [(1000, "M"); (900, "CM"); (500, "D"); (400, "CD"); (100, "C"); (90, "XC");
   (50, "L"); (40, "XL"); (10, "X"); (9, "IX"); (5, "V"); (4, "IV"); (1, "I")]%string.

Fixpoint standard_from (fuel : nat) (table : list (Z * string)) (n : Z) : string :=
  match fuel, table with
  | S fuel', (value, numeral) :: table' =>
      if value <=? n then (numeral ++ standard_from fuel' table (n - value))%string
      else standard_from fuel' table' n
  | _, _ => EmptyString
  end.

Definition standard (n : Z) : string := standard_from 40 standard_table n.

(** The check of one number: it is encoded, in the usual way, and decoded
    back to itself. *)
Definition roundtrip_at (n : Z) : bool :=
  match encode_roman_numeral n with
  | Ok roman => String.eqb roman (standard n) && (decode_roman_numeral roman =? n)
  | ValueError _ => false
  end.

End Numerus.

(** * The number words of [arithmology.py] *)

Module Arithmology.

Import Numerus.

Definition __table : list (list string) :=
  [["polyad"; "tonal"; "basal"; "cardinal"; "ordinal"; "uple"];
   ["monad"; "monotonic"; "primal"; "one"; "first"; "single"];
   ["dyad"; "ditonic"; "secundal"; "two"; "second"; "double"];
   ["triad"; "tritonic"; "tertial"; "three"; "third"; "triple"];
   ["tetrad"; "tetratonic"; "quartal"; "four"; "fourth"; "quadruple"];
   ["pentad"; "pentatonic"; "quintal"; "five"; "fifth"; "quintuple"];
   ["hexad"; "hexatonic"; "sextal"; "six"; "sixth"; "sextuple"];
   ["heptad"; "heptatonic"; "septimal"; "seven"; "seventh"; "septuple"];
   ["octad"; "octatonic"; "octonal"; "eight"; "eighth"; "octuple"];
   ["ennead"; "enneatonic"; "nonal"; "nine"; "ninth"; "nonuple"];
   ["decad"; "decatonic"; "decimal"; "ten"; "tenth"; "decuple"];
   ["hendecad"; "hendecatonic"; "undecimal"; "eleven"; "eleventh"; "hendecuple"];
   ["duodecad"; "duodecatonic"; "duodecimal"; "twelve"; "twelfth"; "duodecuple"];
   ["triskaidecad"; "triskaidecatonic"; "tredecimal"; "thirteen"; "thirteenth";
    "tredecuple"];
   ["tettarakaidecad"; "tettarakaidecatonic"; "quattuordecimal"; "fourteen";
    "fourteenth"; "quattuordecuple"];
   ["pentekaidecad"; "pentekaidecatonic"; "quindecimal"; "fifteen"; "fifteenth";
    "quindecuple"]]%string.

(** [columns]: [__table[0]]. *)
Definition columns : list string := nth 0 __table [].

(** [rows]: the rows from 1 on. *)
Definition rows : list (list string) :=
  map (fun x => nth x __table []) (seq 1 (List.length __table - 1)).

(** [word in row], by [==] on strings. *)
Definition member (word : string) (row : list string) : bool :=
  existsb (String.eqb word) row.

(** The loops of [decode], from row [i] on. *)
Fixpoint decode_from (i : Z) (table : list (list string)) (keyword : string)
  : result Z :=
  match table with
  | [] => ValueError ("Unknown keyword: " ++ keyword)%string
  | row :: table' =>
      if member keyword row then Ok i else decode_from (i + 1) table' keyword
  end.

Definition decode (keyword : string) : result Z := decode_from 0 __table keyword.

(** [l.index(x)] for an [x] that is in [l]. *)
Fixpoint index (x : string) (l : list string) : nat :=
  match l with
  | [] => O
  | y :: l' => if String.eqb y x then O else S (index x l')
  end.

Definition encode (category : string) (number : Z) : result string :=
  if negb (member category columns) then
    ValueError ("Unknown category: " ++ category)%string
  else if negb ((1 <=? number) && (number <? Z.of_nat (List.length __table))) then
    ValueError ("Cannot encode number: " ++ str (VInt number))%string
  else
    let i := index category columns in
    Ok (nth i (nth (Z.to_nat number) __table []) EmptyString).

Definition polyad (number : Z) : result string := encode "polyad" number.
Definition tonal (number : Z) : result string := encode "tonal" number.
Definition basal (number : Z) : result string := encode "basal" number.
Definition cardinal (number : Z) : result string := encode "cardinal" number.
Definition uple (number : Z) : result string := encode "uple" number.

(** The check of one entry of the table: the word in row [i] under heading
    [category] is what [encode] gives and what [decode] takes back. *)
Definition entry_ok (category : string) (i : nat) : bool :=
  match encode category (Z.of_nat i) with
  | Ok word =>
      match decode word with
      | Ok number => number =? Z.of_nat i
      | ValueError _ => false
      end
  | ValueError _ => false
  end.

(** The check of one word of row [i]: [decode] gives [i], and from row 1 on
    [encode] gives the word back under one of the headings. *)
Definition word_ok (i : nat) (word : string) : bool :=
  match decode word with
  | Ok number =>
      (number =? Z.of_nat i)
      && ((i =? 0)%nat
          || existsb (fun category =>
                        match encode category number with
                        | Ok word' => String.eqb word' word
                        | ValueError _ => false
                        end) columns)
  | ValueError _ => false
  end.

End Arithmology.

(** * The base classes of [parsing.py] *)

Module Parsing.

Inductive exn : Type :=
| IndexError
| RuntimeError (msg : string).

Inductive result (A : Type) : Type :=
| Ok (a : A)
| Raise (e : exn).
Arguments Ok {A} a.
Arguments Raise {A} e.

(** [l[i]]: negative indices count from the end, out of range raises. *)
Definition item {A : Type} (l : list A) (i : Z) : result A :=
  let n := Z.of_nat (List.length l) in
  let j := if i <? 0 then i + n else i in
  if (j <? 0) || (n <=? j) then Raise IndexError
  else match nth_error l (Z.to_nat j) with
       | Some a => Ok a
       | None => Raise IndexError
       end.

(** The members of the [Enum] of token types, told apart by their rank. *)
Definition Enum : Type := nat.

(** The character ["\0"]. *)
Definition NUL : ascii := "000"%char.

(** [class Token] of this module. *)
Record Token : Type := mkToken {
  token_type : Enum;
  lexeme : string
}.

Module Tokenizer.

(** The text is kept as the list of its characters. *)
Record t : Type := mk {
  text : list ascii;
  current : Z;
  start : Z;
  tokens : list Token;
  line : Z;
  line_chars : Z
}.

(** [__init__]. *)
Definition new : t :=
  {| text := []; current := 0; start := 0; tokens := []; line := 0; line_chars := 0 |}.

Definition is_at_end (self : t) : bool :=
  Z.of_nat (List.length (text self)) <=? current self.

Definition peek (self : t) : result ascii :=
  if is_at_end self then Ok NUL else item (text self) (current self).

Definition previous (self : t) : result ascii :=
  item (text self) (current self - 1).

(** [advance]: the character returned and the tokenizer it leaves. *)
Definition advance (self : t) : result (ascii * t) :=
  match peek self with
  | Ok char =>
      Ok (char,
          {| text := text self;
             current := current self + 1;
             start := start self;
             tokens := tokens self;
             line := line self;
             line_chars := line_chars self + 1 |})
  | Raise e => Raise e
  end.

(** [k] calls of [advance] in a row: the characters they return, in order,
    and the tokenizer they leave. *)
Fixpoint advances (k : nat) (self : t) : result (list ascii * t) :=
  match k with
  | O => Ok ([], self)
  | S k' =>
      match advance self with
      | Ok (char, self') =>
          match advances k' self' with
          | Ok (chars, self'') => Ok (char :: chars, self'')
          | Raise e => Raise e
          end
      | Raise e => Raise e
      end
  end.

End Tokenizer.

Module Parser.

Record t : Type := mk {
  tokens : list Token;
  current : Z;
  start : Z;
  errors : list string
}.

(** [__init__]. *)
Definition new : t := {| tokens := []; current := 0; start := 0; errors := [] |}.

Definition advance (self : t) : result (Token * t) :=
  match item (tokens self) (current self) with
  | Ok token =>
      Ok (token,
          {| tokens := tokens self;
             current := current self + 1;
             start := start self;
             errors := errors self |})
  | Raise e => Raise e
  end.

Definition is_at_end (self : t) : bool :=
  Z.of_nat (List.length (tokens self)) - 1 <=? current self.

Definition previous (self : t) : result Token :=
  if 1 <=? current self then item (tokens self) (current self - 1)
  else Raise (RuntimeError "Called previous at index 0.").

Definition peek (self : t) : result Token := item (tokens self) (current self).

Definition peek_next (self : t) : result (option Token) :=
  if negb (is_at_end self) then
    match item (tokens self) (current self + 1) with
    | Ok token => Ok (Some token)
    | Raise e => Raise e
    end
  else Ok None.

Definition check (self : t) (token_type' : Enum) : result bool :=
  match peek self with
  | Ok token => Ok (Nat.eqb (token_type token) token_type')
  | Raise e => Raise e
  end.

(** [match]: the answer and the parser it leaves. *)
Fixpoint match_ (self : t) (args : list Enum) : result (bool * t) :=
  match args with
  | [] => Ok (false, self)
  | arg :: args' =>
      match check self arg with
      | Ok true =>
          match advance self with
          | Ok (_, self') => Ok (true, self')
          | Raise e => Raise e
          end
      | Ok false => match_ self args'
      | Raise e => Raise e
      end
  end.

Definition error (self : t) (message : string) : t :=
  {| tokens := tokens self;
     current := current self;
     start := start self;
     errors := errors self ++ [message] |}.

Definition consume (self : t) (token_type' : Enum) (message : string)
  : result (option Token * t) :=
  match check self token_type' with
  | Ok true =>
      match advance self with
      | Ok (token, self') => Ok (Some token, self')
      | Raise e => Raise e
      end
  | Ok false => Ok (None, error self message)
  | Raise e => Raise e
  end.

End Parser.

End Parsing.

(** * Properties *)

(** ** Strings *)

Lemma length_substring (s : string) : forall n m : nat,
  (n + m <= String.length s)%nat -> String.length (substring n m s) = m.
Proof.
  induction s as [|c s IH]; intros n m H; simpl in H.
  - assert (n = O) by lia. assert (m = O) by lia. subst. reflexivity.
  - destruct n as [|n]; simpl.
    + destruct m as [|m]; simpl; [reflexivity|].
      f_equal. apply IH. simpl. lia.
    + apply IH. lia.
Qed.

Lemma len_slice (text : string) (lo hi : Z) :
  0 <= lo <= hi -> hi <= len text -> len (slice text lo hi) = hi - lo.
Proof.
  intros H1 H2. unfold len, slice in *.
  rewrite length_substring; lia.
Qed.

Lemma substring_zero_add (s : string) : forall a b : nat,
  substring 0 (a + b) s = (substring 0 a s ++ substring a b s)%string.
Proof.
  induction s as [|c s IH]; intros a b.
  - destruct a; destruct b; reflexivity.
  - destruct a as [|a]; simpl.
    + reflexivity.
    + f_equal. apply IH.
Qed.

Lemma slice_zero_split (text : string) (mid hi : Z) :
  0 <= mid <= hi ->
  slice text 0 hi = (slice text 0 mid ++ slice text mid hi)%string.
Proof.
  intros H. unfold slice.
  replace (Z.to_nat (hi - 0)) with (Z.to_nat mid + Z.to_nat (hi - mid))%nat by lia.
  replace (Z.to_nat (mid - 0)) with (Z.to_nat mid) by lia.
  change (Z.to_nat 0) with O.
  apply substring_zero_add.
Qed.

Lemma count_newlines_nonneg (s : string) : 0 <= count_newlines s.
Proof.
  induction s as [|c s IH]; simpl; [lia|].
  destruct (Ascii.eqb c NEWLINE); lia.
Qed.

Lemma count_newlines_append (s1 s2 : string) :
  count_newlines (s1 ++ s2) = count_newlines s1 + count_newlines s2.
Proof.
  induction s1 as [|c s1 IH]; simpl; [reflexivity|].
  rewrite IH. lia.
Qed.

Lemma count_newlines_substring (s : string) : forall n m : nat,
  count_newlines (substring n m s) <= count_newlines s.
Proof.
  induction s as [|c s IH]; intros n m.
  - destruct n; destruct m; simpl; lia.
  - destruct n as [|n]; simpl.
    + destruct m as [|m]; simpl.
      * pose proof (count_newlines_nonneg s). destruct (Ascii.eqb c NEWLINE); lia.
      * specialize (IH O m). lia.
    + specialize (IH n m). destruct (Ascii.eqb c NEWLINE); lia.
Qed.

Lemma length_split_newline (s : string) :
  Z.of_nat (List.length (split NEWLINE s)) = 1 + count_newlines s.
Proof.
  induction s as [|c s IH]; [reflexivity|].
  cbn [split count_newlines].
  destruct (Ascii.eqb c NEWLINE).
  - cbn [List.length]. rewrite Nat2Z.inj_succ. lia.
  - pose proof (count_newlines_nonneg s).
    destruct (split NEWLINE s) as [|piece pieces]; cbn [List.length] in *; lia.
Qed.

(** A string that ends in a newline holds one. *)
Lemma newline_count_last (b : string) :
  (1 <= count_occ ascii_dec
          (list_ascii_of_string (b ++ String "010" EmptyString)) "010"%char)%nat.
Proof.
  induction b as [|c b IH].
  - change (list_ascii_of_string (EmptyString ++ String "010" EmptyString))
      with ["010"%char].
    rewrite count_occ_cons_eq by reflexivity. lia.
  - change (list_ascii_of_string (String c b ++ String "010" EmptyString))
      with (c :: list_ascii_of_string (b ++ String "010" EmptyString)).
    destruct (ascii_dec c "010"%char) as [E|E].
    + rewrite count_occ_cons_eq by exact E. lia.
    + rewrite count_occ_cons_neq by exact E. exact IH.
Qed.

(** What [text.split(NEWLINE)[k]] is: the stretch of the text without a
    newline that lies behind exactly [k] newlines, the last of them right
    before it, and that runs up to the next newline or the end of the text. *)
Lemma split_line (text : string) : forall (k : nat) (excerpt : string),
  nth_error (split NEWLINE text) k = Some excerpt ->
  exists before after,
    text = (before ++ excerpt ++ after)%string /\
    ~ In "010"%char (list_ascii_of_string excerpt) /\
    count_occ ascii_dec (list_ascii_of_string before) "010"%char = k /\
    (before = EmptyString \/
     exists b, before = (b ++ String "010" EmptyString)%string) /\
    (after = EmptyString \/ exists rest, after = String "010" rest).
Proof.
  induction text as [|c rest IH]; intros k excerpt H.
  - destruct k as [|k]; [|destruct k; discriminate].
    injection H as <-. exists EmptyString, EmptyString.
    repeat split; try (left; reflexivity). intros [].
  - cbn [split] in H. destruct (Ascii.eqb_spec c NEWLINE) as [Ec|Ec].
    + subst c. destruct k as [|k].
      * injection H as <-. exists EmptyString, (String NEWLINE rest).
        repeat split; [intros []|left; reflexivity|right; exists rest; reflexivity].
      * cbn [nth_error] in H.
        destruct (IH k excerpt H) as (before & after & Ht & Hno & Hk & Hb & Ha).
        exists (String NEWLINE before), after. repeat split.
        -- rewrite Ht. reflexivity.
        -- exact Hno.
        -- change (list_ascii_of_string (String NEWLINE before))
             with ("010"%char :: list_ascii_of_string before).
           rewrite count_occ_cons_eq by reflexivity. rewrite Hk. reflexivity.
        -- right. destruct Hb as [->|(b & ->)].
           ++ exists EmptyString. reflexivity.
           ++ exists (String NEWLINE b). reflexivity.
        -- exact Ha.
    + destruct (split NEWLINE rest) as [|piece pieces] eqn:Hsplit.
      { pose proof (length_split_newline rest) as Hlen.
        pose proof (count_newlines_nonneg rest).
        rewrite Hsplit in Hlen. cbn [List.length] in Hlen. lia. }
      destruct k as [|k].
      * injection H as <-.
        destruct (IH O piece eq_refl) as (before & after & Ht & Hno & Hk & Hb & Ha).
        assert (before = EmptyString) as ->.
        { destruct Hb as [->|(b & ->)]; [reflexivity|].
          pose proof (newline_count_last b). lia. }
        exists EmptyString, after. repeat split.
        -- rewrite Ht. reflexivity.
        -- intros [E|E]; [apply Ec; exact E|exact (Hno E)].
        -- left; reflexivity.
        -- exact Ha.
      * change (nth_error pieces k = Some excerpt) in H.
        destruct (IH (S k) excerpt H) as (before & after & Ht & Hno & Hk & Hb & Ha).
        exists (String c before), after. repeat split.
        -- rewrite Ht. reflexivity.
        -- exact Hno.
        -- change (list_ascii_of_string (String c before))
             with (c :: list_ascii_of_string before).
           rewrite count_occ_cons_neq by exact Ec. exact Hk.
        -- right. destruct Hb as [->|(b & ->)]; [discriminate Hk|].
           exists (String c b). reflexivity.
        -- exact Ha.
Qed.

(** ** [TokenTemplate.match] *)

Lemma for_char_spec (value : string) : forall line column : Z,
  TokenTemplate.for_char value line column =
  (line + count_newlines value,
   if 0 <? count_newlines value then 1 else column).
Proof.
  induction value as [|c value IH]; intros line column; simpl.
  - f_equal. lia.
  - pose proof (count_newlines_nonneg value) as Hnn.
    destruct (Ascii.eqb c NEWLINE); rewrite IH.
    + f_equal; [lia|].
      destruct (0 <? count_newlines value) eqn:E1;
        destruct (0 <? 1 + count_newlines value) eqn:E2; try reflexivity; lia.
    + reflexivity.
Qed.

(** Everything a successful [match] tells about the token it returns. *)
Lemma match_inv template text start line column token :
  TokenTemplate.match_ template text start line column = Ok (Some token) ->
  exists matched,
    TokenTemplate.regular_expression template text start = Some matched /\
    Token.token_type token = TokenTemplate.token_type template /\
    Token.start token = start /\
    Token.end_ token = TokenTemplate.m_end matched /\
    Token.line token = line + count_newlines (TokenTemplate.group text matched) /\
    Token.column token =
      (if 0 <? count_newlines (TokenTemplate.group text matched) then 1 else column) /\
    match TokenTemplate.callback template with
    | Some cb => cb (TokenTemplate.group text matched) = Ok (Token.lexeme token)
    | None => Token.lexeme token = VStr (TokenTemplate.group text matched)
    end.
Proof.
  unfold TokenTemplate.match_. intros H.
  destruct (TokenTemplate.regular_expression template text start) as [matched|];
    [|discriminate].
  exists matched. rewrite for_char_spec in H.
  destruct (TokenTemplate.callback template) as [cb|].
  - destruct (cb (TokenTemplate.group text matched)) as [v|e] eqn:Ecb;
      simpl in H; [|discriminate].
    injection H as <-. simpl. repeat split; reflexivity.
  - injection H as <-. simpl. repeat split; reflexivity.
Qed.

Lemma match_none template text start line column :
  TokenTemplate.regular_expression template text start = None ->
  TokenTemplate.match_ template text start line column = Ok None.
Proof. unfold TokenTemplate.match_. intros ->. reflexivity. Qed.

Lemma match_none_inv template text start line column :
  TokenTemplate.match_ template text start line column = Ok None ->
  TokenTemplate.regular_expression template text start = None.
Proof.
  unfold TokenTemplate.match_.
  destruct (TokenTemplate.regular_expression template text start); [|reflexivity].
  destruct (TokenTemplate.for_char _ _ _).
  destruct (TokenTemplate.callback template) as [cb|]; [|discriminate].
  destruct (cb _); discriminate.
Qed.

(** ** The pass over the templates *)

Lemma tokenize_for_cons template todo self text best :
  Lexer.tokenize_for (template :: todo) self text best =
  (token <- attempt self text template ;;
   if Lexer.not_ token then Lexer.tokenize_for todo self text best
   else if Lexer.not_ best then Lexer.tokenize_for todo self text token
   else match best, token with
        | Some best, Some token =>
            best <- Lexer.__best best token ;;
            Lexer.tokenize_for todo self text (Some best)
        | _, _ => Lexer.tokenize_for todo self text best
        end).
Proof. reflexivity. Qed.

Lemma tokenize_for_app todo1 : forall todo2 self text best,
  Lexer.tokenize_for (todo1 ++ todo2) self text best =
  (best1 <- Lexer.tokenize_for todo1 self text best ;;
   Lexer.tokenize_for todo2 self text best1).
Proof.
  induction todo1 as [|template todo1 IH]; intros todo2 self text best.
  - reflexivity.
  - rewrite <- app_comm_cons, !tokenize_for_cons.
    destruct (attempt self text template) as [token|e]; [|reflexivity].
    cbn [bind].
    destruct (Lexer.not_ token); [apply IH|].
    destruct (Lexer.not_ best); [apply IH|].
    destruct best as [best|]; [|apply IH].
    destruct token as [token|]; [|apply IH].
    destruct (Lexer.__best best token) as [best'|e]; [|reflexivity].
    cbn [bind]. apply IH.
Qed.

Lemma best_inv best other chosen :
  Lexer.__best best other = Ok chosen -> chosen = best \/ chosen = other.
Proof.
  unfold Lexer.__best.
  destruct (len_value (Token.lexeme best)) as [n|]; [|discriminate].
  destruct (len_value (Token.lexeme other)) as [m|]; [|discriminate].
  cbn [bind]. destruct (n >? m); intros [= <-]; auto.
Qed.

(** The token a pass ends on is the one it started from or a true token one
    of the templates produced. *)
Lemma tokenize_for_origin todo : forall self text best token,
  Lexer.tokenize_for todo self text best = Ok (Some token) ->
  best = Some token \/
  exists template,
    In template todo /\
    attempt self text template = Ok (Some token) /\
    Token.truth token = true.
Proof.
  induction todo as [|template todo IH]; intros self text best token H.
  - left. injection H as ->. reflexivity.
  - rewrite tokenize_for_cons in H.
    assert (Hlater : forall b,
      Lexer.tokenize_for todo self text b = Ok (Some token) ->
      b = Some token \/
      exists template', In template' (template :: todo) /\
        attempt self text template' = Ok (Some token) /\
        Token.truth token = true).
    { intros b Hb. destruct (IH _ _ _ _ Hb) as [->|(t' & Hin & Ht')]; [auto|].
      right. exists t'. split; [right; exact Hin|exact Ht']. }
    destruct (attempt self text template) as [tok|e] eqn:Eatt; [|discriminate].
    cbn [bind] in H.
    destruct (Lexer.not_ tok) eqn:Etok; [exact (Hlater _ H)|].
    destruct tok as [tok|]; [|discriminate].
    assert (Htrue : Token.truth tok = true).
    { unfold Lexer.not_ in Etok. destruct (Token.truth tok); [reflexivity|discriminate]. }
    assert (Hhere : Some tok = Some token ->
      exists template', In template' (template :: todo) /\
        attempt self text template' = Ok (Some token) /\
        Token.truth token = true).
    { intros [= <-]. exists template. split; [left; reflexivity|]. split; assumption. }
    destruct (Lexer.not_ best) eqn:Ebest.
    + destruct (Hlater _ H) as [E|E]; [right; exact (Hhere E)|right; exact E].
    + destruct best as [b|]; [|discriminate].
      destruct (Lexer.__best b tok) as [b'|e] eqn:Eb; [|discriminate].
      cbn [bind] in H.
      destruct (Hlater _ H) as [E|E]; [|right; exact E].
      destruct (best_inv _ _ _ Eb) as [->| ->]; [left; exact E|right; exact (Hhere E)].
Qed.

Lemma tokenize_for_no_match todo : forall self text best,
  Forall (fun template =>
            TokenTemplate.regular_expression template text (Lexer.__start self) = None)
         todo ->
  Lexer.tokenize_for todo self text best = Ok best.
Proof.
  induction todo as [|template todo IH]; intros self text best H.
  - reflexivity.
  - inversion H as [|? ? Hhd Htl]; subst.
    rewrite tokenize_for_cons. unfold attempt.
    rewrite (match_none _ _ _ _ _ Hhd). cbn [bind Lexer.not_].
    apply IH. exact Htl.
Qed.

(** The pass reads [self] through its counter only. *)
Lemma tokenize_for_counter todo : forall self self' text best,
  Lexer.line_counter self = Lexer.line_counter self' ->
  Lexer.tokenize_for todo self text best = Lexer.tokenize_for todo self' text best.
Proof.
  induction todo as [|template todo IH]; intros self self' text best E.
  - reflexivity.
  - rewrite !tokenize_for_cons.
    assert (Eatt : attempt self text template = attempt self' text template).
    { unfold attempt, Lexer.__start, Lexer.__line, Lexer.__column. rewrite E. reflexivity. }
    rewrite Eatt.
    destruct (attempt self' text template) as [token|e]; [|reflexivity].
    cbn [bind].
    rewrite !(IH self self' text) by exact E.
    destruct (Lexer.not_ token); [reflexivity|].
    destruct (Lexer.not_ best); [reflexivity|].
    destruct best as [best|]; [|reflexivity].
    destruct token as [token|]; [|reflexivity].
    destruct (Lexer.__best best token); [|reflexivity].
    cbn [bind]. apply IH. exact E.
Qed.

(** ** The body of the loop *)

(** A pass that starts from [None] ends on [None] or on a true token. *)
Lemma winner_true self text token :
  winner self text = Ok (Some token) -> Token.truth token = true.
Proof.
  intros H. destruct (tokenize_for_origin _ _ _ _ _ H) as [E|(t & _ & _ & Ht)].
  - discriminate.
  - exact Ht.
Qed.

Lemma tokenize_body_winner self text token :
  winner self text = Ok (Some token) ->
  Lexer.tokenize_body self text = Ok (Lexer.__accept self token).
Proof.
  intros H. unfold Lexer.tokenize_body. fold (winner self text). rewrite H.
  cbn [bind Lexer.not_]. rewrite (winner_true _ _ _ H). reflexivity.
Qed.

Lemma tokenize_body_inv self text self' :
  Lexer.tokenize_body self text = Ok self' ->
  exists token,
    winner self text = Ok (Some token) /\ self' = Lexer.__accept self token.
Proof.
  unfold Lexer.tokenize_body. fold (winner self text). intros H.
  destruct (winner self text) as [[token|]|e] eqn:Ew; cbn [bind] in H.
  - exists token. split; [reflexivity|].
    cbn [Lexer.not_] in H. rewrite (winner_true _ _ _ Ew) in H.
    cbn [negb] in H. injection H as <-. reflexivity.
  - destruct (UnknownSymbolError.new text (Lexer.__line self) (Lexer.__column self));
      discriminate.
  - discriminate.
Qed.

Lemma winner_origin self text token :
  winner self text = Ok (Some token) ->
  exists template,
    In template (Lexer.templates self) /\
    attempt self text template = Ok (Some token) /\
    Token.truth token = true.
Proof.
  intros H. destruct (tokenize_for_origin _ _ _ _ _ H) as [E|E]; [discriminate|exact E].
Qed.

Lemma winner_start self text token :
  winner self text = Ok (Some token) -> Token.start token = Lexer.__start self.
Proof.
  intros H. destruct (winner_origin _ _ _ H) as (template & _ & Hatt & _).
  destruct (match_inv _ _ _ _ _ _ Hatt) as (m & _ & _ & Hs & _). exact Hs.
Qed.

Lemma tokenize_body_no_match self text :
  no_match self text ->
  Lexer.tokenize_body self text =
  (e <- UnknownSymbolError.new text (Lexer.__line self) (Lexer.__column self) ;;
   Raise e).
Proof.
  intros H. unfold Lexer.tokenize_body.
  rewrite (tokenize_for_no_match _ _ _ _ H). reflexivity.
Qed.

(** ** The loop *)

Lemma tokenize_while_S fuel self text :
  Lexer.tokenize_while (S fuel) self text =
  if negb (Lexer.__start self =? len text) then
    match Lexer.tokenize_body self text with
    | Ok self' => Lexer.tokenize_while fuel self' text
    | Raise e => (Lexer.Raised e, self)
    end
  else (Lexer.Return tt, self).
Proof. reflexivity. Qed.

Lemma tokenize_while_step fuel self text self' :
  Lexer.__start self <> len text ->
  Lexer.tokenize_body self text = Ok self' ->
  Lexer.tokenize_while (S fuel) self text = Lexer.tokenize_while fuel self' text.
Proof.
  intros Hne Hb. rewrite tokenize_while_S, Hb.
  destruct (Z.eqb_spec (Lexer.__start self) (len text)); [contradiction|reflexivity].
Qed.

(** Fuel beyond the passes already made is spent from the state reached. *)
Lemma reaches_run text n self self' :
  reaches text n self self' ->
  forall fuel,
    Lexer.tokenize_while (n + fuel) self text = Lexer.tokenize_while fuel self' text.
Proof.
  induction 1 as [self|n self mid self' Hr IH Hne Hb]; intros fuel.
  - reflexivity.
  - replace (S n + fuel)%nat with (n + S fuel)%nat by lia.
    rewrite IH. apply tokenize_while_step; assumption.
Qed.

(** Fuel for no more than the passes that can be made is used up. *)
Lemma reaches_short text n self self' :
  reaches text n self self' ->
  forall fuel, (fuel <= n)%nat ->
    fst (Lexer.tokenize_while fuel self text) = Lexer.OutOfFuel.
Proof.
  induction 1 as [self|n self mid self' Hr IH Hne Hb]; intros fuel Hle.
  - assert (fuel = O) by lia. subst. reflexivity.
  - destruct (Nat.eq_dec fuel (S n)) as [->|Hlt].
    + replace (S n) with (n + 1)%nat by lia.
      rewrite (reaches_run _ _ _ _ Hr).
      rewrite (tokenize_while_step _ _ _ _ Hne Hb). reflexivity.
    + apply IH. lia.
Qed.

Lemma reaches_templates text n self self' :
  reaches text n self self' -> Lexer.templates self' = Lexer.templates self.
Proof.
  induction 1 as [self|n self mid self' Hr IH Hne Hb]; [reflexivity|].
  destruct (tokenize_body_inv _ _ _ Hb) as (token & _ & ->). exact IH.
Qed.

(** Whatever the loop comes to, it was reached by passes of the body. *)
Lemma tokenize_while_reaches fuel : forall self text r self',
  Lexer.tokenize_while fuel self text = (r, self') ->
  exists n, reaches text n self self'.
Proof.
  induction fuel as [|fuel IH]; intros self text r self' H.
  - injection H as _ <-. exists O. constructor.
  - rewrite tokenize_while_S in H.
    destruct (Z.eqb_spec (Lexer.__start self) (len text)) as [E|Hne]; cbn [negb] in H.
    + injection H as _ <-. exists O. constructor.
    + destruct (Lexer.tokenize_body self text) as [mid|e] eqn:Hb.
      * destruct (IH _ _ _ _ H) as (n & Hn).
        exists (S n). clear H IH.
        induction Hn as [s|n s mid' s' Hr IHr Hne' Hb'].
        -- econstructor; [constructor|exact Hne|exact Hb].
        -- econstructor; [apply IHr; assumption|exact Hne'|exact Hb'].
      * injection H as _ <-. exists O. constructor.
Qed.

Lemma tokenize_while_return fuel : forall self text self',
  Lexer.tokenize_while fuel self text = (Lexer.Return tt, self') ->
  Lexer.__start self' = len text.
Proof.
  induction fuel as [|fuel IH]; intros self text self' H.
  - discriminate.
  - rewrite tokenize_while_S in H.
    destruct (Z.eqb_spec (Lexer.__start self) (len text)) as [E|Hne]; cbn [negb] in H.
    + injection H as <-. exact E.
    + destruct (Lexer.tokenize_body self text) as [mid|e]; [|discriminate].
      exact (IH _ _ _ H).
Qed.

(** ** The example patterns keep the contract of [match] *)

Lemma clamp_inside text pos : 0 <= pos <= len text -> Re.clamp text pos = pos.
Proof. unfold Re.clamp. lia. Qed.

Lemma length_rest text pos :
  0 <= pos <= len text ->
  Z.of_nat (String.length (Re.rest text pos)) = len text - pos.
Proof.
  intros H. unfold Re.rest, len in *. rewrite length_substring; lia.
Qed.

Lemma prefix_length (a : string) : forall b : string,
  String.prefix a b = true -> (String.length a <= String.length b)%nat.
Proof.
  induction a as [|c a IH]; intros b H; [simpl; lia|].
  destruct b as [|d b]; simpl in H; [discriminate|].
  destruct (ascii_dec c d); [|discriminate].
  specialize (IH _ H). simpl. lia.
Qed.

Lemma run_length cls (s : string) : (Re.run cls s <= String.length s)%nat.
Proof.
  induction s as [|c s IH]; simpl; [lia|].
  destruct (cls c); lia.
Qed.

Lemma length_substring_le (s : string) : forall n m : nat,
  (String.length (substring n m s) <= String.length s - n)%nat.
Proof.
  induction s as [|c s IH]; intros n m.
  - destruct n; destruct m; simpl; lia.
  - destruct n as [|n]; simpl.
    + destruct m as [|m]; simpl; [lia|]. specialize (IH O m). lia.
    + apply IH.
Qed.

Lemma literal_contract lit : match_contract (Re.literal lit).
Proof.
  intros text pos matched Hpos. unfold Re.literal.
  rewrite (clamp_inside _ _ Hpos).
  destruct (String.prefix lit (Re.rest text pos)) eqn:E; [|discriminate].
  intros [= <-]. cbn.
  apply prefix_length in E. pose proof (length_rest _ _ Hpos).
  unfold len in *. lia.
Qed.

Lemma plus_contract cls : match_contract (Re.plus cls).
Proof.
  intros text pos matched Hpos. unfold Re.plus.
  rewrite (clamp_inside _ _ Hpos).
  pose proof (run_length cls (Re.rest text pos)) as Hrun.
  destruct (Re.run cls (Re.rest text pos)) as [|n]; [discriminate|].
  intros [= <-]. cbn [TokenTemplate.m_start TokenTemplate.m_end].
  pose proof (length_rest _ _ Hpos). lia.
Qed.

Lemma star_contract cls : match_contract (Re.star cls).
Proof.
  intros text pos matched Hpos. unfold Re.star.
  rewrite (clamp_inside _ _ Hpos).
  pose proof (run_length cls (Re.rest text pos)) as Hrun.
  intros [= <-]. cbn [TokenTemplate.m_start TokenTemplate.m_end].
  pose proof (length_rest _ _ Hpos). lia.
Qed.

Lemma one_contract cls : match_contract (Re.one cls).
Proof.
  intros text pos matched Hpos. unfold Re.one.
  rewrite (clamp_inside _ _ Hpos).
  pose proof (length_rest _ _ Hpos) as Hlen.
  destruct (Re.rest text pos) as [|c s']; [discriminate|].
  destruct (cls c); [|discriminate].
  intros [= <-]. cbn [TokenTemplate.m_start TokenTemplate.m_end].
  cbn [String.length] in Hlen. lia.
Qed.

Lemma one_star_contract head tail : match_contract (Re.one_star head tail).
Proof.
  intros text pos matched Hpos. unfold Re.one_star.
  rewrite (clamp_inside _ _ Hpos).
  pose proof (length_rest _ _ Hpos) as Hlen.
  destruct (Re.rest text pos) as [|c s']; [discriminate|].
  destruct (head c); [|discriminate].
  intros [= <-]. cbn [TokenTemplate.m_start TokenTemplate.m_end].
  pose proof (run_length tail s'). cbn [String.length] in Hlen. lia.
Qed.

Lemma until_contract lit :
  lit <> EmptyString -> match_contract (Re.until lit).
Proof.
  intros Hlit text pos matched Hpos. unfold Re.until.
  rewrite (clamp_inside _ _ Hpos).
  destruct (String.index 0 lit (Re.rest text pos)) as [i|] eqn:E; [|discriminate].
  intros [= <-]. cbn [TokenTemplate.m_start TokenTemplate.m_end].
  apply index_correct1 in E.
  pose proof (length_substring_le (Re.rest text pos) i (String.length lit)) as Hle.
  rewrite E in Hle.
  assert (0 < String.length lit)%nat by (destruct lit; [contradiction|simpl; lia]).
  pose proof (length_rest _ _ Hpos). unfold len in *. lia.
Qed.

(** ** Claims on [TokenTemplate.match] and [ProgramCounter.accept] *)

(** C5 -- Newline accounting and end-of-match line reporting: the line of
    the token [match] returns is the line passed in plus the number of
    newline characters of the raw matched substring, so a match over several
    lines reports the line it ends on; when the match holds at least one
    newline the column of the token is 1 wherever the match began (and it is
    the column passed in when the match holds none). *)
Theorem match_newline_accounting :
  forall template text start line column token,
    TokenTemplate.match_ template text start line column = Ok (Some token) ->
    exists matched,
      TokenTemplate.regular_expression template text start = Some matched /\
      Token.line token = line + count_newlines (TokenTemplate.group text matched) /\
      (0 < count_newlines (TokenTemplate.group text matched) ->
       Token.column token = 1) /\
      (count_newlines (TokenTemplate.group text matched) = 0 ->
       Token.column token = column).
Proof.
  intros template text start line column token H.
  destruct (match_inv _ _ _ _ _ _ H) as (matched & Hre & _ & _ & _ & Hline & Hcol & _).
  exists matched. repeat split; try assumption.
  - intros Hpos. rewrite Hcol.
    destruct (Z.ltb_spec 0 (count_newlines (TokenTemplate.group text matched)));
      [reflexivity|lia].
  - intros Hzero. rewrite Hcol, Hzero. reflexivity.
Qed.

Lemma match_newline_accounting_witness :
  TokenTemplate.match_ Ex.block_template Ex.block_text 0 1 5 = Ok (Some Ex.block_token) /\
  exists matched,
    TokenTemplate.regular_expression Ex.block_template Ex.block_text 0 = Some matched /\
    Token.line Ex.block_token =
      1 + count_newlines (TokenTemplate.group Ex.block_text matched) /\
    (0 < count_newlines (TokenTemplate.group Ex.block_text matched) ->
     Token.column Ex.block_token = 1) /\
    (count_newlines (TokenTemplate.group Ex.block_text matched) = 0 ->
     Token.column Ex.block_token = 5).
Proof.
  split; [reflexivity|].
  apply (match_newline_accounting Ex.block_template Ex.block_text 0 1 5 Ex.block_token).
  reflexivity.
Defined.

(** The counter a run leaves behind is the fresh counter after one [accept]
    per token of the buffer, in order. *)
Lemma tokenize_while_counter fuel : forall self text,
  Lexer.line_counter self =
    fold_left ProgramCounter.accept (Lexer.tokens self) ProgramCounter.new ->
  Lexer.line_counter (snd (Lexer.tokenize_while fuel self text)) =
    fold_left ProgramCounter.accept
      (Lexer.tokens (snd (Lexer.tokenize_while fuel self text))) ProgramCounter.new.
Proof.
  induction fuel as [|fuel IH]; intros self text H; [exact H|].
  rewrite tokenize_while_S.
  destruct (negb (Lexer.__start self =? len text)); [|exact H].
  destruct (Lexer.tokenize_body self text) as [self'|e] eqn:Hb; [|exact H].
  apply IH. destruct (tokenize_body_inv _ _ _ Hb) as (token & _ & ->).
  cbn [Lexer.__accept Lexer.line_counter Lexer.tokens].
  rewrite fold_left_app, <- H. reflexivity.
Qed.

Lemma tokenize_snd fuel self text filter_types :
  snd (Lexer.tokenize fuel self text filter_types) =
  snd (Lexer.tokenize_while fuel (Lexer.reset self) text).
Proof.
  unfold Lexer.tokenize.
  destruct (Lexer.tokenize_while fuel (Lexer.reset self) text) as [[u|e|] self'];
    reflexivity.
Qed.

(** C6 -- Tracker accept semantics: [accept] sets the column to 1 when the
    line of the token differs from the line of the tracker and otherwise adds
    [end - start] to it, and in both cases sets the offset to the end of the
    token and the line to the line of the token; these are all the fields of
    the tracker.  Nothing else mutates it: [current] leaves it as it is, and
    the tracker a call of [tokenize] leaves behind is the fresh tracker after
    one [accept] per accepted token. *)
Theorem accept_semantics :
  forall (self : ProgramCounter.t) (token : Token.t),
    (Token.line token <> ProgramCounter.line self ->
     ProgramCounter.column (ProgramCounter.accept self token) = 1) /\
    (Token.line token = ProgramCounter.line self ->
     ProgramCounter.column (ProgramCounter.accept self token) =
       ProgramCounter.column self + (Token.end_ token - Token.start token)) /\
    ProgramCounter.start (ProgramCounter.accept self token) = Token.end_ token /\
    ProgramCounter.line (ProgramCounter.accept self token) = Token.line token /\
    snd (ProgramCounter.current self) = self /\
    (forall fuel lexer text filter_types,
       Lexer.line_counter (snd (Lexer.tokenize fuel lexer text filter_types)) =
       fold_left ProgramCounter.accept
         (Lexer.tokens (snd (Lexer.tokenize fuel lexer text filter_types)))
         ProgramCounter.new).
Proof.
  intros self token. unfold ProgramCounter.accept.
  cbn [ProgramCounter.column ProgramCounter.start ProgramCounter.line].
  repeat split.
  - intros Hne.
    destruct (Z.eqb_spec (Token.line token) (ProgramCounter.line self));
      [contradiction|reflexivity].
  - intros E. rewrite E, Z.eqb_refl. reflexivity.
  - intros fuel lexer text filter_types. rewrite tokenize_snd.
    apply tokenize_while_counter. reflexivity.
Qed.

Lemma accept_semantics_witness :
  ProgramCounter.accept Ex.counter_mid Ex.token_next_line = ProgramCounter.mk 4 2 1 /\
  ProgramCounter.accept Ex.counter_mid Ex.token_same_line = ProgramCounter.mk 6 1 7.
Proof.
  destruct (accept_semantics Ex.counter_mid Ex.token_next_line)
    as (Hreset & _ & Hstart & Hline & _).
  destruct (accept_semantics Ex.counter_mid Ex.token_same_line)
    as (_ & Hadd & Hstart' & Hline' & _).
  specialize (Hreset ltac:(cbn; lia)). specialize (Hadd eq_refl).
  split.
  - destruct (ProgramCounter.accept Ex.counter_mid Ex.token_next_line).
    cbn in *. subst. reflexivity.
  - destruct (ProgramCounter.accept Ex.counter_mid Ex.token_same_line).
    cbn in *. subst. reflexivity.
Defined.

(** C8, as the claim has it, fails outside the text: the pattern of
    [KEYWORD=for] keeps the contract of [match], and yet at offset -1 of
    [for], where the library brings the position back to 0, [match] returns
    a token although the match of the pattern does not begin at -1; the
    token records the span from -1 to 3, and [end - start] is 4 while the
    raw matched substring has 3 characters. *)
Lemma match_anchored_counterexample :
  match_contract (TokenTemplate.regular_expression Ex.keyword_template) /\
  exists token matched,
    TokenTemplate.match_ Ex.keyword_template Ex.for_text (-1) 1 1 = Ok (Some token) /\
    TokenTemplate.regular_expression Ex.keyword_template Ex.for_text (-1)
      = Some matched /\
    TokenTemplate.m_start matched <> -1 /\
    Token.start token = -1 /\
    Token.end_ token - Token.start token <> len (TokenTemplate.group Ex.for_text matched).
Proof.
  split; [apply literal_contract|].
  exists (Token.mk "KEYWORD" (VStr "for") (-1) 3 1 1), (TokenTemplate.mkMatch 0 3).
  repeat split; try reflexivity; vm_compute; discriminate.
Qed.

(** C8, as the code has it -- Anchored template matching, inside the text:
    for an offset from 0 to the length of the text and a pattern that keeps
    the contract of [match], [match] returns the no-match outcome, and does
    not raise, exactly when the pattern does not match at that offset; what
    it returns depends on the answer of the pattern at that offset alone,
    whatever the pattern would answer anywhere else in the text; and when
    it returns a token, the token starts at the offset and ends inside the
    text, [end - start] is the length of the raw matched substring, which is
    the text between the two, and the value is the transform applied to the
    raw substring when the template has one and the raw substring
    otherwise. *)
Theorem match_anchored :
  forall template text start line column,
    match_contract (TokenTemplate.regular_expression template) ->
    0 <= start <= len text ->
    (TokenTemplate.regular_expression template text start = None <->
     TokenTemplate.match_ template text start line column = Ok None) /\
    (forall pattern,
       pattern text start = TokenTemplate.regular_expression template text start ->
       TokenTemplate.match_
         (TokenTemplate.mk (TokenTemplate.token_type template) pattern
            (TokenTemplate.callback template))
         text start line column =
       TokenTemplate.match_ template text start line column) /\
    (forall token,
       TokenTemplate.match_ template text start line column = Ok (Some token) ->
       exists matched,
         TokenTemplate.regular_expression template text start = Some matched /\
         Token.start token = start /\
         Token.end_ token = TokenTemplate.m_end matched /\
         start <= Token.end_ token <= len text /\
         Token.end_ token - Token.start token =
           len (TokenTemplate.group text matched) /\
         TokenTemplate.group text matched = slice text start (Token.end_ token) /\
         match TokenTemplate.callback template with
         | Some cb => cb (TokenTemplate.group text matched) = Ok (Token.lexeme token)
         | None => Token.lexeme token = VStr (TokenTemplate.group text matched)
         end).
Proof.
  intros template text start line column Hc Hstart. split; [|split].
  - split; [apply match_none|apply match_none_inv].
  - intros pattern Hsame. unfold TokenTemplate.match_.
    cbn [TokenTemplate.regular_expression TokenTemplate.callback
         TokenTemplate.token_type].
    rewrite Hsame. reflexivity.
  - intros token H.
    destruct (match_inv _ _ _ _ _ _ H) as (matched & Hre & _ & Hs & He & _ & _ & Hv).
    destruct (Hc _ _ _ Hstart Hre) as (Hms & Hme).
    exists matched. repeat split; try assumption; try lia.
    + unfold TokenTemplate.group. rewrite len_slice; lia.
    + unfold TokenTemplate.group. rewrite Hms, He. reflexivity.
Qed.

(** Outside the text the library brings the position back inside it, and
    the span recorded is no longer the span matched: the offsets of the
    property above are the offsets inside the text, the only ones [tokenize]
    passes. *)
Example match_outside_text :
  TokenTemplate.match_ Ex.keyword_template Ex.for_text (-1) 1 1
  = Ok (Some (Token.mk "KEYWORD" (VStr "for") (-1) 3 1 1)).
Proof. reflexivity. Qed.

Lemma match_anchored_witness :
  TokenTemplate.match_ Ex.number_template "12 345" 3 1 4 = Ok (Some Ex.number_token) /\
  TokenTemplate.match_
    (TokenTemplate.mk "NUMBER" (Re.literal "345") (Some Re.int)) "12 345" 3 1 4 =
    TokenTemplate.match_ Ex.number_template "12 345" 3 1 4 /\
  exists matched,
    TokenTemplate.regular_expression Ex.number_template "12 345"%string 3 = Some matched /\
    Token.start Ex.number_token = 3 /\
    Token.end_ Ex.number_token = TokenTemplate.m_end matched /\
    3 <= Token.end_ Ex.number_token <= len "12 345" /\
    Token.end_ Ex.number_token - Token.start Ex.number_token =
      len (TokenTemplate.group "12 345" matched) /\
    TokenTemplate.group "12 345" matched = slice "12 345" 3 (Token.end_ Ex.number_token) /\
    Re.int (TokenTemplate.group "12 345" matched) = Ok (Token.lexeme Ex.number_token).
Proof.
  destruct (match_anchored Ex.number_template "12 345" 3 1 4
              (plus_contract Re.digit) ltac:(cbn; lia)) as (_ & Hsame & Htoken).
  split; [reflexivity|]. split.
  - apply (Hsame (Re.literal "345")). reflexivity.
  - apply Htoken. reflexivity.
Defined.

(** ** Claims on the result of [tokenize] *)

(** C9 -- Empty input: on the empty string [tokenize] returns the empty
    tuple whatever the templates and the filter, and raises nothing.  One
    unit of fuel is enough, so the loop condition is evaluated once and the
    body, the only place where a template is tried, is never entered; the
    buffer of the lexer is left empty. *)
Theorem tokenize_empty :
  forall fuel self filter_types,
    Lexer.tokenize (S fuel) self EmptyString filter_types =
    (Lexer.Return [], Lexer.reset self).
Proof. intros fuel self filter_types. reflexivity. Qed.

Lemma contains_In (l : list string) (x : string) :
  contains l x = true <-> In x l.
Proof.
  unfold contains. rewrite existsb_exists. split.
  - intros (y & Hin & E). apply String.eqb_eq in E. subst. exact Hin.
  - intros Hin. exists x. split; [exact Hin|apply String.eqb_refl].
Qed.

Lemma filter_removes (set : list string) (raw : list Token.t) :
  removes (fun token => In (Token.token_type token) set) raw
    (filter (fun x => negb (contains set (Token.token_type x))) raw).
Proof.
  induction raw as [|token raw IH]; cbn [filter]; [constructor|].
  destruct (contains set (Token.token_type token)) eqn:E; cbn [negb].
  - apply removes_drop; [apply contains_In; exact E|exact IH].
  - apply removes_keep; [|exact IH].
    intros Hin. apply contains_In in Hin. congruence.
Qed.

Lemma filter_nothing (raw : list Token.t) :
  filter (fun x => negb (contains [] (Token.token_type x))) raw = raw.
Proof.
  induction raw as [|token raw IH]; cbn [filter]; [reflexivity|].
  cbn. f_equal. exact IH.
Qed.

Lemma tokenize_return_inv fuel self text filter_types out self' :
  Lexer.tokenize fuel self text filter_types = (Lexer.Return out, self') ->
  Lexer.tokenize_while fuel (Lexer.reset self) text = (Lexer.Return tt, self') /\
  out = filter (fun x => negb (contains (Lexer.or_empty filter_types)
                                 (Token.token_type x)))
          (Lexer.tokens self').
Proof.
  unfold Lexer.tokenize.
  destruct (Lexer.tokenize_while fuel (Lexer.reset self) text) as [[[]|e|] s];
    intros [= <- <-]. split; reflexivity.
Qed.

(** C7 -- Filtering: when [tokenize] returns, what it returns is the buffer
    of accepted tokens with exactly the tokens taken out whose category is
    in the filter set, the others in their order; with the empty set, or
    with no filter argument, it is the buffer unchanged. *)
Theorem tokenize_filters :
  forall fuel self text filter_types out self',
    Lexer.tokenize fuel self text filter_types = (Lexer.Return out, self') ->
    Lexer.tokenize_while fuel (Lexer.reset self) text = (Lexer.Return tt, self') /\
    removes (fun token =>
               In (Token.token_type token)
                  (match filter_types with Some set => set | None => [] end))
            (Lexer.tokens self') out /\
    (filter_types = None \/ filter_types = Some [] -> out = Lexer.tokens self').
Proof.
  intros fuel self text filter_types out self' H.
  destruct (tokenize_return_inv _ _ _ _ _ _ H) as (Hw & ->).
  split; [exact Hw|]. split.
  - replace (match filter_types with Some set => set | None => [] end)
      with (Lexer.or_empty filter_types)
      by (destruct filter_types as [[|x l]|]; reflexivity).
    apply filter_removes.
  - intros [-> | ->]; apply filter_nothing.
Qed.

Lemma tokenize_filters_witness :
  removes (fun token => In (Token.token_type token) ["WHITESPACE"%string])
    (Lexer.tokens (snd Ex.assign_run)) Ex.assign_out.
Proof.
  apply (tokenize_filters 6 Ex.ident_op_space Ex.assign_text Ex.assign_filter
           Ex.assign_out (snd Ex.assign_run)).
  vm_compute. reflexivity.
Defined.

Lemma contiguous_snoc toks : forall lo mid token,
  contiguous lo toks mid ->
  Token.start token = mid ->
  contiguous lo (toks ++ [token]) (Token.end_ token).
Proof.
  induction toks as [|t toks IH]; intros lo mid token H Hs; cbn in *.
  - split; [congruence|reflexivity].
  - destruct H as (H1 & H2). split; [exact H1|]. eapply IH; eassumption.
Qed.

Lemma tokenize_while_contiguous fuel : forall self text self' lo,
  Lexer.tokenize_while fuel self text = (Lexer.Return tt, self') ->
  contiguous lo (Lexer.tokens self) (Lexer.__start self) ->
  contiguous lo (Lexer.tokens self') (len text).
Proof.
  induction fuel as [|fuel IH]; intros self text self' lo H Hc; [discriminate|].
  rewrite tokenize_while_S in H.
  destruct (Z.eqb_spec (Lexer.__start self) (len text)) as [E|Hne]; cbn [negb] in H.
  - injection H as <-. rewrite <- E. exact Hc.
  - destruct (Lexer.tokenize_body self text) as [mid|e] eqn:Hb; [|discriminate].
    apply (IH _ _ _ _ H).
    destruct (tokenize_body_inv _ _ _ Hb) as (token & Hw & ->).
    cbn [Lexer.__accept Lexer.tokens].
    unfold Lexer.__start at 1.
    cbn [Lexer.line_counter ProgramCounter.accept ProgramCounter.start].
    eapply contiguous_snoc; [exact Hc|]. apply (winner_start _ _ _ Hw).
Qed.

(** ** The position of the lexer during a run *)

Lemma slice_empty text lo : slice text lo lo = EmptyString.
Proof.
  unfold slice. rewrite Z.sub_diag. change (Z.to_nat 0) with O.
  generalize (Z.to_nat lo). induction text as [|c text IH]; intros [|n]; cbn;
    try reflexivity. apply IH.
Qed.

Lemma reset_well_placed self text : well_placed (Lexer.reset self) text.
Proof.
  unfold well_placed, Lexer.__start, Lexer.__line, Lexer.__column. cbn.
  rewrite slice_empty. cbn. unfold len. lia.
Qed.

Lemma contracts_attempt self text template token :
  contracts self ->
  In template (Lexer.templates self) ->
  0 <= Lexer.__start self <= len text ->
  attempt self text template = Ok (Some token) ->
  Token.start token = Lexer.__start self /\
  Lexer.__start self <= Token.end_ token <= len text /\
  Token.line token =
    Lexer.__line self
    + count_newlines (slice text (Lexer.__start self) (Token.end_ token)).
Proof.
  intros Hc Hin Hpos Hatt. unfold contracts in Hc. rewrite Forall_forall in Hc.
  destruct (match_inv _ _ _ _ _ _ Hatt) as (m & Hre & _ & Hs & He & Hl & _).
  destruct (Hc _ Hin _ _ _ Hpos Hre) as (Hms & Hme).
  unfold TokenTemplate.group in Hl. rewrite Hms, <- He in Hl.
  repeat split; try assumption; lia.
Qed.

Lemma accept_well_placed self text token :
  well_placed self text ->
  Token.start token = Lexer.__start self ->
  Lexer.__start self <= Token.end_ token <= len text ->
  Token.line token =
    Lexer.__line self
    + count_newlines (slice text (Lexer.__start self) (Token.end_ token)) ->
  well_placed (Lexer.__accept self token) text.
Proof.
  intros (Hpos & Hline & Hcol) Hs He Hl.
  unfold well_placed, Lexer.__start, Lexer.__line, Lexer.__column in *.
  cbn [Lexer.__accept Lexer.line_counter ProgramCounter.accept
       ProgramCounter.start ProgramCounter.line ProgramCounter.column].
  repeat split; try lia.
  - rewrite Hl, Hline.
    rewrite (slice_zero_split text (ProgramCounter.start (Lexer.line_counter self))
               (Token.end_ token)) by lia.
    rewrite count_newlines_append. lia.
  - destruct (Token.line token =? ProgramCounter.line (Lexer.line_counter self));
      cbn [negb]; lia.
Qed.

Lemma tokenize_body_well_placed self text self' :
  contracts self ->
  well_placed self text ->
  Lexer.tokenize_body self text = Ok self' ->
  well_placed self' text.
Proof.
  intros Hc Hwp Hb.
  destruct (tokenize_body_inv _ _ _ Hb) as (token & Hw & ->).
  destruct (winner_origin _ _ _ Hw) as (template & Hin & Hatt & _).
  destruct (contracts_attempt _ _ _ _ Hc Hin (proj1 Hwp) Hatt) as (Hs & He & Hl).
  apply accept_well_placed; assumption.
Qed.

Lemma reaches_well_placed text n self self' :
  reaches text n self self' ->
  contracts self ->
  well_placed self text ->
  well_placed self' text.
Proof.
  induction 1 as [self|n self mid self' Hr IH Hne Hb]; intros Hc Hwp; [exact Hwp|].
  apply (tokenize_body_well_placed mid); [|apply IH; assumption|exact Hb].
  unfold contracts. rewrite (reaches_templates _ _ _ _ Hr). exact Hc.
Qed.

(** At a well placed lexer the constructor of the error finds the line it
    quotes. *)
Lemma error_new_well_placed self text :
  well_placed self text ->
  exists excerpt,
    nth_error (split NEWLINE text) (Z.to_nat (Lexer.__line self - 1)) = Some excerpt /\
    UnknownSymbolError.new text (Lexer.__line self) (Lexer.__column self) =
    Ok (UnknownSymbolError
          (UnknownSymbolError.errmsg excerpt
             (Py.repeat "-" (Lexer.__column self - 1) ++ "^")%string
             (Lexer.__line self) (Lexer.__column self))).
Proof.
  intros (Hpos & Hline & Hcol).
  pose proof (length_split_newline text) as Hlen.
  pose proof (count_newlines_nonneg (slice text 0 (Lexer.__start self))) as Hnn.
  pose proof (count_newlines_substring text (Z.to_nat 0)
                (Z.to_nat (Lexer.__start self - 0))) as Hle.
  fold (slice text 0 (Lexer.__start self)) in Hle.
  destruct (nth_error (split NEWLINE text) (Z.to_nat (Lexer.__line self - 1)))
    as [excerpt|] eqn:En.
  - exists excerpt. split; [reflexivity|].
    unfold UnknownSymbolError.new, getitem.
    destruct (Z.ltb_spec (Lexer.__line self - 1) 0); [lia|].
    destruct (Z.ltb_spec (Lexer.__line self - 1) 0); [lia|].
    destruct (Z.leb_spec (Z.of_nat (List.length (split NEWLINE text)))
                (Lexer.__line self - 1)); [lia|].
    cbn [orb]. rewrite En. reflexivity.
  - apply nth_error_None in En. lia.
Qed.

(** ** Claims on the course of the loop *)

Lemma tokenize_raised fuel self text filter_types e self' :
  Lexer.tokenize_while fuel (Lexer.reset self) text = (Lexer.Raised e, self') ->
  Lexer.tokenize fuel self text filter_types = (Lexer.Raised e, self').
Proof. unfold Lexer.tokenize. intros ->. reflexivity. Qed.

Lemma tokenize_out_of_fuel fuel self text filter_types :
  fst (Lexer.tokenize fuel self text filter_types) = Lexer.OutOfFuel <->
  fst (Lexer.tokenize_while fuel (Lexer.reset self) text) = Lexer.OutOfFuel.
Proof.
  unfold Lexer.tokenize.
  destruct (Lexer.tokenize_while fuel (Lexer.reset self) text) as [[u|e|] s];
    cbn; split; intros H; try discriminate; reflexivity.
Qed.

(** The marker of the message: the dashes, then the caret. *)
Lemma repeat_dashes (n : Z) :
  Py.repeat "-" n = string_of_list_ascii (List.repeat "-"%char (Z.to_nat n)).
Proof.
  unfold Py.repeat. induction (Z.to_nat n) as [|k IH]; [reflexivity|].
  change (Nat.iter (S k) (String.append "-") EmptyString)
    with (String.append "-" (Nat.iter k (String.append "-") EmptyString)).
  rewrite IH. reflexivity.
Qed.

(** The message of the error, written out. *)
Lemma errmsg_text (excerpt : string) (line col : Z) :
  UnknownSymbolError.errmsg excerpt (Py.repeat "-" (col - 1) ++ "^")%string line col =
  ("Unable to parse symbol at position "
     ++ NilZero.string_of_int (Z.to_int col)
     ++ " on line "
     ++ NilZero.string_of_int (Z.to_int line)
     ++ "."
     ++ String "010" (String "009" "Near here:")
     ++ String "010" (String "009" (String "009" excerpt))
     ++ String "010" (String "009" (String "009"
          (string_of_list_ascii (List.repeat "-"%char (Z.to_nat (col - 1)))
             ++ "^"))))%string.
Proof.
  unfold UnknownSymbolError.errmsg. rewrite repeat_dashes. reflexivity.
Qed.

(** C3 -- Fatal on no match: when the run reaches an offset, short of the
    end of the text, at which no template matches, [tokenize] raises
    [UnknownSymbolError]; its message reads [Unable to parse symbol at
    position], the column of the tracker at that offset in decimal, [on
    line], the line of the tracker in decimal, a full stop, and then, each
    on a line of its own behind tabs, [Near here:], the line of the text
    with that number, and as many dashes as the column less one followed by
    a caret; line and column are both at least 1; the line quoted is the
    stretch of the text without a newline that has as many newlines before
    it as the line less one, the last of them right before it, and that runs
    up to the next newline or the end of the text; the lexer is left as it
    stood at that offset, no token added to its buffer, and the outcome of
    the call is that exception for every amount of fuel that lets the run
    come this far. *)
Theorem tokenize_fatal_on_no_match :
  forall self text filter_types n here fuel,
    contracts self ->
    reaches text n (Lexer.reset self) here ->
    Lexer.__start here <> len text ->
    no_match here text ->
    (n < fuel)%nat ->
    1 <= Lexer.__line here /\
    1 <= Lexer.__column here /\
    exists before excerpt after,
      text = (before ++ excerpt ++ after)%string /\
      ~ In "010"%char (list_ascii_of_string excerpt) /\
      count_occ ascii_dec (list_ascii_of_string before) "010"%char
        = Z.to_nat (Lexer.__line here - 1) /\
      (before = EmptyString \/
       exists b, before = (b ++ String "010" EmptyString)%string) /\
      (after = EmptyString \/ exists rest, after = String "010" rest) /\
      nth_error (split NEWLINE text) (Z.to_nat (Lexer.__line here - 1)) = Some excerpt /\
      Lexer.tokenize fuel self text filter_types =
      (Lexer.Raised
         (UnknownSymbolError
            ("Unable to parse symbol at position "
               ++ NilZero.string_of_int (Z.to_int (Lexer.__column here))
               ++ " on line "
               ++ NilZero.string_of_int (Z.to_int (Lexer.__line here))
               ++ "."
               ++ String "010" (String "009" "Near here:")
               ++ String "010" (String "009" (String "009" excerpt))
               ++ String "010" (String "009" (String "009"
                    (string_of_list_ascii
                       (List.repeat "-"%char (Z.to_nat (Lexer.__column here - 1)))
                       ++ "^"))))%string),
       here).
Proof.
  intros self text filter_types n here fuel Hc Hr Hne Hno Hfuel.
  assert (Hwp : well_placed here text).
  { apply (reaches_well_placed _ _ _ _ Hr); [exact Hc|apply reset_well_placed]. }
  destruct (error_new_well_placed _ _ Hwp) as (excerpt & Hnth & Hnew).
  destruct Hwp as (Hpos & Hline & Hcol).
  pose proof (count_newlines_nonneg (slice text 0 (Lexer.__start here))).
  split; [lia|]. split; [exact Hcol|].
  destruct (split_line _ _ _ Hnth) as (before & after & Ht & Hnl & Hk & Hb & Ha).
  exists before, excerpt, after.
  split; [exact Ht|]. split; [exact Hnl|]. split; [exact Hk|].
  split; [exact Hb|]. split; [exact Ha|]. split; [exact Hnth|].
  apply tokenize_raised.
  replace fuel with (n + S (fuel - S n))%nat by lia.
  rewrite (reaches_run _ _ _ _ Hr), tokenize_while_S.
  destruct (Z.eqb_spec (Lexer.__start here) (len text)); [contradiction|].
  cbn [negb]. rewrite (tokenize_body_no_match _ _ Hno), Hnew. cbn [bind].
  rewrite errmsg_text. reflexivity.
Qed.

Lemma gap_reaches : reaches Ex.gap_text 1 (Lexer.reset Ex.digit_only) Ex.gap_here.
Proof.
  apply (reaches_next _ _ _ (Lexer.reset Ex.digit_only)).
  - constructor.
  - vm_compute. discriminate.
  - vm_compute. reflexivity.
Defined.

Lemma tokenize_fatal_on_no_match_witness :
  1 <= Lexer.__line Ex.gap_here /\
  1 <= Lexer.__column Ex.gap_here /\
  exists before excerpt after,
    Ex.gap_text = (before ++ excerpt ++ after)%string /\
    ~ In "010"%char (list_ascii_of_string excerpt) /\
    count_occ ascii_dec (list_ascii_of_string before) "010"%char
      = Z.to_nat (Lexer.__line Ex.gap_here - 1) /\
    (before = EmptyString \/
     exists b, before = (b ++ String "010" EmptyString)%string) /\
    (after = EmptyString \/ exists rest, after = String "010" rest) /\
    nth_error (split NEWLINE Ex.gap_text) (Z.to_nat (Lexer.__line Ex.gap_here - 1))
      = Some excerpt /\
    Lexer.tokenize 2 Ex.digit_only Ex.gap_text None =
    (Lexer.Raised
       (UnknownSymbolError
          ("Unable to parse symbol at position "
             ++ NilZero.string_of_int (Z.to_int (Lexer.__column Ex.gap_here))
             ++ " on line "
             ++ NilZero.string_of_int (Z.to_int (Lexer.__line Ex.gap_here))
             ++ "."
             ++ String "010" (String "009" "Near here:")
             ++ String "010" (String "009" (String "009" excerpt))
             ++ String "010" (String "009" (String "009"
                  (string_of_list_ascii
                     (List.repeat "-"%char (Z.to_nat (Lexer.__column Ex.gap_here - 1)))
                     ++ "^"))))%string),
     Ex.gap_here).
Proof.
  apply (tokenize_fatal_on_no_match Ex.digit_only Ex.gap_text None 1 Ex.gap_here 2).
  - apply Forall_cons; [apply one_contract|apply Forall_nil].
  - exact gap_reaches.
  - vm_compute. discriminate.
  - apply Forall_cons; [reflexivity|apply Forall_nil].
  - lia.
Defined.

(** The fourth scenario in full: the digit is accepted, the blank is not,
    and the message names column 2 of line 1 under the text. *)
Example scenario_gap :
  fst (Lexer.tokenize 2 Ex.digit_only Ex.gap_text None) =
  Lexer.Raised
    (UnknownSymbolError
       ("Unable to parse symbol at position 2 on line 1."
          ++ String "010" (String "009" "Near here:")
          ++ String "010" (String "009" (String "009" "1 2"))
          ++ String "010" (String "009" (String "009" "-^")))%string).
Proof. vm_compute. reflexivity. Qed.

(** While every token the run settles on is longer than nothing, fuel
    beyond the distance to the end of the text is never used up. *)
Lemma progress_from self text
  (Hc : contracts self)
  (Hlong : forall n here token,
      reaches text n (Lexer.reset self) here ->
      Lexer.__start here <> len text ->
      winner here text = Ok (Some token) ->
      Token.start token < Token.end_ token) :
  forall fuel n here,
    reaches text n (Lexer.reset self) here ->
    len text - Lexer.__start here < Z.of_nat fuel ->
    fst (Lexer.tokenize_while fuel here text) <> Lexer.OutOfFuel.
Proof.
  induction fuel as [|fuel IH]; intros n here Hr Hfuel.
  - assert (Hwp : well_placed here text).
    { apply (reaches_well_placed _ _ _ _ Hr); [exact Hc|apply reset_well_placed]. }
    destruct Hwp as (Hpos & _). lia.
  - rewrite tokenize_while_S.
    destruct (Z.eqb_spec (Lexer.__start here) (len text)) as [E|Hne]; cbn [negb].
    + discriminate.
    + destruct (Lexer.tokenize_body here text) as [next|e] eqn:Hb; [|discriminate].
      apply (IH (S n)).
      * econstructor; eassumption.
      * destruct (tokenize_body_inv _ _ _ Hb) as (token & Hw & ->).
        pose proof (Hlong _ _ _ Hr Hne Hw) as Hlt.
        rewrite (winner_start _ _ _ Hw) in Hlt.
        unfold Lexer.__start in *.
        cbn [Lexer.__accept Lexer.line_counter ProgramCounter.accept
             ProgramCounter.start]. lia.
Qed.

(** Accepting a token of empty span leaves the tracker where it was. *)
Lemma accept_empty_span self text token :
  contracts self ->
  well_placed self text ->
  winner self text = Ok (Some token) ->
  Token.end_ token = Token.start token ->
  Lexer.line_counter (Lexer.__accept self token) = Lexer.line_counter self.
Proof.
  intros Hc Hwp Hw Hempty.
  destruct (winner_origin _ _ _ Hw) as (template & Hin & Hatt & _).
  destruct (contracts_attempt _ _ _ _ Hc Hin (proj1 Hwp) Hatt) as (Hs & _ & Hl).
  rewrite Hempty, Hs, slice_empty in Hl. cbn [count_newlines] in Hl.
  cbn [Lexer.__accept Lexer.line_counter]. unfold ProgramCounter.accept.
  unfold Lexer.__start, Lexer.__line in *.
  rewrite Hempty, Hs.
  replace (Token.line token) with (ProgramCounter.line (Lexer.line_counter self)) by lia.
  rewrite Z.eqb_refl. cbn [negb].
  destruct (Lexer.line_counter self) as [s l c]. cbn. f_equal. lia.
Qed.

(** Once accepting the winner leaves the tracker in place, no amount of
    fuel ends the loop. *)
Lemma stuck_loop text token fuel : forall self,
  Lexer.__start self <> len text ->
  winner self text = Ok (Some token) ->
  Lexer.line_counter (Lexer.__accept self token) = Lexer.line_counter self ->
  fst (Lexer.tokenize_while fuel self text) = Lexer.OutOfFuel.
Proof.
  induction fuel as [|fuel IH]; intros self Hne Hw Hsame; [reflexivity|].
  rewrite (tokenize_while_step _ _ _ _ Hne (tokenize_body_winner _ _ _ Hw)).
  apply IH.
  - unfold Lexer.__start in *. rewrite Hsame. exact Hne.
  - unfold winner in *. cbn [Lexer.__accept Lexer.templates].
    rewrite <- Hw. apply tokenize_for_counter. exact Hsame.
  - cbn [Lexer.__accept Lexer.line_counter] in *. rewrite Hsame. exact Hsame.
Qed.

(** A run that has come to an end comes to the same end with more fuel. *)
Lemma tokenize_while_more fuel : forall self text r self' extra,
  Lexer.tokenize_while fuel self text = (r, self') ->
  r <> Lexer.OutOfFuel ->
  Lexer.tokenize_while (fuel + extra) self text = (r, self').
Proof.
  induction fuel as [|fuel IH]; intros self text r self' extra H Hr.
  - injection H as <- _. contradiction.
  - change (S fuel + extra)%nat with (S (fuel + extra)).
    rewrite tokenize_while_S in *.
    destruct (negb (Lexer.__start self =? len text)); [|exact H].
    destruct (Lexer.tokenize_body self text) as [mid|e]; [|exact H].
    apply IH; assumption.
Qed.

Lemma tokenize_more fuel self text filter_types r self' extra :
  Lexer.tokenize fuel self text filter_types = (r, self') ->
  r <> Lexer.OutOfFuel ->
  Lexer.tokenize (fuel + extra) self text filter_types = (r, self').
Proof.
  unfold Lexer.tokenize. intros H Hr.
  destruct (Lexer.tokenize_while fuel (Lexer.reset self) text) as [[u|e|] s] eqn:Hw.
  - rewrite (tokenize_while_more _ _ _ _ _ extra Hw); [exact H|discriminate].
  - rewrite (tokenize_while_more _ _ _ _ _ extra Hw); [exact H|discriminate].
  - injection H as <- _. contradiction.
Qed.

(** C10 -- Progress and termination: a run in which the token accepted at
    every offset it reaches has [end] above [start] ends, by returning or
    raising: it comes to one and the same end for every amount of fuel
    above the number of characters of the text, since the offset of the
    tracker grows at each pass and stays within the text; and when at some
    offset the run reaches the token it settles on has an empty span,
    accepting it leaves the tracker where it was and the loop goes on for
    ever, every amount of fuel being used up. *)
Theorem tokenize_progress :
  forall self text filter_types,
    contracts self ->
    ((forall n here token,
         reaches text n (Lexer.reset self) here ->
         Lexer.__start here <> len text ->
         winner here text = Ok (Some token) ->
         Token.start token < Token.end_ token) ->
     exists r self',
       r <> Lexer.OutOfFuel /\
       forall fuel,
         (Z.to_nat (len text) < fuel)%nat ->
         Lexer.tokenize fuel self text filter_types = (r, self')) /\
    (forall n here token,
        reaches text n (Lexer.reset self) here ->
        Lexer.__start here <> len text ->
        winner here text = Ok (Some token) ->
        Token.end_ token = Token.start token ->
        Lexer.line_counter (Lexer.__accept here token) = Lexer.line_counter here /\
        forall fuel,
          fst (Lexer.tokenize fuel self text filter_types) = Lexer.OutOfFuel).
Proof.
  intros self text filter_types Hc. split.
  - intros Hlong.
    destruct (Lexer.tokenize (S (Z.to_nat (len text))) self text filter_types)
      as [r self'] eqn:Hrun.
    assert (Hr : r <> Lexer.OutOfFuel).
    { intros ->. apply (f_equal fst) in Hrun. cbn [fst] in Hrun.
      apply tokenize_out_of_fuel in Hrun. revert Hrun.
      apply (progress_from self text Hc Hlong _ O); [constructor|].
      unfold Lexer.__start, len. cbn. lia. }
    exists r, self'. split; [exact Hr|].
    intros fuel Hfuel.
    replace fuel with (S (Z.to_nat (len text)) + (fuel - S (Z.to_nat (len text))))%nat
      by lia.
    apply tokenize_more; assumption.
  - intros n here token Hr Hne Hw Hempty.
    assert (Hwp : well_placed here text).
    { apply (reaches_well_placed _ _ _ _ Hr); [exact Hc|apply reset_well_placed]. }
    assert (Hc' : contracts here).
    { unfold contracts. rewrite (reaches_templates _ _ _ _ Hr). exact Hc. }
    pose proof (accept_empty_span _ _ _ Hc' Hwp Hw Hempty) as Hsame.
    split; [exact Hsame|].
    intros fuel. apply tokenize_out_of_fuel.
    destruct (Nat.le_gt_cases fuel n) as [Hle|Hgt].
    + apply (reaches_short _ _ _ _ Hr). exact Hle.
    + replace fuel with (n + (fuel - n))%nat by lia.
      rewrite (reaches_run _ _ _ _ Hr).
      apply (stuck_loop text token); assumption.
Qed.

(** The span of the token a pass settles on is the span of a match of one
    of the templates. *)
Lemma winner_span self text token :
  winner self text = Ok (Some token) ->
  exists template matched,
    In template (Lexer.templates self) /\
    TokenTemplate.regular_expression template text (Lexer.__start self) = Some matched /\
    Token.start token = Lexer.__start self /\
    Token.end_ token = TokenTemplate.m_end matched.
Proof.
  intros Hw. destruct (winner_origin _ _ _ Hw) as (template & Hin & Hatt & _).
  destruct (match_inv _ _ _ _ _ _ Hatt) as (m & Hre & _ & Hs & He & _).
  exists template, m. repeat split; assumption.
Qed.

Lemma keyword_word_contracts : contracts Ex.keyword_word.
Proof.
  apply Forall_cons; [apply literal_contract|].
  apply Forall_cons; [apply plus_contract|apply Forall_nil].
Qed.

Lemma mark_word_contracts : contracts Ex.mark_word.
Proof.
  apply Forall_cons; [apply star_contract|].
  apply Forall_cons; [apply plus_contract|apply Forall_nil].
Qed.

(** Neither [for] nor [[a-zA-Z]+] matches the empty string. *)
Lemma keyword_word_long n here token :
  reaches Ex.for_text n (Lexer.reset Ex.keyword_word) here ->
  Lexer.__start here <> len Ex.for_text ->
  winner here Ex.for_text = Ok (Some token) ->
  Token.start token < Token.end_ token.
Proof.
  intros Hr _ Hw.
  assert (Hwp : well_placed here Ex.for_text).
  { apply (reaches_well_placed _ _ _ _ Hr);
      [exact keyword_word_contracts|apply reset_well_placed]. }
  destruct Hwp as (Hpos & _).
  destruct (winner_span _ _ _ Hw) as (template & m & Hin & Hre & -> & ->).
  rewrite (reaches_templates _ _ _ _ Hr) in Hin.
  destruct Hin as [<-|[<-|[]]];
    cbn [TokenTemplate.regular_expression Ex.keyword_template Ex.word_template] in Hre.
  - unfold Re.literal in Hre. rewrite (clamp_inside _ _ Hpos) in Hre.
    destruct (String.prefix _ _); [|discriminate].
    injection Hre as <-. cbn. lia.
  - unfold Re.plus in Hre. rewrite (clamp_inside _ _ Hpos) in Hre.
    destruct (Re.run _ _); [discriminate|].
    injection Hre as <-. cbn [TokenTemplate.m_end]. lia.
Qed.

Lemma stall_reaches : reaches Ex.stall_text 1 (Lexer.reset Ex.mark_word) Ex.stall_here.
Proof.
  apply (reaches_next _ _ _ (Lexer.reset Ex.mark_word)).
  - constructor.
  - vm_compute. discriminate.
  - vm_compute. reflexivity.
Defined.

Lemma tokenize_progress_witness :
  (exists r self',
     r <> Lexer.OutOfFuel /\
     forall fuel,
       (Z.to_nat (len Ex.for_text) < fuel)%nat ->
       Lexer.tokenize fuel Ex.keyword_word Ex.for_text None = (r, self')) /\
  Lexer.line_counter (Lexer.__accept Ex.stall_here Ex.stall_token) =
    Lexer.line_counter Ex.stall_here /\
  forall fuel,
    fst (Lexer.tokenize fuel Ex.mark_word Ex.stall_text None) = Lexer.OutOfFuel.
Proof.
  split.
  - apply (proj1 (tokenize_progress Ex.keyword_word Ex.for_text None
                    keyword_word_contracts)).
    exact keyword_word_long.
  - apply (proj2 (tokenize_progress Ex.mark_word Ex.stall_text None
                    mark_word_contracts) 1%nat Ex.stall_here Ex.stall_token).
    + exact stall_reaches.
    + vm_compute. discriminate.
    + vm_compute. reflexivity.
    + reflexivity.
Defined.

(** ** Claims on the choice among the matches *)

Lemma value_length_bool token n :
  len_value (Token.lexeme token) = Ok n ->
  Token.truth token = negb (n =? 0).
Proof.
  unfold Token.truth, Token.__len__.
  destruct (Token.lexeme token) as [s| |]; cbn; [|discriminate|discriminate].
  intros [= <-]. reflexivity.
Qed.

Lemma best_value_length best other :
  len_value (Token.lexeme best) = Ok (span best) ->
  len_value (Token.lexeme other) = Ok (span other) ->
  Lexer.__best best other = Ok (if span best >? span other then best else other).
Proof. unfold Lexer.__best. intros -> ->. reflexivity. Qed.

(** Over templates whose matches are no longer than [bound], the pass goes
    through without raising and stays within [bound]. *)
Lemma tokenize_for_at_most self text bound todo : forall best,
  Forall (value_length self text) todo ->
  (forall other token,
      In other todo -> attempt self text other = Ok (Some token) ->
      span token <= bound) ->
  at_most bound best ->
  exists best',
    Lexer.tokenize_for todo self text best = Ok best' /\ at_most bound best'.
Proof.
  induction todo as [|template todo IH]; intros best Hvl Hle Hbest.
  - exists best. split; [reflexivity|exact Hbest].
  - inversion Hvl as [|? ? (r & Hatt & Hlen) Hvl']; subst.
    assert (Hle' : forall other token,
               In other todo -> attempt self text other = Ok (Some token) ->
               span token <= bound).
    { intros other token Hin. apply Hle. right. exact Hin. }
    rewrite tokenize_for_cons, Hatt. cbn [bind].
    destruct r as [token|]; cbn [Lexer.not_]; [|apply IH; assumption].
    destruct (Token.truth token) eqn:Etrue; cbn [negb]; [|apply IH; assumption].
    assert (Htoken : at_most bound (Some token)).
    { cbn. split; [exact Etrue|]. split; [apply Hlen; reflexivity|].
      apply (Hle template); [left; reflexivity|exact Hatt]. }
    destruct best as [best|]; cbn [Lexer.not_]; [|apply IH; assumption].
    destruct Hbest as (Hbtrue & Hblen & Hbound). rewrite Hbtrue. cbn [negb].
    rewrite (best_value_length _ _ Hblen (Hlen _ eq_refl)). cbn [bind].
    apply IH; try assumption.
    destruct (span best >? span token); [|exact Htoken].
    cbn. repeat split; assumption.
Qed.

(** Over templates whose matches are all shorter than [best], the pass
    keeps [best]. *)
Lemma tokenize_for_keeps self text best todo :
  Forall (value_length self text) todo ->
  (forall other token,
      In other todo -> attempt self text other = Ok (Some token) ->
      span token < span best) ->
  Token.truth best = true ->
  len_value (Token.lexeme best) = Ok (span best) ->
  Lexer.tokenize_for todo self text (Some best) = Ok (Some best).
Proof.
  intros Hvl Hlt Htrue Hblen.
  induction todo as [|template todo IH]; [reflexivity|].
  inversion Hvl as [|? ? (r & Hatt & Hlen) Hvl']; subst.
  assert (IH' := IH Hvl' (fun other token Hin => Hlt other token (or_intror Hin))).
  rewrite tokenize_for_cons, Hatt. cbn [bind].
  destruct r as [token|]; cbn [Lexer.not_]; [|exact IH'].
  destruct (Token.truth token); cbn [negb]; [|exact IH'].
  rewrite Htrue. cbn [negb].
  rewrite (best_value_length _ _ Hblen (Hlen _ eq_refl)). cbn [bind].
  pose proof (Hlt template token (or_introl eq_refl) Hatt) as Hshort.
  destruct (Z.gtb_spec (span best) (span token)); [exact IH'|lia].
Qed.

(** C1, as the code has it -- Tie-break by declaration order, the last one
    winning: at any offset, when no template raises and the value of every
    token has the length of its raw match, a template whose match is not
    empty, at least as long as the match of every template declared before
    it and longer than the match of every template declared after it, is
    the one whose token [tokenize] selects and accepts.  Among templates
    that tie for the longest match, this is the one declared latest. *)
Theorem tie_break_declared_last :
  forall self text before template after token,
    Lexer.templates self = (before ++ template :: after)%list ->
    Forall (value_length self text) (Lexer.templates self) ->
    attempt self text template = Ok (Some token) ->
    0 < span token ->
    (forall other token',
        In other before -> attempt self text other = Ok (Some token') ->
        span token' <= span token) ->
    (forall other token',
        In other after -> attempt self text other = Ok (Some token') ->
        span token' < span token) ->
    winner self text = Ok (Some token) /\
    Lexer.tokenize_body self text = Ok (Lexer.__accept self token).
Proof.
  intros self text before template after token Htpl Hvl Hatt Hpos Hbefore Hafter.
  assert (Hw : winner self text = Ok (Some token)).
  { unfold winner. rewrite Htpl in *.
    apply Forall_app in Hvl. destruct Hvl as (Hvl1 & Hvl2).
    inversion Hvl2 as [|? ? (r & Hatt' & Hlen) Hvl3]; subst.
    rewrite Hatt in Hatt'. injection Hatt' as <-.
    specialize (Hlen _ eq_refl).
    assert (Htrue : Token.truth token = true).
    { rewrite (value_length_bool _ _ Hlen).
      destruct (Z.eqb_spec (span token) 0); [lia|reflexivity]. }
    destruct (tokenize_for_at_most self text (span token) before None Hvl1 Hbefore I)
      as (best1 & Hfor1 & Hbest1).
    rewrite tokenize_for_app, Hfor1. cbn [bind].
    rewrite tokenize_for_cons, Hatt. cbn [bind Lexer.not_].
    rewrite Htrue. cbn [negb].
    destruct best1 as [best1|]; cbn [Lexer.not_].
    - destruct Hbest1 as (Hbtrue & Hblen & Hbound). rewrite Hbtrue. cbn [negb].
      rewrite (best_value_length _ _ Hblen Hlen). cbn [bind].
      destruct (Z.gtb_spec (span best1) (span token)); [lia|].
      apply tokenize_for_keeps; assumption.
    - apply tokenize_for_keeps; assumption. }
  split; [exact Hw|apply tokenize_body_winner; exact Hw].
Qed.

Lemma tie_break_declared_last_witness :
  winner (Lexer.reset Ex.keyword_word) Ex.for_text = Ok (Some Ex.word_token) /\
  Lexer.tokenize_body (Lexer.reset Ex.keyword_word) Ex.for_text =
    Ok (Lexer.__accept (Lexer.reset Ex.keyword_word) Ex.word_token).
Proof.
  apply (tie_break_declared_last (Lexer.reset Ex.keyword_word) Ex.for_text
           [Ex.keyword_template] Ex.word_template [] Ex.word_token).
  - reflexivity.
  - apply Forall_cons; [|apply Forall_cons; [|apply Forall_nil]].
    + exists (Some Ex.keyword_token). split; [reflexivity|].
      intros token [= <-]. reflexivity.
    + exists (Some Ex.word_token). split; [reflexivity|].
      intros token [= <-]. reflexivity.
  - reflexivity.
  - reflexivity.
  - intros other token' [<-|[]] Hatt. vm_compute in Hatt.
    injection Hatt as <-. vm_compute. discriminate.
  - intros other token' [].
Defined.

(** C1, as the claim has it, fails: [KEYWORD=for] is declared before
    [WORD=[a-zA-Z]+], both match the three characters of [for] at offset 0,
    and the token selected and returned is the one of [WORD], declared
    last, not the one of [KEYWORD]. *)
Lemma tie_break_declared_first_counterexample :
  Lexer.templates Ex.keyword_word = [Ex.keyword_template; Ex.word_template] /\
  attempt (Lexer.reset Ex.keyword_word) Ex.for_text Ex.keyword_template =
    Ok (Some Ex.keyword_token) /\
  attempt (Lexer.reset Ex.keyword_word) Ex.for_text Ex.word_template =
    Ok (Some Ex.word_token) /\
  span Ex.keyword_token = span Ex.word_token /\
  winner (Lexer.reset Ex.keyword_word) Ex.for_text <> Ok (Some Ex.keyword_token) /\
  fst (Lexer.tokenize 2 Ex.keyword_word Ex.for_text None) =
    Lexer.Return [Ex.word_token].
Proof.
  repeat split; try reflexivity.
  vm_compute. discriminate.
Qed.

(** C2, on the code -- Longest match by raw span: the comparison of
    [__best] is on the values, not on the raw spans.  At the start of [abc]
    the match of [INITIAL=[a-z]+] has span 3, but its callback leaves a
    value of length 1, and [PAIR=ab], of span 2, is selected whichever of
    the two is declared first; and when [NUMBER=\d+] with [int] meets
    [WORD=[a-z0-9_]+] on [12], the comparison raises [TypeError]. *)
Theorem longest_match_compares_values :
  attempt (Lexer.reset Ex.initial_pair) Ex.abc_text Ex.initial_template =
    Ok (Some Ex.initial_token) /\
  attempt (Lexer.reset Ex.initial_pair) Ex.abc_text Ex.pair_template =
    Ok (Some Ex.pair_token) /\
  span Ex.pair_token < span Ex.initial_token /\
  winner (Lexer.reset Ex.initial_pair) Ex.abc_text = Ok (Some Ex.pair_token) /\
  winner (Lexer.reset Ex.pair_initial) Ex.abc_text = Ok (Some Ex.pair_token) /\
  fst (Lexer.tokenize 3 Ex.initial_pair Ex.abc_text None) =
    Lexer.Return [Ex.pair_token; Ex.initial_token'] /\
  fst (Lexer.tokenize 3 Ex.pair_initial Ex.abc_text None) =
    Lexer.Return [Ex.pair_token; Ex.initial_token'] /\
  fst (Lexer.tokenize 2 Ex.number_word Ex.digits_text None) = Lexer.Raised TypeError.
Proof. repeat split; reflexivity. Qed.

(** ** Coverage *)

(** A run that returns has accepted no token of empty span: accepting one
    would have left the loop where it was. *)
Lemma tokenize_while_nonempty fuel : forall self text self',
  Lexer.tokenize_while fuel self text = (Lexer.Return tt, self') ->
  contracts self ->
  well_placed self text ->
  Forall (fun token => Token.start token < Token.end_ token) (Lexer.tokens self) ->
  Forall (fun token => Token.start token < Token.end_ token) (Lexer.tokens self').
Proof.
  induction fuel as [|fuel IH]; intros self text self' H Hc Hwp Hall; [discriminate|].
  pose proof H as Hrun. rewrite tokenize_while_S in H.
  destruct (Z.eqb_spec (Lexer.__start self) (len text)) as [E|Hne]; cbn [negb] in H.
  - injection H as <-. exact Hall.
  - destruct (Lexer.tokenize_body self text) as [mid|e] eqn:Hb; [|discriminate].
    pose proof (tokenize_body_well_placed _ _ _ Hc Hwp Hb) as Hwp'.
    destruct (tokenize_body_inv _ _ _ Hb) as (token & Hw & ->).
    destruct (winner_origin _ _ _ Hw) as (template & Hin & Hatt & _).
    destruct (contracts_attempt _ _ _ _ Hc Hin (proj1 Hwp) Hatt) as (Hs & He & _).
    destruct (Z.eq_dec (Token.end_ token) (Token.start token)) as [Hempty|Hlong].
    + pose proof (accept_empty_span _ _ _ Hc Hwp Hw Hempty) as Hsame.
      pose proof (stuck_loop text token (S fuel) self Hne Hw Hsame) as Hstuck.
      rewrite Hrun in Hstuck. discriminate.
    + apply (IH _ _ _ H); [exact Hc|exact Hwp'|].
      cbn [Lexer.__accept Lexer.tokens]. apply Forall_app. split; [exact Hall|].
      apply Forall_cons; [lia|apply Forall_nil].
Qed.

(** C4 -- Coverage without gaps or overlaps: when [tokenize] returns, the
    spans of the accepted tokens, unfiltered and in the order of acceptance,
    lead from 0 to the length of the text: the first starts at 0, each next
    one starts where the one before it ends, and the last ends at the length
    of the text.  With patterns that keep the contract of [match], each of
    these spans has its end above its start. *)
Theorem tokenize_covers :
  forall fuel self text filter_types out self',
    Lexer.tokenize fuel self text filter_types = (Lexer.Return out, self') ->
    contiguous 0 (Lexer.tokens self') (len text) /\
    (contracts self ->
     Forall (fun token => Token.start token < Token.end_ token) (Lexer.tokens self')).
Proof.
  intros fuel self text filter_types out self' H.
  destruct (tokenize_return_inv _ _ _ _ _ _ H) as (Hw & _). split.
  - apply (tokenize_while_contiguous _ _ _ _ _ Hw). reflexivity.
  - intros Hc. apply (tokenize_while_nonempty _ _ _ _ Hw).
    + exact Hc.
    + apply reset_well_placed.
    + apply Forall_nil.
Qed.

Lemma ident_op_space_contracts : contracts Ex.ident_op_space.
Proof.
  apply Forall_cons; [apply one_star_contract|].
  apply Forall_cons; [apply literal_contract|].
  apply Forall_cons; [apply plus_contract|apply Forall_nil].
Qed.

Lemma tokenize_covers_witness :
  contiguous 0 (Lexer.tokens (snd Ex.assign_run)) 11 /\
  Forall (fun token => Token.start token < Token.end_ token)
         (Lexer.tokens (snd Ex.assign_run)).
Proof.
  destruct (tokenize_covers 6 Ex.ident_op_space Ex.assign_text Ex.assign_filter
              Ex.assign_out (snd Ex.assign_run)) as (Hchain & Hlong).
  - vm_compute. reflexivity.
  - split; [exact Hchain|exact (Hlong ident_op_space_contracts)].
Defined.

(** ** The longest match, where values keep the length of their match *)

Lemma value_length_span token :
  len_value (Token.lexeme token) = Ok (span token) -> 0 <= span token.
Proof.
  destruct (Token.lexeme token) as [s| |]; cbn; [|discriminate|discriminate].
  intros [= <-]. unfold len. lia.
Qed.

Lemma tokenize_for_longest self text todo : forall best token,
  Forall (value_length self text) todo ->
  (forall b, best = Some b ->
     Token.truth b = true /\ len_value (Token.lexeme b) = Ok (span b)) ->
  Lexer.tokenize_for todo self text best = Ok (Some token) ->
  len_value (Token.lexeme token) = Ok (span token) /\
  (forall b, best = Some b -> span b <= span token) /\
  (forall other token',
      In other todo -> attempt self text other = Ok (Some token') ->
      span token' <= span token).
Proof.
  induction todo as [|template todo IH]; intros best token Hvl Hbest H.
  - injection H as ->. split; [apply (Hbest _ eq_refl)|].
    split; [intros b [= <-]; lia|intros other token' []].
  - inversion Hvl as [|? ? (r & Hatt & Hlen) Hvl']; subst.
    rewrite tokenize_for_cons, Hatt in H. cbn [bind] in H.
    assert (Hskip :
      Lexer.tokenize_for todo self text best = Ok (Some token) ->
      (forall token', r = Some token' -> span token' = 0) ->
      len_value (Token.lexeme token) = Ok (span token) /\
      (forall b, best = Some b -> span b <= span token) /\
      (forall other token',
          In other (template :: todo) ->
          attempt self text other = Ok (Some token') ->
          span token' <= span token)).
    { intros Hrest Hzero. destruct (IH _ _ Hvl' Hbest Hrest) as (Htl & Hb & Hothers).
      split; [exact Htl|]. split; [exact Hb|].
      intros other token' [<-|Hin] Hatt'.
      - rewrite Hatt in Hatt'. injection Hatt' as ->.
        rewrite (Hzero _ eq_refl). apply value_length_span. exact Htl.
      - apply (Hothers other); assumption. }
    destruct r as [tok|]; cbn [Lexer.not_] in H;
      [|apply Hskip; [exact H|discriminate]].
    pose proof (Hlen _ eq_refl) as Htoklen.
    pose proof (value_length_bool _ _ Htoklen) as Hbool.
    destruct (Token.truth tok) eqn:Etrue; cbn [negb] in H.
    2:{ apply Hskip; [exact H|]. intros token' [= <-].
        destruct (Z.eqb_spec (span tok) 0); [assumption|discriminate]. }
    assert (Hpick : forall chosen,
      Token.truth chosen = true ->
      len_value (Token.lexeme chosen) = Ok (span chosen) ->
      span tok <= span chosen ->
      (forall b, best = Some b -> span b <= span chosen) ->
      Lexer.tokenize_for todo self text (Some chosen) = Ok (Some token) ->
      len_value (Token.lexeme token) = Ok (span token) /\
      (forall b, best = Some b -> span b <= span token) /\
      (forall other token',
          In other (template :: todo) ->
          attempt self text other = Ok (Some token') ->
          span token' <= span token)).
    { intros chosen Hctrue Hclen Htokle Hbestle Hrest.
      destruct (IH (Some chosen) token Hvl') as (Htl & Hc & Hothers).
      - intros b [= <-]. split; assumption.
      - exact Hrest.
      - specialize (Hc _ eq_refl).
        split; [exact Htl|]. split.
        + intros b Hb. specialize (Hbestle b Hb). lia.
        + intros other token' [<-|Hin] Hatt'.
          * rewrite Hatt in Hatt'. injection Hatt' as <-. lia.
          * apply (Hothers other); assumption. }
    destruct best as [b|]; cbn [Lexer.not_] in H.
    + destruct (Hbest b eq_refl) as (Hbtrue & Hblen).
      rewrite Hbtrue in H. cbn [negb] in H.
      rewrite (best_value_length _ _ Hblen Htoklen) in H. cbn [bind] in H.
      destruct (Z.gtb_spec (span b) (span tok)).
      * apply (Hpick b); try assumption; [lia|]. intros b' [= <-]. lia.
      * apply (Hpick tok); try assumption; [lia|]. intros b' [= <-]. lia.
    + apply (Hpick tok); try assumption; [lia|]. intros b' Hb'. discriminate.
Qed.

(** Where no template raises and every value has the length of its raw
    match, the token selected has the longest raw match of all, whatever the
    order of the templates. *)
Lemma winner_longest self text token :
  Forall (value_length self text) (Lexer.templates self) ->
  winner self text = Ok (Some token) ->
  forall other token',
    In other (Lexer.templates self) ->
    attempt self text other = Ok (Some token') ->
    span token' <= span token.
Proof.
  intros Hvl Hw.
  destruct (tokenize_for_longest self text _ None token Hvl) as (_ & _ & H).
  - intros b Hb. discriminate.
  - exact Hw.
  - exact H.
Qed.

(** ** The examples of the source and of the specification *)

(** The docstring of the module: the model prints what the docstring
    shows, [FOR], declared last, winning the two ties with [IDENTIFIER]. *)
Example docstring_example :
  Ex.printed (Lexer.tokenize 200 Ex.docstring_lexer Ex.docstring_text Ex.docstring_filter)
  = Some Ex.docstring_printed.
Proof. vm_compute. reflexivity. Qed.

(** The docstring of [TokenTemplate]. *)
Example template_docstring_example :
  TokenTemplate.match_ (TokenTemplate.mk "LITERAL" (Re.plus Re.digit) (Some Re.int))
    "1234567890" 0 0 0
  = Ok (Some (Token.mk "LITERAL" (VInt 1234567890) 0 10 0 0)) /\
  Token.__repr__ (Token.mk "LITERAL" (VInt 1234567890) 0 10 0 0)
  = "Token(LITERAL, 1234567890, 0[0])"%string.
Proof. split; vm_compute; reflexivity. Qed.

(** Scenario 1: identifiers and an operator, blanks filtered out. *)
Example scenario_assignment : fst Ex.assign_run = Lexer.Return Ex.assign_out.
Proof. vm_compute. reflexivity. Qed.

(** Scenario 2: two numbers turned into integers. *)
Example scenario_numbers :
  fst (Lexer.tokenize 4 Ex.number_space "12 345" (Some ["WHITESPACE"%string]))
  = Lexer.Return [Token.mk "NUMBER" (VInt 12) 0 2 1 1; Ex.number_token].
Proof. vm_compute. reflexivity. Qed.

(** Scenario 5: a block over three lines reports the line it ends on. *)
Example scenario_block :
  fst (Lexer.tokenize 2 Ex.block Ex.block_text None) = Lexer.Return [Ex.block_token].
Proof. vm_compute. reflexivity. Qed.

(** * Further properties of the lexer *)

(** ** Lines and columns along a run *)

Lemma tokenize_reaches fuel self text filter_types :
  exists n,
    reaches text n (Lexer.reset self)
      (snd (Lexer.tokenize fuel self text filter_types)).
Proof.
  rewrite tokenize_snd.
  destruct (Lexer.tokenize_while fuel (Lexer.reset self) text) as [r s] eqn:Hw.
  exact (tokenize_while_reaches _ _ _ _ _ Hw).
Qed.

Lemma reaches_contracts text n self here :
  reaches text n self here -> contracts self -> contracts here.
Proof.
  intros Hr Hc. unfold contracts. rewrite (reaches_templates _ _ _ _ Hr). exact Hc.
Qed.

Lemma tokenize_returned_sublist fuel self text filter_types out (P : Token.t -> Prop) :
  fst (Lexer.tokenize fuel self text filter_types) = Lexer.Return out ->
  Forall P (Lexer.tokens (snd (Lexer.tokenize fuel self text filter_types))) ->
  Forall P out.
Proof.
  destruct (Lexer.tokenize fuel self text filter_types) as [r s] eqn:H.
  cbn [fst snd]. intros -> Hall.
  destruct (tokenize_return_inv _ _ _ _ _ _ H) as (_ & ->).
  rewrite Forall_forall in *. intros token Hin.
  apply filter_In in Hin. apply Hall. exact (proj1 Hin).
Qed.

Lemma reaches_token_lines text n self here :
  reaches text n self here ->
  contracts self ->
  well_placed self text ->
  Forall (fun token =>
            Token.line token = 1 + count_newlines (slice text 0 (Token.end_ token)))
         (Lexer.tokens self) ->
  Forall (fun token =>
            Token.line token = 1 + count_newlines (slice text 0 (Token.end_ token)))
         (Lexer.tokens here).
Proof.
  induction 1 as [self|n self mid self' Hr IH Hne Hb]; intros Hc Hwp Hall; [exact Hall|].
  specialize (IH Hc Hwp Hall).
  pose proof (reaches_well_placed _ _ _ _ Hr Hc Hwp) as Hwp'.
  pose proof (reaches_contracts _ _ _ _ Hr Hc) as Hc'.
  pose proof (tokenize_body_well_placed _ _ _ Hc' Hwp' Hb) as (_ & Hline & _).
  destruct (tokenize_body_inv _ _ _ Hb) as (token & _ & ->).
  cbn [Lexer.__accept Lexer.tokens]. apply Forall_app. split; [exact IH|].
  apply Forall_cons; [|apply Forall_nil].
  unfold Lexer.__line, Lexer.__start in Hline.
  cbn [Lexer.__accept Lexer.line_counter ProgramCounter.accept
       ProgramCounter.line ProgramCounter.start] in Hline.
  exact Hline.
Qed.

(** X1 -- Lines are exact: with patterns that keep the contract of [match],
    every token a call of [tokenize] accepts, and so every token it
    returns, carries as its line one plus the number of newlines of the
    text before its end, and the tracker the call leaves behind carries the
    line of its offset in the same way, whether the call returns or
    raises. *)
Theorem lines_exact :
  forall fuel self text filter_types,
    contracts self ->
    Forall (fun token =>
              Token.line token = 1 + count_newlines (slice text 0 (Token.end_ token)))
           (Lexer.tokens (snd (Lexer.tokenize fuel self text filter_types))) /\
    Lexer.__line (snd (Lexer.tokenize fuel self text filter_types)) =
      1 + count_newlines
            (slice text 0 (Lexer.__start (snd (Lexer.tokenize fuel self text filter_types)))) /\
    forall out,
      fst (Lexer.tokenize fuel self text filter_types) = Lexer.Return out ->
      Forall (fun token =>
                Token.line token = 1 + count_newlines (slice text 0 (Token.end_ token)))
             out.
Proof.
  intros fuel self text filter_types Hc.
  destruct (tokenize_reaches fuel self text filter_types) as (n & Hr).
  assert (Hall : Forall (fun token =>
              Token.line token = 1 + count_newlines (slice text 0 (Token.end_ token)))
           (Lexer.tokens (snd (Lexer.tokenize fuel self text filter_types)))).
  { apply (reaches_token_lines _ _ _ _ Hr Hc (reset_well_placed _ _)). apply Forall_nil. }
  split; [exact Hall|]. split.
  - exact (proj1 (proj2 (reaches_well_placed _ _ _ _ Hr Hc (reset_well_placed _ _)))).
  - intros out Hout. exact (tokenize_returned_sublist _ _ _ _ _ _ Hout Hall).
Qed.

Lemma word_blank_newline_contracts : contracts Sample.word_blank_newline.
Proof.
  apply Forall_cons; [apply plus_contract|].
  apply Forall_cons; [apply literal_contract|].
  apply Forall_cons; [apply literal_contract|apply Forall_nil].
Qed.

Lemma lines_exact_witness :
  Forall (fun token =>
            Token.line token =
              1 + count_newlines (slice Sample.two_lines 0 (Token.end_ token)))
         (Lexer.tokens (snd Sample.two_lines_run)) /\
  Lexer.__line (snd Sample.two_lines_run) =
    1 + count_newlines (slice Sample.two_lines 0 (Lexer.__start (snd Sample.two_lines_run))) /\
  forall out,
    fst Sample.two_lines_run = Lexer.Return out ->
    Forall (fun token =>
              Token.line token =
                1 + count_newlines (slice Sample.two_lines 0 (Token.end_ token)))
           out.
Proof.
  exact (lines_exact 7 Sample.word_blank_newline Sample.two_lines None
           word_blank_newline_contracts).
Defined.

Lemma column_after_append (a : string) : forall (b : string) (col : Z),
  column_after (a ++ b) col = column_after b (column_after a col).
Proof.
  induction a as [|c a IH]; intros b col; cbn; [reflexivity|].
  destruct (Ascii.eqb c NEWLINE); apply IH.
Qed.

Lemma column_after_plain (s : string) : forall col : Z,
  count_newlines s = 0 -> column_after s col = col + len s.
Proof.
  induction s as [|c s IH]; intros col H; cbn [column_after count_newlines] in *.
  - unfold len. cbn. lia.
  - pose proof (count_newlines_nonneg s).
    destruct (Ascii.eqb c NEWLINE); [lia|].
    rewrite IH by lia. unfold len. cbn [String.length]. lia.
Qed.

Lemma column_after_last (s : string) : forall col : Z,
  last_is_newline s = true -> column_after s col = 1.
Proof.
  induction s as [|c s IH]; intros col H; [discriminate|].
  cbn [column_after]. destruct s as [|d s].
  - cbn in H. rewrite H. reflexivity.
  - change (last_is_newline (String c (String d s)))
      with (last_is_newline (String d s)) in H.
    destruct (Ascii.eqb c NEWLINE); apply IH; exact H.
Qed.

Lemma contracts_attempt_column self text template token :
  contracts self ->
  In template (Lexer.templates self) ->
  0 <= Lexer.__start self <= len text ->
  attempt self text template = Ok (Some token) ->
  Token.column token =
    if 0 <? count_newlines (raw text token) then 1 else Lexer.__column self.
Proof.
  intros Hc Hin Hpos Hatt. unfold contracts in Hc. rewrite Forall_forall in Hc.
  destruct (match_inv _ _ _ _ _ _ Hatt) as (m & Hre & _ & Hs & He & _ & Hcol & _).
  destruct (Hc _ Hin _ _ _ Hpos Hre) as (Hms & _).
  unfold TokenTemplate.group in Hcol. unfold raw.
  rewrite Hs, He, <- Hms at 1. exact Hcol.
Qed.

Lemma reaches_columns text n self here :
  reaches text n self here ->
  contracts self ->
  well_placed self text ->
  Lexer.__column self = true_column text (Lexer.__start self) ->
  Forall (fun token => breaks_last (raw text token) = true) (Lexer.tokens here) ->
  Forall (fun token =>
            Token.column token =
              if 0 <? count_newlines (raw text token) then 1
              else true_column text (Token.start token))
         (Lexer.tokens self) ->
  Lexer.__column here = true_column text (Lexer.__start here) /\
  Forall (fun token =>
            Token.column token =
              if 0 <? count_newlines (raw text token) then 1
              else true_column text (Token.start token))
         (Lexer.tokens here).
Proof.
  induction 1 as [self|n self mid self' Hr IH Hne Hb];
    intros Hc Hwp Hcol Htidy Hall; [split; assumption|].
  pose proof (reaches_well_placed _ _ _ _ Hr Hc Hwp) as Hwp'.
  pose proof (reaches_contracts _ _ _ _ Hr Hc) as Hc'.
  destruct (tokenize_body_inv _ _ _ Hb) as (token & Hw & ->).
  cbn [Lexer.__accept Lexer.tokens] in Htidy.
  apply Forall_app in Htidy. destruct Htidy as (Htidy & Hlast).
  inversion Hlast as [|? ? Htoken _]; subst.
  destruct (IH Hc Hwp Hcol Htidy Hall) as (Hcolmid & Hallmid).
  destruct (winner_origin _ _ _ Hw) as (template & Hin & Hatt & _).
  destruct (contracts_attempt _ _ _ _ Hc' Hin (proj1 Hwp') Hatt) as (Hs & He & Hl).
  pose proof (contracts_attempt_column _ _ _ _ Hc' Hin (proj1 Hwp') Hatt) as Hcoltok.
  destruct Hwp' as (Hpos & _).
  assert (Hraw : raw text token = slice text (Lexer.__start mid) (Token.end_ token)).
  { unfold raw. rewrite Hs. reflexivity. }
  rewrite <- Hraw in Hl.
  pose proof (count_newlines_nonneg (raw text token)) as Hnn.
  assert (Hsplit : true_column text (Token.end_ token) =
                   column_after (raw text token) (Lexer.__column mid)).
  { unfold true_column.
    rewrite (slice_zero_split text (Lexer.__start mid) (Token.end_ token)) by lia.
    rewrite column_after_append, Hraw, Hcolmid. reflexivity. }
  split.
  - unfold Lexer.__column at 1, Lexer.__start at 1.
    cbn [Lexer.__accept Lexer.line_counter ProgramCounter.accept
         ProgramCounter.column ProgramCounter.start].
    rewrite Hsplit. fold (Lexer.__line mid). fold (Lexer.__column mid).
    destruct (Z.eqb_spec (Token.line token) (Lexer.__line mid)) as [E|E]; cbn [negb].
    + rewrite column_after_plain by lia.
      rewrite Hraw, len_slice by lia. lia.
    + unfold breaks_last in Htoken.
      destruct (Z.eqb_spec (count_newlines (raw text token)) 0); [lia|].
      cbn [orb] in Htoken. rewrite (column_after_last _ _ Htoken). reflexivity.
  - cbn [Lexer.__accept Lexer.tokens]. apply Forall_app. split; [exact Hallmid|].
    apply Forall_cons; [|apply Forall_nil].
    rewrite Hcoltok, Hcolmid, Hs. reflexivity.
Qed.

(** X2 -- Columns are exact when line breaks close their tokens: with
    patterns that keep the contract of [match], if every token a call of
    [tokenize] accepts holds no newline or ends with one, then the tracker
    the call leaves behind carries the 1-based column of its offset, every
    accepted token that holds no newline carries the 1-based column of its
    start, and one that holds a newline carries column 1; so do the tokens
    returned. *)
Theorem columns_exact :
  forall fuel self text filter_types,
    contracts self ->
    Forall (fun token => breaks_last (raw text token) = true)
           (Lexer.tokens (snd (Lexer.tokenize fuel self text filter_types))) ->
    Lexer.__column (snd (Lexer.tokenize fuel self text filter_types)) =
      true_column text (Lexer.__start (snd (Lexer.tokenize fuel self text filter_types))) /\
    Forall (fun token =>
              Token.column token =
                if 0 <? count_newlines (raw text token) then 1
                else true_column text (Token.start token))
           (Lexer.tokens (snd (Lexer.tokenize fuel self text filter_types))) /\
    forall out,
      fst (Lexer.tokenize fuel self text filter_types) = Lexer.Return out ->
      Forall (fun token =>
                Token.column token =
                  if 0 <? count_newlines (raw text token) then 1
                  else true_column text (Token.start token))
             out.
Proof.
  intros fuel self text filter_types Hc Htidy.
  destruct (tokenize_reaches fuel self text filter_types) as (n & Hr).
  destruct (reaches_columns _ _ _ _ Hr Hc (reset_well_placed _ _)) as (Hcol & Hall).
  - unfold true_column, Lexer.__column, Lexer.__start. cbn.
    rewrite slice_empty. reflexivity.
  - exact Htidy.
  - apply Forall_nil.
  - split; [exact Hcol|]. split; [exact Hall|].
    intros out Hout. exact (tokenize_returned_sublist _ _ _ _ _ _ Hout Hall).
Qed.

Lemma columns_exact_witness :
  Lexer.__column (snd Sample.two_lines_run) =
    true_column Sample.two_lines (Lexer.__start (snd Sample.two_lines_run)) /\
  Forall (fun token =>
            Token.column token =
              if 0 <? count_newlines (raw Sample.two_lines token) then 1
              else true_column Sample.two_lines (Token.start token))
         (Lexer.tokens (snd Sample.two_lines_run)) /\
  forall out,
    fst Sample.two_lines_run = Lexer.Return out ->
    Forall (fun token =>
              Token.column token =
                if 0 <? count_newlines (raw Sample.two_lines token) then 1
                else true_column Sample.two_lines (Token.start token))
           out.
Proof.
  apply (columns_exact 7 Sample.word_blank_newline Sample.two_lines None
           word_blank_newline_contracts).
  vm_compute. repeat constructor.
Defined.

(** ** Lexers without callbacks *)

Lemma substring_all (s : string) : substring 0 (String.length s) s = s.
Proof. induction s as [|c s IH]; cbn; [reflexivity|]. f_equal. exact IH. Qed.

Lemma slice_all text : slice text 0 (len text) = text.
Proof.
  unfold slice, len. rewrite Z.sub_0_r, Nat2Z.id. apply substring_all.
Qed.

Lemma join_lexemes_app toks : forall toks',
  join_lexemes (toks ++ toks') = (join_lexemes toks ++ join_lexemes toks')%string.
Proof.
  induction toks as [|token toks IH]; intros toks'; cbn; [reflexivity|].
  rewrite IH. clear IH.
  generalize (str (Token.lexeme token)) as a. intros a.
  induction a as [|c a IHa]; cbn; [reflexivity|]. f_equal. exact IHa.
Qed.

Lemma string_append_empty (s : string) : (s ++ "")%string = s.
Proof. induction s as [|c s IH]; cbn; [reflexivity|]. f_equal. exact IH. Qed.

(** Without a callback a template raises nothing, and the value of its
    token is the raw text between the offset and the end of the match. *)
Lemma plain_attempt self text template :
  contracts self ->
  In template (Lexer.templates self) ->
  TokenTemplate.callback template = None ->
  0 <= Lexer.__start self <= len text ->
  exists r,
    attempt self text template = Ok r /\
    forall token, r = Some token ->
      Token.start token = Lexer.__start self /\
      Lexer.__start self <= Token.end_ token <= len text /\
      Token.lexeme token = VStr (raw text token) /\
      TokenTemplate.regular_expression template text (Lexer.__start self) =
        Some (TokenTemplate.mkMatch (Token.start token) (Token.end_ token)).
Proof.
  intros Hc Hin Hcb Hpos.
  destruct (attempt self text template) as [r|e] eqn:Hatt.
  - exists r. split; [reflexivity|]. intros token ->.
    destruct (contracts_attempt _ _ _ _ Hc Hin Hpos Hatt) as (Hs & He & _).
    destruct (match_inv _ _ _ _ _ _ Hatt) as (m & Hre & _ & _ & Hend & _ & _ & Hv).
    unfold contracts in Hc. rewrite Forall_forall in Hc.
    destruct (Hc _ Hin _ _ _ Hpos Hre) as (Hms & _).
    rewrite Hcb in Hv. repeat split; try assumption; try lia.
    + rewrite Hv. unfold raw, TokenTemplate.group. rewrite Hms, Hs, Hend. reflexivity.
    + rewrite Hre, Hs, Hend, <- Hms. destruct m. reflexivity.
  - exfalso. unfold attempt, TokenTemplate.match_ in Hatt.
    destruct (TokenTemplate.regular_expression template text (Lexer.__start self));
      [|discriminate].
    destruct (TokenTemplate.for_char _ _ _). rewrite Hcb in Hatt. discriminate.
Qed.

Lemma plain_value_length self text :
  plain self ->
  contracts self ->
  0 <= Lexer.__start self <= len text ->
  Forall (value_length self text) (Lexer.templates self).
Proof.
  intros Hp Hc Hpos. apply Forall_forall. intros template Hin.
  unfold plain in Hp. rewrite Forall_forall in Hp.
  destruct (plain_attempt _ text _ Hc Hin (Hp _ Hin) Hpos) as (r & Hatt & Hr).
  exists r. split; [exact Hatt|]. intros token Htok.
  destruct (Hr _ Htok) as (Hs & He & Hv & _).
  rewrite Hv. unfold raw, span. cbn [len_value]. rewrite len_slice by lia.
  reflexivity.
Qed.

Lemma reaches_plain text n self here :
  reaches text n self here -> plain self -> plain here.
Proof.
  intros Hr Hp. unfold plain. rewrite (reaches_templates _ _ _ _ Hr). exact Hp.
Qed.

Lemma reaches_join text n self here :
  reaches text n self here ->
  plain self ->
  contracts self ->
  well_placed self text ->
  join_lexemes (Lexer.tokens self) = slice text 0 (Lexer.__start self) ->
  join_lexemes (Lexer.tokens here) = slice text 0 (Lexer.__start here).
Proof.
  induction 1 as [self|n self mid self' Hr IH Hne Hb];
    intros Hp Hc Hwp Hjoin; [exact Hjoin|].
  specialize (IH Hp Hc Hwp Hjoin).
  pose proof (reaches_well_placed _ _ _ _ Hr Hc Hwp) as (Hpos & _).
  pose proof (reaches_contracts _ _ _ _ Hr Hc) as Hc'.
  pose proof (reaches_plain _ _ _ _ Hr Hp) as Hp'.
  destruct (tokenize_body_inv _ _ _ Hb) as (token & Hw & ->).
  destruct (winner_origin _ _ _ Hw) as (template & Hin & Hatt & _).
  unfold plain in Hp'. rewrite Forall_forall in Hp'.
  destruct (plain_attempt _ text _ Hc' Hin (Hp' _ Hin) Hpos) as (r & Hatt' & Hr').
  rewrite Hatt in Hatt'. injection Hatt' as <-.
  destruct (Hr' _ eq_refl) as (Hs & He & Hv & _).
  cbn [Lexer.__accept Lexer.tokens]. unfold Lexer.__start at 1.
  cbn [Lexer.line_counter ProgramCounter.accept ProgramCounter.start].
  rewrite join_lexemes_app, IH. cbn [join_lexemes fold_right].
  rewrite Hv. cbn [str]. rewrite string_append_empty.
  unfold raw. rewrite Hs.
  symmetry. apply slice_zero_split. lia.
Qed.

(** X3 -- The lexemes give the text back: for a lexer without callbacks
    whose patterns keep the contract of [match], the lexemes of the tokens a
    call of [tokenize] has accepted, joined in order, are the text up to the
    offset the call stopped at; when the call returns they are the whole
    text, and so are the lexemes of the tokens returned when no filter is
    given. *)
Theorem lexemes_rebuild_text :
  forall fuel self text filter_types,
    plain self ->
    contracts self ->
    join_lexemes (Lexer.tokens (snd (Lexer.tokenize fuel self text filter_types))) =
      slice text 0 (Lexer.__start (snd (Lexer.tokenize fuel self text filter_types))) /\
    forall out,
      fst (Lexer.tokenize fuel self text filter_types) = Lexer.Return out ->
      join_lexemes (Lexer.tokens (snd (Lexer.tokenize fuel self text filter_types))) = text /\
      (filter_types = None -> join_lexemes out = text).
Proof.
  intros fuel self text filter_types Hp Hc.
  destruct (tokenize_reaches fuel self text filter_types) as (n & Hr).
  assert (Hjoin :
    join_lexemes (Lexer.tokens (snd (Lexer.tokenize fuel self text filter_types))) =
    slice text 0 (Lexer.__start (snd (Lexer.tokenize fuel self text filter_types)))).
  { apply (reaches_join _ _ _ _ Hr Hp Hc (reset_well_placed _ _)).
    unfold Lexer.__start. cbn. rewrite slice_empty. reflexivity. }
  split; [exact Hjoin|].
  intros out Hout.
  destruct (Lexer.tokenize fuel self text filter_types) as [r s] eqn:Hrun.
  cbn [fst snd] in *. subst r.
  destruct (tokenize_return_inv _ _ _ _ _ _ Hrun) as (Hw & Hfilter).
  assert (Hall : join_lexemes (Lexer.tokens s) = text).
  { rewrite Hjoin, (tokenize_while_return _ _ _ _ Hw). apply slice_all. }
  split; [exact Hall|].
  intros ->. rewrite Hfilter. cbn [Lexer.or_empty].
  rewrite filter_nothing. exact Hall.
Qed.

Lemma word_blank_newline_plain : plain Sample.word_blank_newline.
Proof. repeat (apply Forall_cons; [reflexivity|]). apply Forall_nil. Qed.

Lemma lexemes_rebuild_text_witness :
  join_lexemes (Lexer.tokens (snd Sample.two_lines_run)) =
    slice Sample.two_lines 0 (Lexer.__start (snd Sample.two_lines_run)) /\
  forall out,
    fst Sample.two_lines_run = Lexer.Return out ->
    join_lexemes (Lexer.tokens (snd Sample.two_lines_run)) = Sample.two_lines /\
    (@None (list string) = None -> join_lexemes out = Sample.two_lines).
Proof.
  exact (lexemes_rebuild_text 7 Sample.word_blank_newline Sample.two_lines None
           word_blank_newline_plain word_blank_newline_contracts).
Defined.

Lemma tokenize_for_some todo : forall self text best r,
  Lexer.tokenize_for todo self text (Some best) = Ok r ->
  exists best', r = Some best'.
Proof.
  induction todo as [|template todo IH]; intros self text best r H.
  - injection H as <-. exists best. reflexivity.
  - rewrite tokenize_for_cons in H.
    destruct (attempt self text template) as [token|e]; [|discriminate].
    cbn [bind] in H.
    destruct token as [token|]; cbn [Lexer.not_] in H; [|exact (IH _ _ _ _ H)].
    destruct (negb (Token.truth token)); [exact (IH _ _ _ _ H)|].
    destruct (negb (Token.truth best)); [exact (IH _ _ _ _ H)|].
    destruct (Lexer.__best best token) as [best'|e]; [|discriminate].
    exact (IH _ _ _ _ H).
Qed.

(** A pass that ends on nothing has met no true token. *)
Lemma tokenize_for_none_inv todo : forall self text,
  Lexer.tokenize_for todo self text None = Ok None ->
  forall template token,
    In template todo ->
    attempt self text template = Ok (Some token) ->
    Token.truth token = false.
Proof.
  induction todo as [|template todo IH]; intros self text H other token Hin Hatt.
  - destruct Hin.
  - rewrite tokenize_for_cons in H.
    destruct (attempt self text template) as [r|e] eqn:Hhere; [|discriminate].
    cbn [bind] in H.
    destruct (Lexer.not_ r) eqn:Hnot.
    + destruct Hin as [<-|Hin]; [|exact (IH _ _ H _ _ Hin Hatt)].
      rewrite Hatt in Hhere. injection Hhere as <-.
      cbn [Lexer.not_] in Hnot. destruct (Token.truth token); [discriminate|reflexivity].
    + cbn [Lexer.not_] in H. destruct r as [tok|]; [|discriminate].
      destruct (tokenize_for_some _ _ _ _ _ H) as (b & Hb). discriminate.
Qed.

Lemma tokenize_while_raised_inv fuel : forall self text e self',
  Lexer.tokenize_while fuel self text = (Lexer.Raised e, self') ->
  exists n,
    reaches text n self self' /\
    Lexer.__start self' <> len text /\
    Lexer.tokenize_body self' text = Raise e.
Proof.
  induction fuel as [|fuel IH]; intros self text e self' H; [discriminate|].
  rewrite tokenize_while_S in H.
  destruct (Z.eqb_spec (Lexer.__start self) (len text)) as [E|Hne]; cbn [negb] in H;
    [discriminate|].
  destruct (Lexer.tokenize_body self text) as [mid|e'] eqn:Hb.
  - destruct (IH _ _ _ _ H) as (n & Hr & Hne' & Hb').
    exists (S n). split; [|split; assumption].
    clear H IH Hb'. induction Hr as [s|n s mid' s' Hr IHr Hne'' Hb''].
    + econstructor; [constructor|exact Hne|exact Hb].
    + econstructor; [apply IHr; assumption|exact Hne''|exact Hb''].
  - injection H as <- <-. exists O. split; [constructor|]. split; assumption.
Qed.

(** At an offset inside the text, the pass of a lexer without callbacks
    raises nothing. *)
Lemma plain_winner self text :
  plain self ->
  contracts self ->
  0 <= Lexer.__start self <= len text ->
  exists best, winner self text = Ok best.
Proof.
  intros Hp Hc Hpos.
  destruct (tokenize_for_at_most self text (len text) (Lexer.templates self) None
              (plain_value_length _ _ Hp Hc Hpos)) as (best & Hbest & _).
  - intros other token Hin Hatt.
    destruct (contracts_attempt _ _ _ _ Hc Hin Hpos Hatt) as (Hs & He & _).
    unfold span. lia.
  - exact I.
  - exists best. exact Hbest.
Qed.

(** The token such a pass settles on is not empty. *)
Lemma plain_winner_long self text token :
  plain self ->
  contracts self ->
  0 <= Lexer.__start self <= len text ->
  winner self text = Ok (Some token) ->
  Token.start token < Token.end_ token.
Proof.
  intros Hp Hc Hpos Hw.
  destruct (winner_origin _ _ _ Hw) as (template & Hin & Hatt & Htrue).
  destruct (contracts_attempt _ _ _ _ Hc Hin Hpos Hatt) as (Hs & He & _).
  pose proof (plain_value_length _ text Hp Hc Hpos) as Hvl.
  rewrite Forall_forall in Hvl. destruct (Hvl _ Hin) as (r & Hatt' & Hlen).
  rewrite Hatt in Hatt'. injection Hatt' as <-.
  rewrite (value_length_bool _ _ (Hlen _ eq_refl)) in Htrue.
  unfold span in Htrue.
  destruct (Z.eqb_spec (Token.end_ token - Token.start token) 0); [discriminate|lia].
Qed.

(** X4 -- A lexer without callbacks always comes to an end, and fails in one
    way only: with patterns that keep the contract of [match], a call of
    [tokenize] comes to one and the same end for every amount of fuel above
    the number of characters of the text; it either returns, or raises
    [UnknownSymbolError] at an offset short of the end of the text where
    every template that matches at all matches the empty string.  It never
    raises anything else and never loops. *)
Theorem plain_run_ends :
  forall self text filter_types,
    plain self ->
    contracts self ->
    exists r self',
      (forall fuel,
          (Z.to_nat (len text) < fuel)%nat ->
          Lexer.tokenize fuel self text filter_types = (r, self')) /\
      ((exists out, r = Lexer.Return out) \/
       (exists msg,
           r = Lexer.Raised (UnknownSymbolError msg) /\
           Lexer.__start self' <> len text /\
           forall template matched,
             In template (Lexer.templates self) ->
             TokenTemplate.regular_expression template text (Lexer.__start self')
               = Some matched ->
             TokenTemplate.m_end matched = Lexer.__start self')).
Proof.
  intros self text filter_types Hp Hc.
  assert (Hlong : forall n here token,
             reaches text n (Lexer.reset self) here ->
             Lexer.__start here <> len text ->
             winner here text = Ok (Some token) ->
             Token.start token < Token.end_ token).
  { intros n here token Hr _ Hw.
    apply (plain_winner_long here text).
    - exact (reaches_plain _ _ _ _ Hr Hp).
    - exact (reaches_contracts _ _ _ _ Hr Hc).
    - exact (proj1 (reaches_well_placed _ _ _ _ Hr Hc (reset_well_placed _ _))).
    - exact Hw. }
  destruct (Lexer.tokenize (S (Z.to_nat (len text))) self text filter_types)
    as [r self'] eqn:Hrun.
  assert (Hr : r <> Lexer.OutOfFuel).
  { intros ->. apply (f_equal fst) in Hrun. cbn [fst] in Hrun.
    apply tokenize_out_of_fuel in Hrun. revert Hrun.
    apply (progress_from self text Hc Hlong _ O); [constructor|].
    unfold Lexer.__start, len. cbn. lia. }
  exists r, self'. split.
  { intros fuel Hfuel.
    replace fuel with (S (Z.to_nat (len text)) + (fuel - S (Z.to_nat (len text))))%nat
      by lia.
    apply tokenize_more; assumption. }
  destruct r as [out|e|]; [left; exists out; reflexivity| |contradiction].
  right.
  assert (Hw : Lexer.tokenize_while (S (Z.to_nat (len text))) (Lexer.reset self) text
               = (Lexer.Raised e, self')).
  { unfold Lexer.tokenize in Hrun.
    destruct (Lexer.tokenize_while (S (Z.to_nat (len text))) (Lexer.reset self) text)
      as [[u|e'|] s]; try discriminate. injection Hrun as <- <-. reflexivity. }
  destruct (tokenize_while_raised_inv _ _ _ _ _ Hw) as (n & Hreach & Hne & Hb).
  pose proof (reaches_well_placed _ _ _ _ Hreach Hc (reset_well_placed _ _)) as Hwp.
  pose proof (reaches_contracts _ _ _ _ Hreach Hc) as Hc'.
  pose proof (reaches_plain _ _ _ _ Hreach Hp) as Hp'.
  destruct (plain_winner _ text Hp' Hc' (proj1 Hwp)) as (best & Hbest).
  destruct best as [token|].
  { rewrite (tokenize_body_winner _ _ _ Hbest) in Hb. discriminate. }
  destruct (error_new_well_placed _ _ Hwp) as (excerpt & _ & Hnew).
  unfold Lexer.tokenize_body in Hb. fold (winner self' text) in Hb.
  rewrite Hbest in Hb. cbn [bind] in Hb. rewrite Hnew in Hb. cbn [bind] in Hb.
  injection Hb as <-.
  eexists. split; [reflexivity|]. split; [exact Hne|].
  intros template matched Hin Hre.
  change (Lexer.templates self) with (Lexer.templates (Lexer.reset self)) in Hin.
  rewrite <- (reaches_templates _ _ _ _ Hreach) in Hin.
  unfold plain in Hp'. rewrite Forall_forall in Hp'.
  destruct (plain_attempt _ text _ Hc' Hin (Hp' _ Hin) (proj1 Hwp)) as (r & Hatt & Hr').
  destruct r as [token|].
  - destruct (Hr' _ eq_refl) as (Hs & He & Hv & Hre').
    pose proof (proj1 Hwp) as Hpos.
    rewrite Hre in Hre'. injection Hre' as ->. cbn [TokenTemplate.m_end].
    pose proof (tokenize_for_none_inv _ _ _ Hbest _ _ Hin Hatt) as Hfalse.
    unfold Token.truth, Token.__len__ in Hfalse. rewrite Hv in Hfalse.
    cbn [str] in Hfalse. unfold raw in Hfalse. rewrite len_slice in Hfalse by lia.
    destruct (Z.eqb_spec (Token.end_ token - Token.start token) 0) as [E|E];
      [|discriminate].
    rewrite Hs in E. lia.
  - unfold attempt in Hatt. apply match_none_inv in Hatt. congruence.
Qed.

Lemma plain_run_ends_witness :
  exists r self',
    (forall fuel,
        (Z.to_nat (len Sample.broken_line) < fuel)%nat ->
        Lexer.tokenize fuel Sample.word_blank_newline Sample.broken_line None = (r, self')) /\
    ((exists out, r = Lexer.Return out) \/
     (exists msg,
         r = Lexer.Raised (UnknownSymbolError msg) /\
         Lexer.__start self' <> len Sample.broken_line /\
         forall template matched,
           In template (Lexer.templates Sample.word_blank_newline) ->
           TokenTemplate.regular_expression template Sample.broken_line (Lexer.__start self')
             = Some matched ->
           TokenTemplate.m_end matched = Lexer.__start self')).
Proof.
  exact (plain_run_ends Sample.word_blank_newline Sample.broken_line None
           word_blank_newline_plain word_blank_newline_contracts).
Defined.

(** X5 -- Longest match without callbacks: for a lexer without callbacks
    whose patterns keep the contract of [match], a pass of the loop at an
    offset inside the text that accepts a token adds exactly that token to
    the buffer; the token starts at the offset, is not empty, spans a match
    of one of the templates of its category, and ends at least as far as
    the match of any template at that offset. *)
Theorem plain_accepts_longest :
  forall self text self',
    plain self ->
    contracts self ->
    0 <= Lexer.__start self <= len text ->
    Lexer.tokenize_body self text = Ok self' ->
    exists token,
      Lexer.tokens self' = (Lexer.tokens self ++ [token])%list /\
      Token.start token = Lexer.__start self /\
      Token.start token < Token.end_ token /\
      (exists template,
          In template (Lexer.templates self) /\
          TokenTemplate.token_type template = Token.token_type token /\
          TokenTemplate.regular_expression template text (Lexer.__start self) =
            Some (TokenTemplate.mkMatch (Token.start token) (Token.end_ token))) /\
      forall template matched,
        In template (Lexer.templates self) ->
        TokenTemplate.regular_expression template text (Lexer.__start self) = Some matched ->
        TokenTemplate.m_end matched <= Token.end_ token.
Proof.
  intros self text self' Hp Hc Hpos Hb.
  destruct (tokenize_body_inv _ _ _ Hb) as (token & Hw & ->).
  exists token. split; [reflexivity|].
  split; [exact (winner_start _ _ _ Hw)|].
  split; [exact (plain_winner_long _ _ _ Hp Hc Hpos Hw)|].
  pose proof Hp as Hp'. unfold plain in Hp'. rewrite Forall_forall in Hp'.
  split.
  - destruct (winner_origin _ _ _ Hw) as (template & Hin & Hatt & _).
    exists template. split; [exact Hin|].
    destruct (match_inv _ _ _ _ _ _ Hatt) as (_ & _ & Htype & _).
    split; [symmetry; exact Htype|].
    destruct (plain_attempt _ text _ Hc Hin (Hp' _ Hin) Hpos) as (r & Hatt' & Hr).
    rewrite Hatt in Hatt'. injection Hatt' as <-.
    exact (proj2 (proj2 (proj2 (Hr _ eq_refl)))).
  - intros template matched Hin Hre.
    destruct (plain_attempt _ text _ Hc Hin (Hp' _ Hin) Hpos) as (r & Hatt & Hr).
    destruct r as [token'|].
    + destruct (Hr _ eq_refl) as (Hs & _ & _ & Hre').
      rewrite Hre in Hre'. injection Hre' as ->. cbn [TokenTemplate.m_end].
      pose proof (winner_longest _ _ _ (plain_value_length _ _ Hp Hc Hpos) Hw
                    _ _ Hin Hatt) as Hle.
      pose proof (winner_start _ _ _ Hw) as Hs'.
      unfold span in Hle. lia.
    + unfold attempt in Hatt. apply match_none_inv in Hatt. congruence.
Qed.

Lemma plain_accepts_longest_witness :
  exists token,
    Lexer.tokens (Lexer.__accept (Lexer.reset Ex.keyword_word) Ex.word_token) =
      (Lexer.tokens (Lexer.reset Ex.keyword_word) ++ [token])%list /\
    Token.start token = Lexer.__start (Lexer.reset Ex.keyword_word) /\
    Token.start token < Token.end_ token /\
    (exists template,
        In template (Lexer.templates (Lexer.reset Ex.keyword_word)) /\
        TokenTemplate.token_type template = Token.token_type token /\
        TokenTemplate.regular_expression template Ex.for_text
          (Lexer.__start (Lexer.reset Ex.keyword_word)) =
          Some (TokenTemplate.mkMatch (Token.start token) (Token.end_ token))) /\
    forall template matched,
      In template (Lexer.templates (Lexer.reset Ex.keyword_word)) ->
      TokenTemplate.regular_expression template Ex.for_text
        (Lexer.__start (Lexer.reset Ex.keyword_word)) = Some matched ->
      TokenTemplate.m_end matched <= Token.end_ token.
Proof.
  apply (plain_accepts_longest (Lexer.reset Ex.keyword_word) Ex.for_text
           (Lexer.__accept (Lexer.reset Ex.keyword_word) Ex.word_token)).
  - repeat (apply Forall_cons; [reflexivity|]). apply Forall_nil.
  - exact keyword_word_contracts.
  - vm_compute. split; discriminate.
  - reflexivity.
Defined.

(** ** One lexer, several calls *)

Lemma tokenize_templates fuel self text filter_types :
  Lexer.templates (snd (Lexer.tokenize fuel self text filter_types)) =
  Lexer.templates self.
Proof.
  destruct (tokenize_reaches fuel self text filter_types) as (n & Hr).
  exact (reaches_templates _ _ _ _ Hr).
Qed.

(** X6 -- A lexer can be used again: a call of [tokenize] leaves the
    templates of the lexer as they were, and what a call does depends on
    the templates only, not on what earlier calls left in the buffer and in
    the tracker; so a call on the lexer an earlier call left behind, however
    that call ended, gives what the same call gives on the lexer as it
    was. *)
Theorem tokenize_again :
  forall fuel fuel' self text text' filter_types filter_types',
    Lexer.templates (snd (Lexer.tokenize fuel' self text' filter_types')) =
      Lexer.templates self /\
    Lexer.tokenize fuel (snd (Lexer.tokenize fuel' self text' filter_types'))
      text filter_types =
    Lexer.tokenize fuel self text filter_types.
Proof.
  intros fuel fuel' self text text' filter_types filter_types'.
  pose proof (tokenize_templates fuel' self text' filter_types') as Ht.
  split; [exact Ht|].
  unfold Lexer.tokenize at 1 3. unfold Lexer.reset at 1 2. rewrite Ht. reflexivity.
Qed.

(** ** What the buffer holds *)

Lemma reaches_categories text n self here :
  reaches text n self here ->
  Forall (fun token =>
            exists template,
              In template (Lexer.templates self) /\
              Token.token_type token = TokenTemplate.token_type template)
         (Lexer.tokens self) ->
  Forall (fun token =>
            exists template,
              In template (Lexer.templates self) /\
              Token.token_type token = TokenTemplate.token_type template)
         (Lexer.tokens here).
Proof.
  induction 1 as [self|n self mid self' Hr IH Hne Hb]; intros Hall; [exact Hall|].
  specialize (IH Hall).
  destruct (tokenize_body_inv _ _ _ Hb) as (token & Hw & ->).
  cbn [Lexer.__accept Lexer.tokens]. apply Forall_app. split; [exact IH|].
  apply Forall_cons; [|apply Forall_nil].
  destruct (winner_origin _ _ _ Hw) as (template & Hin & Hatt & _).
  destruct (match_inv _ _ _ _ _ _ Hatt) as (_ & _ & Htype & _).
  exists template. split; [|exact Htype].
  rewrite <- (reaches_templates _ _ _ _ Hr). exact Hin.
Qed.

(** X7 -- Categories come from the templates: every token a call of
    [tokenize] accepts carries the category of one of the templates of the
    lexer, and every token it returns carries such a category that is not
    one of the filtered ones. *)
Theorem token_categories :
  forall fuel self text filter_types,
    Forall (fun token =>
              exists template,
                In template (Lexer.templates self) /\
                Token.token_type token = TokenTemplate.token_type template)
           (Lexer.tokens (snd (Lexer.tokenize fuel self text filter_types))) /\
    forall out,
      fst (Lexer.tokenize fuel self text filter_types) = Lexer.Return out ->
      Forall (fun token =>
                (exists template,
                    In template (Lexer.templates self) /\
                    Token.token_type token = TokenTemplate.token_type template) /\
                ~ In (Token.token_type token)
                     (match filter_types with Some set => set | None => [] end))
             out.
Proof.
  intros fuel self text filter_types.
  destruct (tokenize_reaches fuel self text filter_types) as (n & Hr).
  pose proof (reaches_categories _ _ _ _ Hr (Forall_nil _)) as Hall.
  cbn [Lexer.reset Lexer.templates] in Hall.
  split; [exact Hall|].
  intros out Hout.
  destruct (Lexer.tokenize fuel self text filter_types) as [r s] eqn:Hrun.
  cbn [fst snd] in *. subst r.
  destruct (tokenize_return_inv _ _ _ _ _ _ Hrun) as (_ & ->).
  rewrite Forall_forall in *. intros token Hin.
  apply filter_In in Hin. destruct Hin as (Hin & Hkeep).
  split; [exact (Hall _ Hin)|].
  intros Hset.
  assert (Hc : contains (Lexer.or_empty filter_types) (Token.token_type token) = true).
  { apply contains_In. destruct filter_types as [[|x l]|]; exact Hset. }
  rewrite Hc in Hkeep. discriminate.
Qed.

Lemma token_categories_witness :
  Forall (fun token =>
            (exists template,
                In template (Lexer.templates Ex.ident_op_space) /\
                Token.token_type token = TokenTemplate.token_type template) /\
            ~ In (Token.token_type token) ["WHITESPACE"%string])
         Ex.assign_out.
Proof.
  apply (proj2 (token_categories 6 Ex.ident_op_space Ex.assign_text Ex.assign_filter)).
  vm_compute. reflexivity.
Defined.

Lemma reaches_contiguous text n self here lo :
  reaches text n self here ->
  contiguous lo (Lexer.tokens self) (Lexer.__start self) ->
  contiguous lo (Lexer.tokens here) (Lexer.__start here).
Proof.
  induction 1 as [self|n self mid self' Hr IH Hne Hb]; intros Hc; [exact Hc|].
  specialize (IH Hc).
  destruct (tokenize_body_inv _ _ _ Hb) as (token & Hw & ->).
  cbn [Lexer.__accept Lexer.tokens]. unfold Lexer.__start at 1.
  cbn [Lexer.line_counter ProgramCounter.accept ProgramCounter.start].
  eapply contiguous_snoc; [exact IH|]. apply (winner_start _ _ _ Hw).
Qed.

(** X8 -- The buffer covers the text up to where the call stopped: however
    a call of [tokenize] ends, the spans of the tokens it leaves in the
    buffer lead without gap or overlap from 0 to the offset of the tracker
    it leaves; when the call raises, that offset is short of the end of the
    text and it is the pass of the loop at that offset that raised. *)
Theorem buffer_covers_prefix :
  forall fuel self text filter_types,
    contiguous 0
      (Lexer.tokens (snd (Lexer.tokenize fuel self text filter_types)))
      (Lexer.__start (snd (Lexer.tokenize fuel self text filter_types))) /\
    forall e,
      fst (Lexer.tokenize fuel self text filter_types) = Lexer.Raised e ->
      Lexer.__start (snd (Lexer.tokenize fuel self text filter_types)) <> len text /\
      Lexer.tokenize_body (snd (Lexer.tokenize fuel self text filter_types)) text
        = Raise e.
Proof.
  intros fuel self text filter_types. split.
  - destruct (tokenize_reaches fuel self text filter_types) as (n & Hr).
    apply (reaches_contiguous _ _ _ _ _ Hr). reflexivity.
  - intros e He. unfold Lexer.tokenize in *.
    destruct (Lexer.tokenize_while fuel (Lexer.reset self) text) as [[u|e'|] s] eqn:Hw;
      cbn [fst snd] in *; try discriminate.
    injection He as ->.
    destruct (tokenize_while_raised_inv _ _ _ _ _ Hw) as (n & _ & Hne & Hb).
    split; assumption.
Qed.

Lemma buffer_covers_prefix_witness :
  fst Sample.broken_line_run <> Lexer.Return [] /\
  contiguous 0 (Lexer.tokens (snd Sample.broken_line_run)) 4 /\
  Lexer.__start (snd Sample.broken_line_run) <> len Sample.broken_line.
Proof.
  destruct (buffer_covers_prefix 9 Sample.word_blank_newline Sample.broken_line None)
    as (Hcover & Hraise).
  split; [vm_compute; discriminate|]. split; [exact Hcover|].
  destruct (Sample.broken_line_run) as [r s] eqn:Hrun.
  destruct r as [out|e|].
  - vm_compute in Hrun. discriminate.
  - unfold Sample.broken_line_run in Hrun. rewrite Hrun in Hraise.
    exact (proj1 (Hraise e eq_refl)).
  - vm_compute in Hrun. discriminate.
Defined.

(** ** The error and its message *)

Lemma length_append (a b : string) :
  String.length (a ++ b) = (String.length a + String.length b)%nat.
Proof. induction a as [|c a IH]; cbn; [reflexivity|]. rewrite IH. reflexivity. Qed.

Lemma len_repeat_dash (n : Z) : len (Py.repeat "-" n) = Z.max 0 n.
Proof.
  unfold Py.repeat, len.
  assert (H : forall k : nat,
             String.length (Nat.iter k (String.append "-") EmptyString) = k).
  { induction k as [|k IH]; [reflexivity|].
    change (Nat.iter (S k) (String.append "-") EmptyString)
      with (String.append "-" (Nat.iter k (String.append "-") EmptyString)).
    rewrite length_append, IH. reflexivity. }
  rewrite H. lia.
Qed.

Lemma getitem_inside {A : Type} (l : list A) (i : Z) :
  0 <= i < Z.of_nat (List.length l) ->
  exists a, nth_error l (Z.to_nat i) = Some a /\ getitem l i = Ok a.
Proof.
  intros H. unfold getitem.
  destruct (Z.ltb_spec i 0); [lia|].
  destruct (Z.ltb_spec i 0); [lia|].
  destruct (Z.leb_spec (Z.of_nat (List.length l)) i); [lia|]. cbn [orb].
  destruct (nth_error l (Z.to_nat i)) as [a|] eqn:E.
  - exists a. split; reflexivity.
  - apply nth_error_None in E. lia.
Qed.

Lemma getitem_from_end {A : Type} (l : list A) (i : Z) :
  - Z.of_nat (List.length l) <= i < 0 ->
  exists a,
    nth_error l (Z.to_nat (Z.of_nat (List.length l) + i)) = Some a /\
    getitem l i = Ok a.
Proof.
  intros H. unfold getitem.
  destruct (Z.ltb_spec i 0); [|lia].
  destruct (Z.ltb_spec (i + Z.of_nat (List.length l)) 0); [lia|].
  destruct (Z.leb_spec (Z.of_nat (List.length l)) (i + Z.of_nat (List.length l)));
    [lia|]. cbn [orb].
  rewrite (Z.add_comm (Z.of_nat (List.length l)) i).
  destruct (nth_error l (Z.to_nat (i + Z.of_nat (List.length l)))) as [a|] eqn:E.
  - exists a. split; reflexivity.
  - apply nth_error_None in E. lia.
Qed.

Lemma getitem_outside {A : Type} (l : list A) (i : Z) :
  i < - Z.of_nat (List.length l) \/ Z.of_nat (List.length l) <= i ->
  getitem l i = Raise IndexError.
Proof.
  intros H. unfold getitem.
  destruct (Z.ltb_spec i 0).
  - destruct (Z.ltb_spec (i + Z.of_nat (List.length l)) 0); [reflexivity|lia].
  - destruct (Z.ltb_spec i 0); [lia|].
    destruct (Z.leb_spec (Z.of_nat (List.length l)) i); [reflexivity|lia].
Qed.

Lemma count_newlines_occ (s : string) :
  count_newlines s =
  Z.of_nat (count_occ ascii_dec (list_ascii_of_string s) "010"%char).
Proof.
  induction s as [|c s IH]; [reflexivity|].
  cbn [count_newlines].
  change (list_ascii_of_string (String c s)) with (c :: list_ascii_of_string s).
  destruct (Ascii.eqb_spec c NEWLINE) as [E|E].
  - rewrite count_occ_cons_eq by exact E. rewrite IH. lia.
  - rewrite count_occ_cons_neq by exact E. rewrite IH. lia.
Qed.

(** X9 -- What the constructor of [UnknownSymbolError] does with its line:
    the lines of a text are one more than its newlines; for a line from 1
    to the number of lines the constructor builds the message around that
    line of the text, the stretch without a newline behind [line - 1]
    newlines; for a line from 0 down to one minus the number of lines the
    subscript counts from the end, line 0 quoting the last line; for any
    other line the subscript raises [IndexError] and no
    [UnknownSymbolError] comes to exist.  The message reads [Unable to
    parse symbol at position], [col] in decimal, [on line], [line] in
    decimal, a full stop, and then, each on a line of its own behind tabs,
    [Near here:], the line quoted, and the marker: [col - 1] dashes and a
    caret, [col] characters in all, and one when [col] is below 1. *)
Theorem error_constructor_bounds :
  forall text line col,
    line_count text =
    1 + Z.of_nat (count_occ ascii_dec (list_ascii_of_string text) "010"%char) /\
    (1 <= line <= line_count text ->
     exists before excerpt after,
       text = (before ++ excerpt ++ after)%string /\
       ~ In "010"%char (list_ascii_of_string excerpt) /\
       count_occ ascii_dec (list_ascii_of_string before) "010"%char
         = Z.to_nat (line - 1) /\
       (before = EmptyString \/
        exists b, before = (b ++ String "010" EmptyString)%string) /\
       (after = EmptyString \/ exists rest, after = String "010" rest) /\
       nth_error (split NEWLINE text) (Z.to_nat (line - 1)) = Some excerpt /\
       UnknownSymbolError.new text line col =
       Ok (UnknownSymbolError
             ("Unable to parse symbol at position "
                ++ NilZero.string_of_int (Z.to_int col)
                ++ " on line "
                ++ NilZero.string_of_int (Z.to_int line)
                ++ "."
                ++ String "010" (String "009" "Near here:")
                ++ String "010" (String "009" (String "009" excerpt))
                ++ String "010" (String "009" (String "009"
                     (string_of_list_ascii
                        (List.repeat "-"%char (Z.to_nat (col - 1)))
                        ++ "^"))))%string)) /\
    (1 - line_count text <= line <= 0 ->
     exists before excerpt after,
       text = (before ++ excerpt ++ after)%string /\
       ~ In "010"%char (list_ascii_of_string excerpt) /\
       count_occ ascii_dec (list_ascii_of_string before) "010"%char
         = Z.to_nat (line_count text + line - 1) /\
       (before = EmptyString \/
        exists b, before = (b ++ String "010" EmptyString)%string) /\
       (after = EmptyString \/ exists rest, after = String "010" rest) /\
       nth_error (split NEWLINE text) (Z.to_nat (line_count text + line - 1))
         = Some excerpt /\
       UnknownSymbolError.new text line col =
       Ok (UnknownSymbolError
             ("Unable to parse symbol at position "
                ++ NilZero.string_of_int (Z.to_int col)
                ++ " on line "
                ++ NilZero.string_of_int (Z.to_int line)
                ++ "."
                ++ String "010" (String "009" "Near here:")
                ++ String "010" (String "009" (String "009" excerpt))
                ++ String "010" (String "009" (String "009"
                     (string_of_list_ascii
                        (List.repeat "-"%char (Z.to_nat (col - 1)))
                        ++ "^"))))%string)) /\
    (line < 1 - line_count text \/ line_count text < line ->
     UnknownSymbolError.new text line col = Raise IndexError) /\
    Z.of_nat
      (String.length
         (string_of_list_ascii (List.repeat "-"%char (Z.to_nat (col - 1))) ++ "^"))
    = Z.max 1 col.
Proof.
  intros text line col.
  split; [unfold line_count; rewrite count_newlines_occ; reflexivity|].
  unfold line_count.
  pose proof (length_split_newline text) as Hlen.
  split; [|split; [|split]].
  - intros H.
    destruct (getitem_inside (split NEWLINE text) (line - 1)) as (a & Hn & Hg); [lia|].
    destruct (split_line _ _ _ Hn) as (before & after & Ht & Hnl & Hk & Hb & Ha).
    exists before, a, after.
    split; [exact Ht|]. split; [exact Hnl|]. split; [exact Hk|].
    split; [exact Hb|]. split; [exact Ha|]. split; [exact Hn|].
    unfold UnknownSymbolError.new. rewrite Hg. cbn [bind].
    rewrite errmsg_text. reflexivity.
  - intros H.
    destruct (getitem_from_end (split NEWLINE text) (line - 1)) as (a & Hn & Hg); [lia|].
    replace (Z.to_nat (Z.of_nat (List.length (split NEWLINE text)) + (line - 1)))
      with (Z.to_nat (1 + count_newlines text + line - 1)) in Hn by (f_equal; lia).
    destruct (split_line _ _ _ Hn) as (before & after & Ht & Hnl & Hk & Hb & Ha).
    exists before, a, after.
    split; [exact Ht|]. split; [exact Hnl|]. split; [exact Hk|].
    split; [exact Hb|]. split; [exact Ha|]. split; [exact Hn|].
    unfold UnknownSymbolError.new. rewrite Hg. cbn [bind].
    rewrite errmsg_text. reflexivity.
  - intros H. unfold UnknownSymbolError.new.
    rewrite getitem_outside by lia. reflexivity.
  - rewrite <- repeat_dashes, length_append. cbn [String.length].
    pose proof (len_repeat_dash (col - 1)) as Hd. unfold len in Hd. lia.
Qed.

Lemma error_constructor_bounds_witness :
  (exists before excerpt after,
      Sample.two_lines = (before ++ excerpt ++ after)%string /\
      ~ In "010"%char (list_ascii_of_string excerpt) /\
      count_occ ascii_dec (list_ascii_of_string before) "010"%char
        = Z.to_nat (2 - 1) /\
      (before = EmptyString \/
       exists b, before = (b ++ String "010" EmptyString)%string) /\
      (after = EmptyString \/ exists rest, after = String "010" rest) /\
      nth_error (split NEWLINE Sample.two_lines) (Z.to_nat (2 - 1)) = Some excerpt /\
      UnknownSymbolError.new Sample.two_lines 2 3 =
      Ok (UnknownSymbolError
            ("Unable to parse symbol at position "
               ++ NilZero.string_of_int (Z.to_int 3)
               ++ " on line "
               ++ NilZero.string_of_int (Z.to_int 2)
               ++ "."
               ++ String "010" (String "009" "Near here:")
               ++ String "010" (String "009" (String "009" excerpt))
               ++ String "010" (String "009" (String "009"
                    (string_of_list_ascii
                       (List.repeat "-"%char (Z.to_nat (3 - 1)))
                       ++ "^"))))%string)) /\
  (exists before excerpt after,
      Sample.two_lines = (before ++ excerpt ++ after)%string /\
      ~ In "010"%char (list_ascii_of_string excerpt) /\
      count_occ ascii_dec (list_ascii_of_string before) "010"%char
        = Z.to_nat (line_count Sample.two_lines + 0 - 1) /\
      (before = EmptyString \/
       exists b, before = (b ++ String "010" EmptyString)%string) /\
      (after = EmptyString \/ exists rest, after = String "010" rest) /\
      nth_error (split NEWLINE Sample.two_lines)
        (Z.to_nat (line_count Sample.two_lines + 0 - 1)) = Some excerpt /\
      UnknownSymbolError.new Sample.two_lines 0 3 =
      Ok (UnknownSymbolError
            ("Unable to parse symbol at position "
               ++ NilZero.string_of_int (Z.to_int 3)
               ++ " on line "
               ++ NilZero.string_of_int (Z.to_int 0)
               ++ "."
               ++ String "010" (String "009" "Near here:")
               ++ String "010" (String "009" (String "009" excerpt))
               ++ String "010" (String "009" (String "009"
                    (string_of_list_ascii
                       (List.repeat "-"%char (Z.to_nat (3 - 1)))
                       ++ "^"))))%string)) /\
  UnknownSymbolError.new Sample.two_lines 3 3 = Raise IndexError.
Proof.
  split; [|split].
  - apply (proj1 (proj2 (error_constructor_bounds Sample.two_lines 2 3))).
    vm_compute. split; discriminate.
  - apply (proj1 (proj2 (proj2 (error_constructor_bounds Sample.two_lines 0 3)))).
    vm_compute. split; discriminate.
  - apply (proj1 (proj2 (proj2 (proj2 (error_constructor_bounds Sample.two_lines 3 3))))).
    right. vm_compute. reflexivity.
Defined.

(** The message for line 2, column 3 of the text of two lines, as it
    prints. *)
Example message_two_lines :
  exists excerpt,
    nth_error (split NEWLINE Sample.two_lines) 1 = Some excerpt /\
    UnknownSymbolError.new Sample.two_lines 2 3 =
    Ok (UnknownSymbolError
          ("Unable to parse symbol at position 3 on line 2."
             ++ String "010" (String "009" "Near here:")
             ++ String "010" (String "009" (String "009" excerpt))
             ++ String "010" (String "009" (String "009" "--^")))%string).
Proof. eexists. split; vm_compute; reflexivity. Qed.

Lemma split_nonempty sep text : split sep text <> [].
Proof.
  destruct text as [|c text]; cbn; [discriminate|].
  destruct (Ascii.eqb c sep); [discriminate|].
  destruct (split sep text); discriminate.
Qed.

(** X10 -- A lexer without templates: built from an empty sequence of
    templates, the lexer returns the empty tuple on the empty text and, on
    any other text, raises [UnknownSymbolError] with nothing in its buffer;
    the message reads [Unable to parse symbol at position 1 on line 1.] and
    then, each on a line of its own behind tabs, [Near here:], the first
    line of the text, which is the text up to its first newline or to its
    end, and a lone caret. *)
Theorem no_templates :
  forall fuel text filter_types,
    (text = EmptyString ->
     Lexer.tokenize (S fuel) (Lexer.new []) text filter_types =
     (Lexer.Return [], Lexer.new [])) /\
    (text <> EmptyString ->
     exists excerpt after,
       text = (excerpt ++ after)%string /\
       ~ In "010"%char (list_ascii_of_string excerpt) /\
       (after = EmptyString \/ exists rest, after = String "010" rest) /\
       nth_error (split NEWLINE text) 0 = Some excerpt /\
       Lexer.tokenize (S fuel) (Lexer.new []) text filter_types =
       (Lexer.Raised
          (UnknownSymbolError
             ("Unable to parse symbol at position 1 on line 1."
               ++ String "010" (String "009" "Near here:")
               ++ String "010" (String "009" (String "009" excerpt))
               ++ String "010" (String "009" (String "009" "^")))%string),
        Lexer.new [])).
Proof.
  intros fuel text filter_types. split.
  - intros ->. reflexivity.
  - intros Hne.
    destruct (split NEWLINE text) as [|excerpt pieces] eqn:Hsplit;
      [exfalso; exact (split_nonempty _ _ Hsplit)|].
    assert (Hnth : nth_error (split NEWLINE text) 0 = Some excerpt)
      by (rewrite Hsplit; reflexivity).
    destruct (split_line _ _ _ Hnth) as (before & after & Ht & Hnl & Hk & Hb & Ha).
    assert (before = EmptyString) as ->.
    { destruct Hb as [->|(b & ->)]; [reflexivity|].
      pose proof (newline_count_last b). lia. }
    exists excerpt, after.
    split; [exact Ht|]. split; [exact Hnl|]. split; [exact Ha|].
    split; [reflexivity|].
    apply tokenize_raised. rewrite tokenize_while_S.
    assert (Hlen : (Lexer.__start (Lexer.reset (Lexer.new [])) =? len text) = false).
    { apply Z.eqb_neq. unfold Lexer.__start, len. cbn.
      destruct text; [contradiction|cbn; lia]. }
    rewrite Hlen. cbn [negb].
    unfold Lexer.tokenize_body. cbn [Lexer.new Lexer.reset Lexer.templates
      Lexer.tokenize_for bind].
    unfold UnknownSymbolError.new, Lexer.__line, Lexer.__column. cbn [Lexer.line_counter
      ProgramCounter.new ProgramCounter.line ProgramCounter.column].
    rewrite Hsplit. reflexivity.
Qed.

Lemma no_templates_witness :
  Lexer.tokenize 1 (Lexer.new []) EmptyString None = (Lexer.Return [], Lexer.new []) /\
  exists excerpt after,
    Sample.two_lines = (excerpt ++ after)%string /\
    ~ In "010"%char (list_ascii_of_string excerpt) /\
    (after = EmptyString \/ exists rest, after = String "010" rest) /\
    nth_error (split NEWLINE Sample.two_lines) 0 = Some excerpt /\
    Lexer.tokenize 1 (Lexer.new []) Sample.two_lines None =
    (Lexer.Raised
       (UnknownSymbolError
          ("Unable to parse symbol at position 1 on line 1."
            ++ String "010" (String "009" "Near here:")
            ++ String "010" (String "009" (String "009" excerpt))
            ++ String "010" (String "009" (String "009" "^")))%string),
     Lexer.new []).
Proof.
  split.
  - apply (proj1 (no_templates 0 EmptyString None)). reflexivity.
  - apply (proj2 (no_templates 0 Sample.two_lines None)). discriminate.
Defined.

(** ** Filtering and scanning *)

(** X11 -- The filter does not touch the scan: whatever the filter, a call
    of [tokenize] leaves the lexer, buffer and tracker, as the call without
    a filter leaves it; it raises exactly when that call raises, and the
    same exception; and when that call returns, this one returns its tokens
    without those of the filtered categories. *)
Theorem filter_leaves_scan :
  forall fuel self text filter_types,
    snd (Lexer.tokenize fuel self text filter_types) =
      snd (Lexer.tokenize fuel self text None) /\
    (forall e,
        fst (Lexer.tokenize fuel self text filter_types) = Lexer.Raised e <->
        fst (Lexer.tokenize fuel self text None) = Lexer.Raised e) /\
    (forall unfiltered,
        fst (Lexer.tokenize fuel self text None) = Lexer.Return unfiltered ->
        unfiltered = Lexer.tokens (snd (Lexer.tokenize fuel self text None)) /\
        fst (Lexer.tokenize fuel self text filter_types) =
        Lexer.Return
          (filter (fun token =>
                     negb (contains
                             (match filter_types with Some set => set | None => [] end)
                             (Token.token_type token)))
                  unfiltered)).
Proof.
  intros fuel self text filter_types.
  rewrite !tokenize_snd. split; [reflexivity|].
  unfold Lexer.tokenize.
  destruct (Lexer.tokenize_while fuel (Lexer.reset self) text) as [[u|e'|] s];
    cbn [fst snd].
  - split; [intros e; split; discriminate|].
    intros unfiltered [= <-]. cbn [Lexer.or_empty]. rewrite filter_nothing.
    split; [reflexivity|].
    destruct filter_types as [[|x l]|]; reflexivity.
  - split; [intros e; split; intros H; exact H|]. intros unfiltered H. discriminate.
  - split; [intros e; split; discriminate|]. intros unfiltered H. discriminate.
Qed.

Lemma filter_leaves_scan_witness :
  fst (Lexer.tokenize 6 Ex.ident_op_space Ex.assign_text Ex.assign_filter) =
  Lexer.Return
    (filter (fun token => negb (contains ["WHITESPACE"%string] (Token.token_type token)))
            (Lexer.tokens (snd (Lexer.tokenize 6 Ex.ident_op_space Ex.assign_text None)))).
Proof.
  destruct (filter_leaves_scan 6 Ex.ident_op_space Ex.assign_text Ex.assign_filter)
    as (_ & _ & Hreturn).
  destruct (Hreturn (Lexer.tokens (snd (Lexer.tokenize 6 Ex.ident_op_space Ex.assign_text None))))
    as (_ & Hout).
  - vm_compute. reflexivity.
  - exact Hout.
Defined.

(** ** The truth of a token *)

Lemma string_of_int_nonempty (n : Z) :
  NilZero.string_of_int (Z.to_int n) <> EmptyString.
Proof.
  unfold NilZero.string_of_int.
  destruct (Z.to_int n) as [d|d]; [|discriminate].
  unfold NilZero.string_of_uint. destruct d; discriminate.
Qed.

(** X12 -- Which tokens count as present: [__len__] is the number of
    characters of the printed lexeme, so a token whose value is a string is
    true exactly when the string is not empty, while a token whose value is
    an integer, 0 included, or [None] is always true; it is the tokens that
    are not true that the pass over the templates leaves aside as if the
    template had not matched. *)
Theorem token_truth :
  forall token,
    (forall s, Token.lexeme token = VStr s ->
               (Token.truth token = true <-> s <> EmptyString)) /\
    (forall n, Token.lexeme token = VInt n -> Token.truth token = true) /\
    (Token.lexeme token = VNone -> Token.truth token = true) /\
    (Token.truth token = false ->
     forall template todo self text best,
       attempt self text template = Ok (Some token) ->
       Lexer.tokenize_for (template :: todo) self text best =
       Lexer.tokenize_for todo self text best).
Proof.
  intros token. unfold Token.truth, Token.__len__. repeat split.
  - rewrite H. cbn [str]. intros Ht ->. discriminate.
  - rewrite H. cbn [str]. intros Hs. destruct s; [contradiction|reflexivity].
  - intros n ->. cbn [str]. pose proof (string_of_int_nonempty n) as Hn.
    destruct (NilZero.string_of_int (Z.to_int n)); [contradiction|reflexivity].
  - intros ->. reflexivity.
  - intros Hfalse template todo self text best Hatt.
    rewrite tokenize_for_cons, Hatt. cbn [bind Lexer.not_].
    unfold Token.truth, Token.__len__. rewrite Hfalse. reflexivity.
Qed.

Lemma token_truth_witness :
  Token.truth (Token.mk "NUMBER" (VInt 0) 0 1 1 1) = true /\
  (Token.truth (Token.mk "MARK" (VStr "") 0 0 1 1) = true <-> EmptyString <> EmptyString).
Proof.
  split.
  - apply (proj1 (proj2 (token_truth (Token.mk "NUMBER" (VInt 0) 0 1 1 1))) 0).
    reflexivity.
  - apply (proj1 (token_truth (Token.mk "MARK" (VStr "") 0 0 1 1))). reflexivity.
Defined.

(** * Properties of the Roman numerals *)

(** The fuel of the inner loop is enough: when it is used up the condition
    of the loop is false. *)
Lemma while_ge_exit fuel : forall numeral value roman n,
  1 <= value ->
  (Z.to_nat n <= fuel)%nat ->
  snd (Numerus.while_ge fuel numeral value roman n) < value.
Proof.
  induction fuel as [|fuel IH]; intros numeral value roman n Hv Hfuel; cbn.
  - lia.
  - destruct (Z.geb_spec n value); [|cbn; lia].
    apply IH; lia.
Qed.

Lemma roundtrip_all :
  forallb (fun k => Numerus.roundtrip_at (Z.of_nat k)) (seq 1 3999) = true.
Proof. vm_compute. reflexivity. Qed.

Lemma roundtrip_at_range n : 1 <= n <= 3999 -> Numerus.roundtrip_at n = true.
Proof.
  intros H. pose proof roundtrip_all as Hall. rewrite forallb_forall in Hall.
  specialize (Hall (Z.to_nat n)). rewrite Z2Nat.id in Hall by lia.
  apply Hall. apply in_seq. lia.
Qed.

(** X13 -- Round trip of the Roman numerals: every number from 1 to 3999 is
    encoded, and decoding what it is encoded to gives the number back. *)
Theorem roman_roundtrip :
  forall n,
    1 <= n <= 3999 ->
    exists roman,
      Numerus.encode_roman_numeral n = Numerus.Ok roman /\
      Numerus.decode_roman_numeral roman = n.
Proof.
  intros n H. pose proof (roundtrip_at_range n H) as Hn.
  unfold Numerus.roundtrip_at in Hn.
  destruct (Numerus.encode_roman_numeral n) as [roman|msg]; [|discriminate].
  exists roman. split; [reflexivity|].
  apply andb_true_iff in Hn. destruct Hn as (_ & Hd). apply Z.eqb_eq. exact Hd.
Qed.

Lemma roman_roundtrip_witness :
  exists roman,
    Numerus.encode_roman_numeral 1449 = Numerus.Ok roman /\
    Numerus.decode_roman_numeral roman = 1449.
Proof. apply (roman_roundtrip 1449). lia. Defined.

(** X14 -- The numerals are the usual ones, and the range is checked: a
    number from 1 to 3999 is encoded to its usual Roman numeral, the one
    that takes the greatest of M, CM, D, CD, C, XC, L, XL, X, IX, V, IV and
    I that fits, again and again; any other number raises [ValueError] with
    the message of the source. *)
Theorem roman_standard :
  forall n,
    (1 <= n <= 3999 ->
     Numerus.encode_roman_numeral n = Numerus.Ok (Numerus.standard n)) /\
    (n < 1 \/ 3999 < n ->
     Numerus.encode_roman_numeral n =
     Numerus.ValueError
       ("Can only convert numbers 1-399 (number=" ++ str (VInt n) ++ ")")%string).
Proof.
  intros n. split.
  - intros H. pose proof (roundtrip_at_range n H) as Hn.
    unfold Numerus.roundtrip_at in Hn.
    destruct (Numerus.encode_roman_numeral n) as [roman|msg]; [|discriminate].
    apply andb_true_iff in Hn. destruct Hn as (Hs & _).
    apply String.eqb_eq in Hs. rewrite Hs. reflexivity.
  - intros H. unfold Numerus.encode_roman_numeral.
    destruct (Z.leb_spec 1 n); destruct (Z.ltb_spec n 4000); cbn [andb negb];
      try reflexivity; lia.
Qed.

Lemma roman_standard_witness :
  Numerus.encode_roman_numeral 959 = Numerus.Ok (Numerus.standard 959) /\
  Numerus.encode_roman_numeral 4000 =
  Numerus.ValueError
    ("Can only convert numbers 1-399 (number=" ++ str (VInt 4000) ++ ")")%string.
Proof.
  split.
  - apply (proj1 (roman_standard 959)). lia.
  - apply (proj2 (roman_standard 4000)). lia.
Defined.

(** * Properties of the number words *)

Lemma member_In (word : string) (row : list string) :
  Arithmology.member word row = true <-> In word row.
Proof.
  unfold Arithmology.member. rewrite existsb_exists. split.
  - intros (y & Hin & E). apply String.eqb_eq in E. subst. exact Hin.
  - intros Hin. exists word. split; [exact Hin|apply String.eqb_refl].
Qed.

Lemma entries_all :
  forallb (fun category => forallb (Arithmology.entry_ok category) (seq 1 15))
          Arithmology.columns = true.
Proof. vm_compute. reflexivity. Qed.

(** X15 -- From a number to its word and back: under each of the six
    headings every number from 1 to 15 is encoded to a word, and decoding
    that word gives the number back. *)
Theorem words_roundtrip :
  forall category number,
    In category Arithmology.columns ->
    1 <= number <= 15 ->
    exists word,
      Arithmology.encode category number = Numerus.Ok word /\
      Arithmology.decode word = Numerus.Ok number.
Proof.
  intros category number Hin Hrange.
  pose proof entries_all as Hall. rewrite forallb_forall in Hall.
  specialize (Hall _ Hin). rewrite forallb_forall in Hall.
  specialize (Hall (Z.to_nat number)).
  assert (Hseq : In (Z.to_nat number) (seq 1 15)) by (apply in_seq; lia).
  specialize (Hall Hseq). unfold Arithmology.entry_ok in Hall.
  rewrite Z2Nat.id in Hall by lia.
  destruct (Arithmology.encode category number) as [word|msg]; [|discriminate].
  exists word. split; [reflexivity|].
  destruct (Arithmology.decode word) as [number'|msg]; [|discriminate].
  apply Z.eqb_eq in Hall. rewrite Hall. reflexivity.
Qed.

Lemma words_roundtrip_witness :
  exists word,
    Arithmology.encode "tonal" 7 = Numerus.Ok word /\
    Arithmology.decode word = Numerus.Ok 7.
Proof.
  apply (words_roundtrip "tonal" 7).
  - right. left. reflexivity.
  - lia.
Defined.

Lemma decode_from_inv table : forall i keyword number,
  Arithmology.decode_from i table keyword = Numerus.Ok number ->
  exists k row,
    nth_error table k = Some row /\ In keyword row /\ number = i + Z.of_nat k.
Proof.
  induction table as [|row table IH]; intros i keyword number H; cbn in H.
  - discriminate.
  - destruct (Arithmology.member keyword row) eqn:Hm.
    + injection H as <-. exists O, row. split; [reflexivity|].
      split; [apply member_In; exact Hm|lia].
    + destruct (IH _ _ _ H) as (k & row' & Hn & Hin & ->).
      exists (S k), row'. split; [exact Hn|]. split; [exact Hin|lia].
Qed.

Lemma nth_error_combine_seq {A : Type} (l : list A) : forall s k x,
  nth_error l k = Some x ->
  In ((s + k)%nat, x) (combine (seq s (List.length l)) l).
Proof.
  induction l as [|y l IH]; intros s k x H.
  - destruct k; discriminate.
  - destruct k as [|k]; cbn in *.
    + injection H as ->. left. f_equal. lia.
    + right. replace (s + S k)%nat with (S s + k)%nat by lia. apply IH. exact H.
Qed.

Lemma words_all :
  forallb (fun '(i, row) => forallb (Arithmology.word_ok i) row)
          (combine (seq 0 (List.length Arithmology.__table)) Arithmology.__table)
  = true.
Proof. vm_compute. reflexivity. Qed.

(** X16 -- From a word to its number and back: when [decode] returns a
    number for a keyword, the number is from 0 to 15; it is 0 exactly for
    the six headings themselves, and from 1 on some heading encodes the
    number to the keyword again. *)
Theorem words_decode :
  forall keyword number,
    Arithmology.decode keyword = Numerus.Ok number ->
    0 <= number <= 15 /\
    (number = 0 <-> In keyword Arithmology.columns) /\
    (1 <= number ->
     exists category,
       In category Arithmology.columns /\
       Arithmology.encode category number = Numerus.Ok keyword).
Proof.
  intros keyword number H.
  destruct (decode_from_inv _ _ _ _ H) as (k & row & Hn & Hin & ->).
  assert (Hk : (k < List.length Arithmology.__table)%nat).
  { apply nth_error_Some. rewrite Hn. discriminate. }
  pose proof words_all as Hall. rewrite forallb_forall in Hall.
  specialize (Hall _ (nth_error_combine_seq _ O _ _ Hn)). cbn [Nat.add] in Hall.
  rewrite forallb_forall in Hall. specialize (Hall _ Hin).
  unfold Arithmology.word_ok in Hall. rewrite H in Hall.
  apply andb_true_iff in Hall. destruct Hall as (_ & Hback).
  change (List.length Arithmology.__table) with 16%nat in Hk.
  split; [lia|]. split.
  - split.
    + intros Hzero. assert (k = O) by lia. subst k.
      cbn in Hn. injection Hn as <-. exact Hin.
    + intros Hcol.
      destruct k as [|k]; [lia|]. exfalso.
      assert (Hd : Arithmology.decode keyword = Numerus.Ok 0).
      { apply member_In in Hcol. unfold Arithmology.decode.
        change Arithmology.__table
          with (Arithmology.columns :: tl Arithmology.__table).
        cbn [Arithmology.decode_from]. rewrite Hcol. reflexivity. }
      rewrite H in Hd. injection Hd as Hd. lia.
  - intros Hpos. apply orb_true_iff in Hback. destruct Hback as [Hzero|Hex].
    + apply Nat.eqb_eq in Hzero. lia.
    + apply existsb_exists in Hex. destruct Hex as (category & Hcat & Henc).
      exists category. split; [exact Hcat|].
      destruct (Arithmology.encode category (0 + Z.of_nat k)) as [word'|msg];
        [|discriminate].
      apply String.eqb_eq in Henc. rewrite Henc. reflexivity.
Qed.

Lemma words_decode_witness :
  0 <= 13 <= 15 /\
  (13 = 0 <-> In "triskaidecad"%string Arithmology.columns) /\
  (1 <= 13 ->
   exists category,
     In category Arithmology.columns /\
     Arithmology.encode category 13 = Numerus.Ok "triskaidecad"%string).
Proof. apply (words_decode "triskaidecad" 13). reflexivity. Defined.

Lemma decode_from_unknown table : forall i keyword,
  (forall row, In row table -> ~ In keyword row) ->
  Arithmology.decode_from i table keyword =
  Numerus.ValueError ("Unknown keyword: " ++ keyword)%string.
Proof.
  induction table as [|row table IH]; intros i keyword H; cbn; [reflexivity|].
  destruct (Arithmology.member keyword row) eqn:Hm.
  - exfalso. apply (H row); [left; reflexivity|apply member_In; exact Hm].
  - apply IH. intros row' Hin. apply H. right. exact Hin.
Qed.

(** X17 -- What the number words refuse: [decode] raises [ValueError] for
    a keyword that is in no row of the table; [encode] raises it for a
    category that is not one of the six headings, whatever the number, and,
    for a heading, for every number below 1 or above 15. *)
Theorem words_errors :
  forall keyword category number,
    ((forall row, In row Arithmology.__table -> ~ In keyword row) ->
     Arithmology.decode keyword =
     Numerus.ValueError ("Unknown keyword: " ++ keyword)%string) /\
    (~ In category Arithmology.columns ->
     Arithmology.encode category number =
     Numerus.ValueError ("Unknown category: " ++ category)%string) /\
    (In category Arithmology.columns ->
     number < 1 \/ 15 < number ->
     Arithmology.encode category number =
     Numerus.ValueError ("Cannot encode number: " ++ str (VInt number))%string).
Proof.
  intros keyword category number. repeat split.
  - intros H. apply decode_from_unknown. exact H.
  - intros H. unfold Arithmology.encode.
    destruct (Arithmology.member category Arithmology.columns) eqn:Hm.
    + exfalso. apply H. apply member_In. exact Hm.
    + reflexivity.
  - intros Hin Hrange. unfold Arithmology.encode.
    apply member_In in Hin. rewrite Hin. cbn [negb].
    change (Z.of_nat (List.length Arithmology.__table)) with 16.
    destruct (Z.leb_spec 1 number); destruct (Z.ltb_spec number 16); cbn [andb negb];
      try reflexivity; lia.
Qed.

Lemma zero_in_no_row :
  forall row, In row Arithmology.__table -> ~ In "zero"%string row.
Proof.
  assert (H : forallb (fun row => negb (Arithmology.member "zero" row))
                      Arithmology.__table = true) by (vm_compute; reflexivity).
  rewrite forallb_forall in H. intros row Hrow Hin.
  specialize (H row Hrow). apply member_In in Hin. rewrite Hin in H. discriminate.
Qed.

Lemma words_errors_witness :
  Arithmology.decode "zero" =
    Numerus.ValueError ("Unknown keyword: " ++ "zero")%string /\
  Arithmology.encode "ordinal" 16 =
    Numerus.ValueError ("Cannot encode number: " ++ str (VInt 16))%string /\
  Arithmology.encode "zero" 1 =
    Numerus.ValueError ("Unknown category: " ++ "zero")%string.
Proof.
  split; [|split].
  - apply (proj1 (words_errors "zero" "x" 0)). exact zero_in_no_row.
  - apply (proj2 (proj2 (words_errors "x" "ordinal" 16))).
    + do 4 right. left. reflexivity.
    + lia.
  - apply (proj1 (proj2 (words_errors "x" "zero" 1))).
    intros H. cbn in H. repeat (destruct H as [H|H]; [discriminate|]). exact H.
Defined.

(** * Properties of the crawler base classes *)

Lemma item_inside {A : Type} (l : list A) (i : Z) :
  0 <= i < Z.of_nat (List.length l) ->
  exists a, nth_error l (Z.to_nat i) = Some a /\ Parsing.item l i = Parsing.Ok a.
Proof.
  intros H. unfold Parsing.item.
  destruct (Z.ltb_spec i 0); [lia|].
  destruct (Z.ltb_spec i 0); [lia|].
  destruct (Z.leb_spec (Z.of_nat (List.length l)) i); [lia|]. cbn [orb].
  destruct (nth_error l (Z.to_nat i)) as [a|] eqn:E.
  - exists a. split; reflexivity.
  - apply nth_error_None in E. lia.
Qed.

Lemma item_beyond {A : Type} (l : list A) (i : Z) :
  Z.of_nat (List.length l) <= i -> Parsing.item l i = Parsing.Raise Parsing.IndexError.
Proof.
  intros H. unfold Parsing.item.
  destruct (Z.ltb_spec i 0); [lia|].
  destruct (Z.ltb_spec i 0); [lia|].
  destruct (Z.leb_spec (Z.of_nat (List.length l)) i); [reflexivity|lia].
Qed.

Lemma item_last {A : Type} (l : list A) (d : A) :
  l <> [] -> Parsing.item l (-1) = Parsing.Ok (last l d).
Proof.
  intros Hne. unfold Parsing.item.
  assert (Hlen : (0 < List.length l)%nat) by (destruct l; [contradiction|cbn; lia]).
  change (-1 <? 0) with true. cbn match.
  destruct (Z.ltb_spec (-1 + Z.of_nat (List.length l)) 0); [lia|].
  destruct (Z.leb_spec (Z.of_nat (List.length l)) (-1 + Z.of_nat (List.length l)));
    [lia|]. cbn [orb].
  replace (Z.to_nat (-1 + Z.of_nat (List.length l))) with (List.length l - 1)%nat by lia.
  clear - Hne. induction l as [|x l IH]; [contradiction|].
  destruct l as [|y l]; [reflexivity|].
  replace (List.length (x :: y :: l) - 1)%nat
    with (S (List.length (y :: l) - 1)) by (cbn [List.length]; lia).
  cbn [nth_error]. rewrite IH by discriminate. reflexivity.
Qed.

Lemma map_seq_shift {A : Type} (f : nat -> A) (k : nat) :
  map f (seq 1 k) = map (fun j => f (S j)) (seq 0 k).
Proof. rewrite <- seq_shift, map_map. reflexivity. Qed.

(** X18 -- [Tokenizer.advance] reads the text in order and never fails:
    from a tokenizer whose position is not negative, any number of calls of
    [advance] succeed; the call number [j] returns the character of the
    text [j] places after the position, and the NUL character once that is
    past the end of the text; the calls move [current] and [line_chars] on
    by their number, the end of the text not stopping them, and leave the
    rest of the tokenizer as it was. *)
Theorem tokenizer_reads :
  forall k self,
    0 <= Parsing.Tokenizer.current self ->
    exists self',
      Parsing.Tokenizer.advances k self =
      Parsing.Ok
        (map (fun j =>
                nth (Z.to_nat (Parsing.Tokenizer.current self) + j)
                    (Parsing.Tokenizer.text self) Parsing.NUL)
             (seq 0 k),
         self') /\
      Parsing.Tokenizer.current self' = Parsing.Tokenizer.current self + Z.of_nat k /\
      Parsing.Tokenizer.line_chars self' =
        Parsing.Tokenizer.line_chars self + Z.of_nat k /\
      Parsing.Tokenizer.text self' = Parsing.Tokenizer.text self /\
      Parsing.Tokenizer.tokens self' = Parsing.Tokenizer.tokens self /\
      Parsing.Tokenizer.start self' = Parsing.Tokenizer.start self /\
      Parsing.Tokenizer.line self' = Parsing.Tokenizer.line self.
Proof.
  induction k as [|k IH]; intros self Hpos.
  - exists self. cbn. repeat split; lia.
  - assert (Hadv : exists char,
               Parsing.Tokenizer.peek self = Parsing.Ok char /\
               char = nth (Z.to_nat (Parsing.Tokenizer.current self))
                          (Parsing.Tokenizer.text self) Parsing.NUL).
    { unfold Parsing.Tokenizer.peek, Parsing.Tokenizer.is_at_end.
      destruct (Z.leb_spec (Z.of_nat (List.length (Parsing.Tokenizer.text self)))
                  (Parsing.Tokenizer.current self)) as [Hend|Hin].
      - exists Parsing.NUL. split; [reflexivity|].
        symmetry. apply nth_overflow. lia.
      - destruct (item_inside (Parsing.Tokenizer.text self)
                    (Parsing.Tokenizer.current self)) as (c & Hn & Hi); [lia|].
        exists c. split; [exact Hi|].
        symmetry. apply nth_error_nth. exact Hn. }
    destruct Hadv as (char & Hpeek & Hchar).
    cbn [Parsing.Tokenizer.advances]. unfold Parsing.Tokenizer.advance.
    rewrite Hpeek.
    match goal with
    | |- context [Parsing.Tokenizer.advances k ?s] =>
        destruct (IH s) as (self' & Hrun & Hcur & Hlc & Htext & Htok & Hstart & Hline);
          [cbn; lia|]
    end.
    exists self'. rewrite Hrun. cbn in Hcur, Hlc, Htext, Htok, Hstart, Hline.
    repeat split; try assumption; try lia.
    f_equal. f_equal. cbn [seq map]. rewrite Nat.add_0_r, <- Hchar. f_equal.
    rewrite map_seq_shift. apply map_ext. intros j. cbn.
    f_equal. lia.
Qed.

Lemma tokenizer_reads_witness :
  exists self',
    Parsing.Tokenizer.advances 3
      (Parsing.Tokenizer.mk ["a"; "b"]%char 0 0 [] 0 0) =
    Parsing.Ok (["a"; "b"; Parsing.NUL]%char, self') /\
    Parsing.Tokenizer.current self' = 3.
Proof.
  destruct (tokenizer_reads 3 (Parsing.Tokenizer.mk ["a"; "b"]%char 0 0 [] 0 0))
    as (self' & Hrun & Hcur & _).
  - cbn. lia.
  - exists self'. split; [exact Hrun|exact Hcur].
Defined.

(** X19 -- [Tokenizer.previous] around [advance]: inside the text,
    [previous] after an [advance] gives the character the [advance]
    returned; at the very start of a text that is not empty, [previous]
    does not fail but gives the last character of the text, the subscript
    -1 counting from the end; on the empty text it raises [IndexError]; and
    after an [advance] made at or past the end of the text, which returns
    NUL, it raises [IndexError] as well. *)
Theorem tokenizer_previous :
  forall self,
    (0 <= Parsing.Tokenizer.current self
       < Z.of_nat (List.length (Parsing.Tokenizer.text self)) ->
     exists char self',
       nth_error (Parsing.Tokenizer.text self)
         (Z.to_nat (Parsing.Tokenizer.current self)) = Some char /\
       Parsing.Tokenizer.advance self = Parsing.Ok (char, self') /\
       Parsing.Tokenizer.previous self' = Parsing.Ok char) /\
    (Parsing.Tokenizer.current self = 0 ->
     Parsing.Tokenizer.text self <> [] ->
     Parsing.Tokenizer.previous self =
     Parsing.Ok (last (Parsing.Tokenizer.text self) Parsing.NUL)) /\
    (Parsing.Tokenizer.current self = 0 ->
     Parsing.Tokenizer.text self = [] ->
     Parsing.Tokenizer.previous self = Parsing.Raise Parsing.IndexError) /\
    (Z.of_nat (List.length (Parsing.Tokenizer.text self))
       <= Parsing.Tokenizer.current self ->
     exists self',
       Parsing.Tokenizer.advance self = Parsing.Ok (Parsing.NUL, self') /\
       Parsing.Tokenizer.previous self' = Parsing.Raise Parsing.IndexError).
Proof.
  intros self. repeat split.
  - intros H.
    destruct (item_inside (Parsing.Tokenizer.text self)
                (Parsing.Tokenizer.current self) H) as (c & Hn & Hi).
    exists c. eexists. split; [exact Hn|].
    unfold Parsing.Tokenizer.advance, Parsing.Tokenizer.peek,
      Parsing.Tokenizer.is_at_end.
    destruct (Z.leb_spec (Z.of_nat (List.length (Parsing.Tokenizer.text self)))
                (Parsing.Tokenizer.current self)); [lia|].
    rewrite Hi. split; [reflexivity|].
    unfold Parsing.Tokenizer.previous. cbn.
    replace (Parsing.Tokenizer.current self + 1 - 1)
      with (Parsing.Tokenizer.current self) by lia.
    exact Hi.
  - intros Hcur Hne. unfold Parsing.Tokenizer.previous. rewrite Hcur.
    apply item_last. exact Hne.
  - intros Hcur Hempty. unfold Parsing.Tokenizer.previous.
    rewrite Hcur, Hempty. reflexivity.
  - intros H. eexists.
    unfold Parsing.Tokenizer.advance, Parsing.Tokenizer.peek,
      Parsing.Tokenizer.is_at_end.
    destruct (Z.leb_spec (Z.of_nat (List.length (Parsing.Tokenizer.text self)))
                (Parsing.Tokenizer.current self)); [|lia].
    split; [reflexivity|].
    unfold Parsing.Tokenizer.previous. cbn. apply item_beyond. lia.
Qed.

Lemma tokenizer_previous_witness :
  (exists char self',
      nth_error ["a"; "b"]%char (Z.to_nat 1) = Some char /\
      Parsing.Tokenizer.advance (Parsing.Tokenizer.mk ["a"; "b"]%char 1 0 [] 0 1) =
        Parsing.Ok (char, self') /\
      Parsing.Tokenizer.previous self' = Parsing.Ok char) /\
  Parsing.Tokenizer.previous (Parsing.Tokenizer.mk ["a"; "b"]%char 0 0 [] 0 0) =
    Parsing.Ok (last ["a"; "b"]%char Parsing.NUL) /\
  Parsing.Tokenizer.previous Parsing.Tokenizer.new = Parsing.Raise Parsing.IndexError /\
  exists self',
    Parsing.Tokenizer.advance (Parsing.Tokenizer.mk ["a"; "b"]%char 2 0 [] 0 2) =
      Parsing.Ok (Parsing.NUL, self') /\
    Parsing.Tokenizer.previous self' = Parsing.Raise Parsing.IndexError.
Proof.
  split; [|split; [|split]].
  - apply (proj1 (tokenizer_previous (Parsing.Tokenizer.mk ["a"; "b"]%char 1 0 [] 0 1))).
    cbn. lia.
  - apply (proj1 (proj2 (tokenizer_previous
                           (Parsing.Tokenizer.mk ["a"; "b"]%char 0 0 [] 0 0))));
      [reflexivity|discriminate].
  - apply (proj1 (proj2 (proj2 (tokenizer_previous Parsing.Tokenizer.new))));
      reflexivity.
  - apply (proj2 (proj2 (proj2 (tokenizer_previous
                                  (Parsing.Tokenizer.mk ["a"; "b"]%char 2 0 [] 0 2))))).
    cbn. lia.
Defined.

Lemma parser_check_inside self token arg :
  0 <= Parsing.Parser.current self ->
  nth_error (Parsing.Parser.tokens self) (Z.to_nat (Parsing.Parser.current self))
    = Some token ->
  Parsing.Parser.check self arg =
    Parsing.Ok (Nat.eqb (Parsing.token_type token) arg) /\
  Parsing.Parser.advance self =
    Parsing.Ok (token,
                Parsing.Parser.mk (Parsing.Parser.tokens self)
                  (Parsing.Parser.current self + 1)
                  (Parsing.Parser.start self) (Parsing.Parser.errors self)).
Proof.
  intros Hpos Hn.
  assert (Hlt : (Z.to_nat (Parsing.Parser.current self)
                 < List.length (Parsing.Parser.tokens self))%nat).
  { apply nth_error_Some. rewrite Hn. discriminate. }
  destruct (item_inside (Parsing.Parser.tokens self) (Parsing.Parser.current self))
    as (a & Hn' & Hi); [lia|].
  rewrite Hn in Hn'. injection Hn' as <-.
  unfold Parsing.Parser.check, Parsing.Parser.peek, Parsing.Parser.advance.
  rewrite Hi. split; reflexivity.
Qed.

(** X20 -- [Parser.match]: with the cursor on a token, [match] answers
    [True] exactly when the type of that token is one of the arguments, and
    then moves the cursor on by one, once, however many of the arguments
    fit; otherwise it answers [False] and leaves the parser as it was.
    Without arguments it answers [False] wherever the cursor is; with
    arguments and the cursor at or past the end of the tokens it raises
    [IndexError]. *)
Theorem parser_match :
  forall self args,
    (forall token,
        0 <= Parsing.Parser.current self ->
        nth_error (Parsing.Parser.tokens self) (Z.to_nat (Parsing.Parser.current self))
          = Some token ->
        Parsing.Parser.match_ self args =
        if existsb (Nat.eqb (Parsing.token_type token)) args
        then Parsing.Ok
               (true,
                Parsing.Parser.mk (Parsing.Parser.tokens self)
                  (Parsing.Parser.current self + 1)
                  (Parsing.Parser.start self) (Parsing.Parser.errors self))
        else Parsing.Ok (false, self)) /\
    Parsing.Parser.match_ self [] = Parsing.Ok (false, self) /\
    (args <> [] ->
     Z.of_nat (List.length (Parsing.Parser.tokens self)) <= Parsing.Parser.current self ->
     Parsing.Parser.match_ self args = Parsing.Raise Parsing.IndexError).
Proof.
  intros self args. split; [|split].
  - intros token Hpos Hn.
    induction args as [|arg args IH]; [reflexivity|].
    destruct (parser_check_inside self token arg Hpos Hn) as (Hcheck & Hadv).
    cbn [Parsing.Parser.match_ existsb]. rewrite Hcheck.
    destruct (Nat.eqb (Parsing.token_type token) arg); cbn [orb].
    + rewrite Hadv. reflexivity.
    + exact IH.
  - reflexivity.
  - intros Hne Hend. destruct args as [|arg args]; [contradiction|].
    cbn [Parsing.Parser.match_]. unfold Parsing.Parser.check, Parsing.Parser.peek.
    rewrite item_beyond by exact Hend. reflexivity.
Qed.

Lemma parser_match_witness :
  Parsing.Parser.match_
    (Parsing.Parser.mk [Parsing.mkToken 2%nat "b"; Parsing.mkToken 0%nat "eof"] 0 0 [])
    [1; 2; 2]%nat =
  Parsing.Ok
    (true, Parsing.Parser.mk [Parsing.mkToken 2%nat "b"; Parsing.mkToken 0%nat "eof"] 1 0 []) /\
  Parsing.Parser.match_ Parsing.Parser.new [1%nat] = Parsing.Raise Parsing.IndexError.
Proof.
  split.
  - apply (proj1 (parser_match
                    (Parsing.Parser.mk [Parsing.mkToken 2%nat "b"; Parsing.mkToken 0%nat "eof"] 0 0 [])
                    [1; 2; 2]%nat) (Parsing.mkToken 2%nat "b"));
      [cbn; lia|reflexivity].
  - apply (proj2 (proj2 (parser_match Parsing.Parser.new [1%nat])));
      [discriminate|cbn; lia].
Defined.

(** X21 -- [Parser.consume]: with the cursor on a token of the type asked
    for, [consume] returns that token and moves the cursor on by one, the
    list of errors untouched; on a token of another type it returns [None],
    leaves the cursor where it is and adds the message at the end of the
    list of errors, which it never shortens; with the cursor at or past the
    end of the tokens it raises [IndexError] and records nothing. *)
Theorem parser_consume :
  forall self token_type message,
    (forall token,
        0 <= Parsing.Parser.current self ->
        nth_error (Parsing.Parser.tokens self) (Z.to_nat (Parsing.Parser.current self))
          = Some token ->
        (Parsing.token_type token = token_type ->
         Parsing.Parser.consume self token_type message =
         Parsing.Ok
           (Some token,
            Parsing.Parser.mk (Parsing.Parser.tokens self)
              (Parsing.Parser.current self + 1)
              (Parsing.Parser.start self) (Parsing.Parser.errors self))) /\
        (Parsing.token_type token <> token_type ->
         Parsing.Parser.consume self token_type message =
         Parsing.Ok
           (None,
            Parsing.Parser.mk (Parsing.Parser.tokens self)
              (Parsing.Parser.current self)
              (Parsing.Parser.start self)
              (Parsing.Parser.errors self ++ [message])))) /\
    (Z.of_nat (List.length (Parsing.Parser.tokens self)) <= Parsing.Parser.current self ->
     Parsing.Parser.consume self token_type message = Parsing.Raise Parsing.IndexError).
Proof.
  intros self token_type message. split.
  - intros token Hpos Hn.
    destruct (parser_check_inside self token token_type Hpos Hn) as (Hcheck & Hadv).
    unfold Parsing.Parser.consume. rewrite Hcheck. split.
    + intros ->. rewrite Nat.eqb_refl, Hadv. reflexivity.
    + intros Hne. apply Nat.eqb_neq in Hne. rewrite Hne. reflexivity.
  - intros Hend. unfold Parsing.Parser.consume, Parsing.Parser.check,
      Parsing.Parser.peek.
    rewrite item_beyond by exact Hend. reflexivity.
Qed.

Lemma parser_consume_witness :
  Parsing.Parser.consume
    (Parsing.Parser.mk [Parsing.mkToken 2%nat "b"; Parsing.mkToken 0%nat "eof"] 0 0 [])
    1%nat "expected a" =
  Parsing.Ok
    (None,
     Parsing.Parser.mk [Parsing.mkToken 2%nat "b"; Parsing.mkToken 0%nat "eof"] 0 0
       ["expected a"%string]) /\
  Parsing.Parser.consume
    (Parsing.Parser.mk [Parsing.mkToken 2%nat "b"; Parsing.mkToken 0%nat "eof"] 0 0 [])
    2%nat "expected b" =
  Parsing.Ok
    (Some (Parsing.mkToken 2%nat "b"),
     Parsing.Parser.mk [Parsing.mkToken 2%nat "b"; Parsing.mkToken 0%nat "eof"] 1 0 []).
Proof.
  split.
  - apply (proj1 (parser_consume
                    (Parsing.Parser.mk [Parsing.mkToken 2%nat "b"; Parsing.mkToken 0%nat "eof"] 0 0 [])
                    1%nat "expected a") (Parsing.mkToken 2%nat "b"));
      [cbn; lia|reflexivity|discriminate].
  - apply (proj1 (parser_consume
                    (Parsing.Parser.mk [Parsing.mkToken 2%nat "b"; Parsing.mkToken 0%nat "eof"] 0 0 [])
                    2%nat "expected b") (Parsing.mkToken 2%nat "b"));
      [cbn; lia|reflexivity|reflexivity].
Defined.

(** X22 -- Looking around the cursor of the [Parser]: after an [advance]
    made on a token, [previous] gives that token; with the cursor below 1
    [previous] raises [RuntimeError]; for a cursor that is not negative
    [peek_next] never fails: it gives the token after the cursor when there
    is one and [None] otherwise; and [is_at_end] already holds on the last
    token, where [peek] still gives a token. *)
Theorem parser_lookaround :
  forall self,
    (forall token,
        0 <= Parsing.Parser.current self ->
        nth_error (Parsing.Parser.tokens self) (Z.to_nat (Parsing.Parser.current self))
          = Some token ->
        exists self',
          Parsing.Parser.advance self = Parsing.Ok (token, self') /\
          Parsing.Parser.previous self' = Parsing.Ok token /\
          Parsing.Parser.peek self = Parsing.Ok token /\
          (Parsing.Parser.is_at_end self = true <->
           Parsing.Parser.current self
             = Z.of_nat (List.length (Parsing.Parser.tokens self)) - 1)) /\
    (Parsing.Parser.current self < 1 ->
     Parsing.Parser.previous self =
     Parsing.Raise (Parsing.RuntimeError "Called previous at index 0.")) /\
    (0 <= Parsing.Parser.current self ->
     Parsing.Parser.peek_next self =
     Parsing.Ok (nth_error (Parsing.Parser.tokens self)
                   (Z.to_nat (Parsing.Parser.current self + 1)))).
Proof.
  intros self. split; [|split].
  - intros token Hpos Hn.
    destruct (parser_check_inside self token O Hpos Hn) as (_ & Hadv).
    assert (Hlt : (Z.to_nat (Parsing.Parser.current self)
                   < List.length (Parsing.Parser.tokens self))%nat).
    { apply nth_error_Some. rewrite Hn. discriminate. }
    destruct (item_inside (Parsing.Parser.tokens self) (Parsing.Parser.current self))
      as (a & Hn' & Hi); [lia|].
    rewrite Hn in Hn'. injection Hn' as <-.
    eexists. split; [exact Hadv|]. split; [|split].
    + unfold Parsing.Parser.previous. cbn.
      destruct (Z.leb_spec 1 (Parsing.Parser.current self + 1)); [|lia].
      replace (Parsing.Parser.current self + 1 - 1)
        with (Parsing.Parser.current self) by lia.
      exact Hi.
    + exact Hi.
    + unfold Parsing.Parser.is_at_end.
      destruct (Z.leb_spec (Z.of_nat (List.length (Parsing.Parser.tokens self)) - 1)
                  (Parsing.Parser.current self)); split; intros H'; try lia;
        try reflexivity; discriminate.
  - intros Hlow. unfold Parsing.Parser.previous.
    destruct (Z.leb_spec 1 (Parsing.Parser.current self)); [lia|reflexivity].
  - intros Hpos. unfold Parsing.Parser.peek_next, Parsing.Parser.is_at_end.
    destruct (Z.leb_spec (Z.of_nat (List.length (Parsing.Parser.tokens self)) - 1)
                (Parsing.Parser.current self)) as [Hend|Hin]; cbn [negb].
    + symmetry. f_equal. apply nth_error_None. lia.
    + destruct (item_inside (Parsing.Parser.tokens self)
                  (Parsing.Parser.current self + 1)) as (a & Hn & Hi); [lia|].
      rewrite Hi, Hn. reflexivity.
Qed.

Lemma parser_lookaround_witness :
  (exists self',
      Parsing.Parser.advance
        (Parsing.Parser.mk [Parsing.mkToken 2%nat "b"; Parsing.mkToken 0%nat "eof"] 1 0 []) =
        Parsing.Ok (Parsing.mkToken 0%nat "eof", self') /\
      Parsing.Parser.previous self' = Parsing.Ok (Parsing.mkToken 0%nat "eof") /\
      Parsing.Parser.peek
        (Parsing.Parser.mk [Parsing.mkToken 2%nat "b"; Parsing.mkToken 0%nat "eof"] 1 0 []) =
        Parsing.Ok (Parsing.mkToken 0%nat "eof") /\
      (Parsing.Parser.is_at_end
         (Parsing.Parser.mk [Parsing.mkToken 2%nat "b"; Parsing.mkToken 0%nat "eof"] 1 0 []) = true <->
       1 = Z.of_nat 2 - 1)) /\
  Parsing.Parser.previous Parsing.Parser.new =
    Parsing.Raise (Parsing.RuntimeError "Called previous at index 0.") /\
  Parsing.Parser.peek_next Parsing.Parser.new = Parsing.Ok None.
Proof.
  split; [|split].
  - apply (proj1 (parser_lookaround
                    (Parsing.Parser.mk [Parsing.mkToken 2%nat "b"; Parsing.mkToken 0%nat "eof"] 1 0 []))
             (Parsing.mkToken 0%nat "eof")); [cbn; lia|reflexivity].
  - apply (proj1 (proj2 (parser_lookaround Parsing.Parser.new))). cbn. lia.
  - apply (proj2 (proj2 (parser_lookaround Parsing.Parser.new))). cbn. lia.
Defined.
